(** * anki-mcp: batch mutation and similarity search of [server.py]

    A shallow embedding of the tools [update_note], [create_notes_bulk],
    [update_notes_bulk] and [find_similar_notes] of [src/server.py], with the
    helpers they call.  The Anki store (AnkiConnect) and the embedding
    provider (OpenAI) are external services: they are the variables of
    Section [Server], every call to them is threaded through an explicit
    world and recorded in the list of requests sent.  The decorator
    [@mcp_server.tool()] is taken to register a tool and leave the function
    callable, as [update_notes_bulk] calls [update_note] directly. *)

From Stdlib Require Import List String Ascii ZArith Lia Bool Sorted Permutation.
From Stdlib Require Import DecimalString.
Import ListNotations.
Open Scope string_scope.
Set Warnings "-register-all".

(** ** Python strings *)

(** [str.isspace] on one character.  A character of [string] stands for a code
    point below 256; these are the ones Python counts as whitespace there. *)
Definition py_isspace (c : ascii) : bool :=
  let n := nat_of_ascii c in
  (((9 <=? n) && (n <=? 13)) || ((28 <=? n) && (n <=? 32))
   || (n =? 133) || (n =? 160))%nat.

Fixpoint lstrip (s : string) : string :=
  match s with
  | EmptyString => EmptyString
  | String c s' => if py_isspace c then lstrip s' else s
  end.

(** [s.rstrip()]: the characters of [s] up to its last non-blank one. *)
Fixpoint rstrip (s : string) : string :=
  match s with
  | EmptyString => EmptyString
  | String c s' =>
      match rstrip s' with
      | EmptyString => if py_isspace c then EmptyString else String c EmptyString
      | r => String c r
      end
  end.

(** [s.strip()] *)
Definition strip (s : string) : string := rstrip (lstrip s).

(** Truth value of a string: [if s] holds for the non-empty ones. *)
Definition str_truthy (s : string) : bool :=
  match s with EmptyString => false | String _ _ => true end.

(** [sep.join(parts)] *)
Definition join (sep : string) (parts : list string) : string :=
  String.concat sep parts.

(** The double quote, for [f"deck:\"{deck_name}\""]. *)
Definition dquote : string := String "034"%char EmptyString.

(** ** Python dicts: insertion-ordered, as association lists *)

Section Dict.
Context {V : Type}.

(** [d.get(k)] *)
Fixpoint dict_get (d : list (string * V)) (k : string) : option V :=
  match d with
  | [] => None
  | (k', v) :: d' => if String.eqb k' k then Some v else dict_get d' k
  end.

(** [k in d] *)
Definition dict_mem (d : list (string * V)) (k : string) : bool :=
  match dict_get d k with Some _ => true | None => false end.

(** [d[k] = v]: an existing key keeps its place, a new one goes last. *)
Fixpoint dict_set (d : list (string * V)) (k : string) (v : V)
  : list (string * V) :=
  match d with
  | [] => [(k, v)]
  | (k', v') :: d' =>
      if String.eqb k' k then (k', v) :: d' else (k', v') :: dict_set d' k v
  end.

(** [d.keys()] and [d.values()] *)
Definition dict_keys (d : list (string * V)) : list string := map fst d.

Definition dict_values (d : list (string * V)) : list V := map snd d.

End Dict.

(** [lst[:stop]] *)
Definition slice_to {A : Type} (l : list A) (stop : Z) : list A :=
  if (0 <=? stop)%Z then firstn (Z.to_nat stop) l
  else firstn (Z.to_nat (Z.of_nat (List.length l) + stop)) l.

(** ** [list.sort(key=..., reverse=True)]

    The sort is Python's builtin: stable, comparing keys with [<] only; with
    [reverse=True] the list is reversed, sorted ascending, and reversed again,
    so that elements with equal keys keep their original order. *)
Section PySort.
Context {A K : Type}.
Variable lt : K -> K -> bool.
Variable key : A -> K.

Fixpoint insert_asc (x : A) (l : list A) : list A :=
  match l with
  | [] => [x]
  | y :: l' => if lt (key y) (key x) then y :: insert_asc x l' else x :: y :: l'
  end.

Definition sort_asc (l : list A) : list A := fold_right insert_asc [] l.

Definition sort_reverse (l : list A) : list A := rev (sort_asc (rev l)).

End PySort.

(** *** Comparisons of the sort keys

    [ge] and [lt] stand for [>=] and [<] on the keys. What is assumed of them
    is what holds of IEEE floats: a comparison that holds has numbers on both
    sides (a number is a key [x] with [x >= x], any float but NaN); on
    numbers [>=] is total and [<] is its strict part; [>=] is transitive. *)
Definition number {K : Type} (ge : K -> K -> bool) (x : K) : Prop :=
  ge x x = true.

Definition float_comparisons {K : Type} (ge lt : K -> K -> bool) : Prop :=
  (forall a b, ge a b = true -> number ge a /\ number ge b)
  /\ (forall a b, number ge a -> number ge b -> lt a b = negb (ge a b))
  /\ (forall a b, number ge a -> number ge b ->
                  ge a b = true \/ ge b a = true)
  /\ (forall a b c, ge a b = true -> ge b c = true -> ge a c = true).

(** Non-increasing keys, and keys that compare equal to [s]. *)
Definition key_ge {A K : Type} (ge : K -> K -> bool) (key : A -> K)
  (x y : A) : Prop :=
  ge (key x) (key y) = true.

Definition tied {A K : Type} (ge : K -> K -> bool) (key : A -> K)
  (s : K) (x : A) : bool :=
  ge (key x) s && ge s (key x).

(** ** The server *)

Section Server.

(** Python floats (similarity scores): only their comparisons are used. *)
Variable score : Type.
(** [a >= b] and [a < b] on floats. *)
Variable score_ge : score -> score -> bool.
Variable score_lt : score -> score -> bool.
(** [bool(x)] and [round(x, 4)] on floats. *)
Variable score_truthy : score -> bool.
Variable round4 : score -> score.
(** Embedding vectors, and the state of the outside world (the Anki
    collection, the embedding provider). *)
Variable vector : Type.
Variable World : Type.

(** JSON-like Python values: what the tools receive and return. *)
Inductive json : Type :=
| JNull
| JBool (b : bool)
| JInt (n : Z)
| JFloat (x : score)
| JStr (s : string)
| JList (items : list json)
| JDict (entries : list (string * json)).

(** A Python dict with string keys. *)
Definition pydict : Type := list (string * json).

(** [str(v)], as f-strings apply it. *)
Variable py_str : json -> string.

(** [bool(v)] *)
Definition truthy (v : json) : bool :=
  match v with
  | JNull => false
  | JBool b => b
  | JInt n => negb (n =? 0)%Z
  | JFloat x => score_truthy x
  | JStr s => str_truthy s
  | JList items => match items with [] => false | _ => true end
  | JDict entries => match entries with [] => false | _ => true end
  end.

(** [v is None] *)
Definition is_None (v : json) : bool :=
  match v with JNull => true | _ => false end.

(** [type(v).__name__] *)
Definition type_name (v : json) : string :=
  match v with
  | JNull => "NoneType"
  | JBool _ => "bool"
  | JInt _ => "int"
  | JFloat _ => "float"
  | JStr _ => "str"
  | JList _ => "list"
  | JDict _ => "dict"
  end.

(** [len(l)] as a Python int. *)
Definition len {A : Type} (l : list A) : json := JInt (Z.of_nat (List.length l)).

(** *** What AnkiConnect and the embedding provider answer *)

(** One field of a note as [notesInfo] reports it. *)
Record field_data : Type := { value : string }.

(** A note as [notesInfo] reports it; [note_fields] is in the note type's
    field order. *)
Record note : Type := {
  note_noteId : json;
  note_modelName : json;
  note_tags : json;
  note_fields : list (string * field_data)
}.

(** The decoded body of an AnkiConnect answer: [response.status_code], then
    [result["error"]] and [result["result"]] ([None] for JSON null). *)
Record response (A : Type) : Type := {
  status_code : Z;
  error : json;
  result : option A
}.
Arguments status_code {A} _.
Arguments error {A} _.
Arguments result {A} _.

(** [requests.post] either raises (with [str(e)]) or answers; an answer whose
    body is not the JSON the protocol promises is outside the model. *)
Inductive reply (R : Type) : Type :=
| Unreachable (why : string)
| Replied (r : R).
Arguments Unreachable {R} why.
Arguments Replied {R} r.

(** The embedding endpoint's answer: status, raw text, and
    [result["data"][0]["embedding"]] when the body has it. *)
Record embedding_response : Type := {
  emb_status_code : Z;
  emb_text : string;
  emb_embedding : option vector
}.

(** The requests the server sends. *)
Inductive request : Type :=
| FindNotes (query : string)
| NotesInfo (notes : list json)
| UpdateNoteFields (note_data : json)
| AddNotes (notes : list json)
| Embeddings (api_key : string) (input : string).

(** The services themselves. [notesInfo] answers a missing note with an empty
    object, here [None]. *)
Variable anki_findNotes :
  World -> string -> reply (response (list json)) * World.
Variable anki_notesInfo :
  World -> list json -> reply (response (list (option note))) * World.
Variable anki_updateNoteFields :
  World -> json -> reply (response unit) * World.
Variable anki_addNotes :
  World -> list json -> reply (response (list json)) * World.
Variable openai_embeddings :
  World -> string -> string -> reply embedding_response * World.
(** [_cosine_similarity]: numpy arithmetic; it may raise (shape mismatch). *)
Variable cosine_similarity : vector -> vector -> string + score.

(** *** Runs: a result or an exception, the world afterwards, the requests sent *)

Inductive outcome (A : Type) : Type :=
| Returned (a : A)
| Raised (e : string).
Arguments Returned {A} a.
Arguments Raised {A} e.

Record run (A : Type) : Type := Run {
  outcome_of : outcome A;
  world_of : World;
  sent_of : list request
}.
Arguments Run {A} _ _ _.
Arguments outcome_of {A} _.
Arguments world_of {A} _.
Arguments sent_of {A} _.

Definition M (A : Type) : Type := World -> run A.

Definition ret {A : Type} (a : A) : M A := fun w => Run (Returned a) w [].

Definition raise {A : Type} (e : string) : M A := fun w => Run (Raised e) w [].

Definition bind {A B : Type} (m : M A) (k : A -> M B) : M B :=
  fun w =>
    let r := m w in
    match outcome_of r with
    | Returned a =>
        let r' := k a (world_of r) in
        Run (outcome_of r') (world_of r') (sent_of r ++ sent_of r')
    | Raised e => Run (Raised e) (world_of r) (sent_of r)
    end.

(** [try: m  except Exception as e: h e] *)
Definition catch {A : Type} (m : M A) (h : string -> M A) : M A :=
  fun w =>
    let r := m w in
    match outcome_of r with
    | Returned a => r
    | Raised e =>
        let r' := h e (world_of r) in
        Run (outcome_of r') (world_of r') (sent_of r ++ sent_of r')
    end.

Notation "x <- m ;; k" := (bind m (fun x => k))
  (at level 61, m at next level, right associativity).

(** [requests.post(...)] followed by [response.json()]. *)
Definition post {R : Type} (req : request) (service : World -> reply R * World)
  : M R :=
  fun w =>
    let (r, w') := service w in
    match r with
    | Unreachable why => Run (Raised why) w' [req]
    | Replied resp => Run (Returned resp) w' [req]
    end.

(** The two error results every Anki call can end in. *)
Definition failure (err : json) : pydict :=
  [("error", err); ("success", JBool false)].

Definition connect_failure (status : Z) : pydict :=
  failure (JStr ("Failed to connect to Anki: " ++ py_str (JInt status))).

(** *** [update_note] *)

(** [notes_info[0]] when [notes_info] and its first element are truthy. *)
Definition first_note (notes_info : option (list (option note))) : option note :=
  match notes_info with
  | Some (Some current_note :: _) => Some current_note
  | _ => None
  end.

(** [fields.items()]: an [AttributeError] unless [fields] is a dict. *)
Definition items (fields : json) : M pydict :=
  match fields with
  | JDict entries => ret entries
  | other =>
      raise ("'" ++ type_name other ++ "' object has no attribute 'items'")
  end.

(** The first loop of the merge: every existing field with its value. *)
Definition existing_fields (current_note : note) : pydict :=
  fold_left (fun updated_fields (item : string * field_data) =>
               dict_set updated_fields (fst item) (JStr (value (snd item))))
            (note_fields current_note) [].

(** The second loop: the caller's fields on top. *)
Definition overlay (updated_fields new_fields : pydict) : pydict :=
  fold_left (fun updated_fields (item : string * json) =>
               dict_set updated_fields (fst item) (snd item))
            new_fields updated_fields.

(** [note_data], as sent with [updateNoteFields]. *)
Definition note_update (note_id : json) (current_note : note)
  (new_fields : pydict) (tags : json) : json :=
  JDict [("id", note_id);
         ("fields", JDict (overlay (existing_fields current_note) new_fields));
         ("tags", if negb (is_None tags) then tags else note_tags current_note)].

Definition update_note (note_id fields tags : json) : M pydict :=
  response <- post (NotesInfo [note_id])
                   (fun w => anki_notesInfo w [note_id]) ;;
  if negb (status_code response =? 200)%Z then
    ret (connect_failure (status_code response))
  else if truthy (error response) then ret (failure (error response))
  else
    match first_note (result response) with
    | None =>
        ret (failure (JStr ("Note with ID " ++ py_str note_id ++ " not found")))
    | Some current_note =>
        new_fields <- items fields ;;
        let note_data := note_update note_id current_note new_fields tags in
        response <- post (UpdateNoteFields note_data)
                         (fun w => anki_updateNoteFields w note_data) ;;
        if negb (status_code response =? 200)%Z then
          ret (connect_failure (status_code response))
        else if truthy (error response) then ret (failure (error response))
        else
          ret [("success", JBool true);
               ("note_id", note_id);
               ("updated_fields", JList (map JStr (dict_keys new_fields)));
               ("message",
                JStr ("Successfully updated note " ++ py_str note_id
                      ++ " with fields: " ++ join ", " (dict_keys new_fields)))]
    end.

(** *** [create_notes_bulk] *)

(** The loop that prepares the notes for Anki: the error result of the first
    item it refuses, or [anki_notes]. *)
Fixpoint prepare_notes (deck_name : string) (i : nat) (notes_list : list json)
  (anki_notes : list json) : pydict + list json :=
  match notes_list with
  | [] => inr anki_notes
  | note_data :: rest =>
      match note_data with
      | JDict entries =>
          match dict_get entries "model_name", dict_get entries "fields" with
          | Some model_name, Some fields =>
              let anki_note :=
                JDict [("deckName", JStr deck_name);
                       ("modelName", model_name);
                       ("fields", fields);
                       ("tags", match dict_get entries "tags" with
                                | Some tags => tags
                                | None => JList []
                                end)] in
              prepare_notes deck_name (S i) rest (anki_notes ++ [anki_note])
          | _, _ =>
              inl (failure (JStr ("Note " ++ py_str (JInt (Z.of_nat i + 1))
                     ++ " missing required 'model_name' or 'fields'")))
          end
      | _ =>
          inl (failure (JStr ("Note " ++ py_str (JInt (Z.of_nat i + 1))
                 ++ " is not a dictionary")))
      end
  end.

(** The result [create_notes_bulk] builds from the identifiers Anki returned. *)
Definition create_outcome (notes_list note_ids : list json) : pydict :=
  let successful_notes :=
    filter (fun note_id => negb (is_None note_id)) note_ids in
  let failed_count := len (filter is_None note_ids) in
  [("success", JBool true);
   ("total_attempted", len notes_list);
   ("successful_count", len successful_notes);
   ("failed_count", failed_count);
   ("note_ids", JList note_ids);
   ("message",
    JStr ("Successfully created " ++ py_str (len successful_notes)
          ++ " out of " ++ py_str (len notes_list) ++ " notes"))].

Definition create_notes_bulk (deck_name : string) (notes_list : list json)
  : M pydict :=
  match notes_list with
  | [] => ret (failure (JStr "No notes provided"))
  | _ =>
      match prepare_notes deck_name 0 notes_list [] with
      | inl refused => ret refused
      | inr anki_notes =>
          response <- post (AddNotes anki_notes)
                           (fun w => anki_addNotes w anki_notes) ;;
          if negb (status_code response =? 200)%Z then
            ret (connect_failure (status_code response))
          else if truthy (error response) then ret (failure (error response))
          else
            match result response with
            | None => raise "'NoneType' object is not iterable"
            | Some note_ids => ret (create_outcome notes_list note_ids)
            end
      end
  end.

(** *** [update_notes_bulk] *)

(** Where the loop body files an item: in [successful_updates] or in
    [failed_updates]. *)
Inductive recorded : Type :=
| Succeeded (entry : json)
| Failed (entry : json).

(** [d[k]]: a [KeyError] when the key is missing. *)
Definition getitem (d : pydict) (k : string) : M json :=
  match dict_get d k with
  | Some v => ret v
  | None => raise ("'" ++ k ++ "'")
  end.

(** [d.get(k, default)] *)
Definition get_or (d : pydict) (k : string) (default : json) : json :=
  match dict_get d k with Some v => v | None => default end.

(** The body of the loop over [enumerate(updates)]. *)
Definition update_one (i : nat) (update_data : json) : M recorded :=
  match update_data with
  | JDict entries =>
      if negb (dict_mem entries "note_id") || negb (dict_mem entries "fields")
      then
        ret (Failed (JDict [("index", JInt (Z.of_nat i));
                            ("error", JStr "Missing required 'note_id' or 'fields'");
                            ("data", update_data)]))
      else
        catch
          (note_id <- getitem entries "note_id" ;;
           fields <- getitem entries "fields" ;;
           result <- update_note note_id fields (get_or entries "tags" JNull) ;;
           if truthy (get_or result "success" JNull) then
             updated_fields <- getitem result "updated_fields" ;;
             ret (Succeeded (JDict [("note_id", note_id);
                                    ("updated_fields", updated_fields)]))
           else
             ret (Failed (JDict [("index", JInt (Z.of_nat i));
                                 ("note_id", note_id);
                                 ("error",
                                  get_or result "error" (JStr "Unknown error"));
                                 ("data", update_data)])))
          (fun e =>
             ret (Failed (JDict [("index", JInt (Z.of_nat i));
                                 ("note_id",
                                  get_or entries "note_id" (JStr "unknown"));
                                 ("error", JStr e);
                                 ("data", update_data)])))
  | _ =>
      ret (Failed (JDict [("index", JInt (Z.of_nat i));
                          ("error", JStr "Update data is not a dictionary");
                          ("data", update_data)]))
  end.

Fixpoint update_loop (i : nat) (updates : list json)
  (successful_updates failed_updates : list json)
  : M (list json * list json) :=
  match updates with
  | [] => ret (successful_updates, failed_updates)
  | update_data :: rest =>
      r <- update_one i update_data ;;
      match r with
      | Succeeded entry =>
          update_loop (S i) rest (successful_updates ++ [entry]) failed_updates
      | Failed entry =>
          update_loop (S i) rest successful_updates (failed_updates ++ [entry])
      end
  end.

(** The result [update_notes_bulk] builds from its two lists. *)
Definition update_outcome (updates successful_updates failed_updates : list json)
  : pydict :=
  [("success", JBool true);
   ("total_attempted", len updates);
   ("successful_count", len successful_updates);
   ("failed_count", len failed_updates);
   ("successful_updates", JList successful_updates);
   ("failed_updates", JList failed_updates);
   ("message",
    JStr ("Successfully updated " ++ py_str (len successful_updates)
          ++ " out of " ++ py_str (len updates) ++ " notes"))].

Definition update_notes_bulk (updates : list json) : M pydict :=
  match updates with
  | [] => ret (failure (JStr "No updates provided"))
  | _ =>
      lists <- update_loop 0 updates [] [] ;;
      ret (update_outcome updates (fst lists) (snd lists))
  end.

(** *** [find_similar_notes] *)

(** [_get_text_embedding] *)
Definition get_text_embedding (text api_key : string) : M vector :=
  response <- post (Embeddings api_key text)
                   (fun w => openai_embeddings w api_key text) ;;
  if negb (emb_status_code response =? 200)%Z then
    raise ("OpenAI API error: " ++ py_str (JInt (emb_status_code response))
           ++ " - " ++ emb_text response)
  else
    match emb_embedding response with
    | Some embedding => ret embedding
    | None => raise "'data'"
    end.

(** [_cosine_similarity], raising what numpy raises. *)
Definition cosine (vec1 vec2 : vector) : M score :=
  match cosine_similarity vec1 vec2 with
  | inl e => raise e
  | inr similarity => ret similarity
  end.

(** One entry of [similarities]. *)
Record candidate : Type := {
  c_note : note;
  c_similarity : score;
  c_combined_text : string
}.

(** The text of a note that is embedded: the join of its non-blank values. *)
Definition combined_text (n : note) : string :=
  join " "
    (map value
       (filter (fun field_data => str_truthy (strip (value field_data)))
          (dict_values (note_fields n)))).

(** The body of the loop over [notes]: the entry appended, if any. A note
    without fields (an empty object) raises [KeyError('fields')]. *)
Definition score_note (search_embedding : vector) (api_key : string)
  (similarity_threshold : score) (n : option note) : M (option candidate) :=
  match n with
  | None => raise "'fields'"
  | Some note =>
      let text := combined_text note in
      if negb (str_truthy (strip text)) then ret None
      else
        catch
          (note_embedding <- get_text_embedding text api_key ;;
           similarity <- cosine search_embedding note_embedding ;;
           if score_ge similarity similarity_threshold then
             ret (Some {| c_note := note;
                          c_similarity := similarity;
                          c_combined_text := text |})
           else ret None)
          (fun _ => ret None)
  end.

Fixpoint score_notes (search_embedding : vector) (api_key : string)
  (similarity_threshold : score) (notes : list (option note))
  (similarities : list candidate) : M (list candidate) :=
  match notes with
  | [] => ret similarities
  | n :: rest =>
      appended <- score_note search_embedding api_key similarity_threshold n ;;
      score_notes search_embedding api_key similarity_threshold rest
        (match appended with
         | Some item => similarities ++ [item]
         | None => similarities
         end)
  end.

(** Sort by similarity, highest first, and limit the results. *)
Definition rank (max_results : Z) (similarities : list candidate)
  : list candidate :=
  slice_to (sort_reverse score_lt c_similarity similarities) max_results.

Definition format_note (item : candidate) : json :=
  JDict [("note_id", note_noteId (c_note item));
         ("model_name", note_modelName (c_note item));
         ("tags", note_tags (c_note item));
         ("similarity_score", JFloat (round4 (c_similarity item)));
         ("fields", JDict (existing_fields (c_note item)))].

(** The [try] block up to the end of the loop: an early result, or
    [similarities] as the loop leaves it. *)
Definition gather (api_key deck_name search_text : string)
  (similarity_threshold : score) : M (pydict + list candidate) :=
  let query := "deck:" ++ dquote ++ deck_name ++ dquote in
  response <- post (FindNotes query) (fun w => anki_findNotes w query) ;;
  if negb (status_code response =? 200)%Z then
    ret (inl (connect_failure (status_code response)))
  else if truthy (error response) then ret (inl (failure (error response)))
  else
    match result response with
    | None | Some [] =>
        ret (inl (failure (JStr ("No notes found in deck '" ++ deck_name ++ "'"))))
    | Some note_ids =>
        response <- post (NotesInfo note_ids)
                         (fun w => anki_notesInfo w note_ids) ;;
        if negb (status_code response =? 200)%Z then
          ret (inl (connect_failure (status_code response)))
        else if truthy (error response) then
          ret (inl (failure (error response)))
        else
          search_embedding <- get_text_embedding search_text api_key ;;
          match result response with
          | None => raise "'NoneType' object is not iterable"
          | Some notes =>
              similarities <- score_notes search_embedding api_key
                                similarity_threshold notes [] ;;
              ret (inr similarities)
          end
    end.

(** The result for the matches that are left after ranking. *)
Definition report (deck_name search_text : string) (similarity_threshold : score)
  (similarities : list candidate) : pydict :=
  match similarities with
  | [] =>
      [("success", JBool true);
       ("found_count", JInt 0);
       ("message",
        JStr ("No notes found with similarity >= "
              ++ py_str (JFloat similarity_threshold) ++ " to '" ++ search_text
              ++ "' in deck '" ++ deck_name ++ "'"));
       ("notes", JList [])]
  | _ =>
      [("success", JBool true);
       ("search_text", JStr search_text);
       ("found_count", len similarities);
       ("similarity_threshold", JFloat similarity_threshold);
       ("deck_name", JStr deck_name);
       ("notes", JList (map format_note similarities))]
  end.

Definition missing_key_error : pydict :=
  [("error",
    JStr "OpenAI API key not found. Please set OPENAI_API_KEY environment variable.");
   ("success", JBool false);
   ("setup_instructions",
    JStr "Run: export OPENAI_API_KEY='your-api-key-here' or add it to your .env file")].

(** [api_key] is [os.getenv("OPENAI_API_KEY")]. *)
Definition find_similar_notes (api_key : option string)
  (deck_name search_text : string) (similarity_threshold : score)
  (max_results : Z) : M pydict :=
  match api_key with
  | Some key =>
      if str_truthy key then
        catch
          (found <- gather key deck_name search_text similarity_threshold ;;
           match found with
           | inl early => ret early
           | inr similarities =>
               ret (report deck_name search_text similarity_threshold
                      (rank max_results similarities))
           end)
          (fun e => ret (failure (JStr ("Failed to find similar notes: " ++ e))))
      else ret missing_key_error
  | None => ret missing_key_error
  end.

(** ** The vocabulary of the properties *)

(** A string that is empty or all whitespace. *)
Fixpoint blank (s : string) : bool :=
  match s with
  | EmptyString => true
  | String c s' => py_isspace c && blank s'
  end.

(** The flattening rule in the words of the specification: the values of the
    fields, in field order, that are not blank, joined by a single space; the
    field names are dropped. *)
Fixpoint kept_values (fields : list (string * field_data)) : list string :=
  match fields with
  | [] => []
  | (_, field) :: rest =>
      if blank (value field) then kept_values rest
      else value field :: kept_values rest
  end.

(** Joined by a single space. *)
Fixpoint spaced (values : list string) : string :=
  match values with
  | [] => ""
  | [v] => v
  | v :: rest => v ++ " " ++ spaced rest
  end.

Definition flattened_text (fields : list (string * field_data)) : string :=
  spaced (kept_values fields).

(** An item the preparation loop accepts. *)
Definition well_formed_note (note_data : json) : bool :=
  match note_data with
  | JDict entries => dict_mem entries "model_name" && dict_mem entries "fields"
  | _ => false
  end.

(** An update item the loop hands to [update_note]. *)
Definition well_formed_update (update_data : json) : bool :=
  match update_data with
  | JDict entries => dict_mem entries "note_id" && dict_mem entries "fields"
  | _ => false
  end.

(** What the loop records, item by item and in input order. *)
Fixpoint update_records (i : nat) (updates : list json) : M (list recorded) :=
  match updates with
  | [] => ret []
  | update_data :: rest =>
      r <- update_one i update_data ;;
      rs <- update_records (S i) rest ;;
      ret (r :: rs)
  end.

(** The entries filed in [successful_updates], and in [failed_updates]. *)
Definition successes (rs : list recorded) : list json :=
  flat_map (fun r => match r with Succeeded e => [e] | Failed _ => [] end) rs.

Definition failures (rs : list recorded) : list json :=
  flat_map (fun r => match r with Succeeded _ => [] | Failed e => [e] end) rs.

(** The records of a batch, and the world it leaves. *)
Definition records_of (i : nat) (updates : list json) (w : World) : list recorded :=
  match outcome_of (update_records i updates w) with
  | Returned rs => rs
  | Raised _ => []
  end.

Definition world_after (i : nat) (updates : list json) (w : World) : World :=
  world_of (update_records i updates w).

(** The three counts of a batch outcome add up. *)
Definition counts_add_up (out : pydict) : Prop :=
  exists s f t : Z,
    dict_get out "successful_count" = Some (JInt s)
    /\ dict_get out "failed_count" = Some (JInt f)
    /\ dict_get out "total_attempted" = Some (JInt t)
    /\ (s + f = t)%Z.

(** [l1] is [l2] with some elements left out, the others in their order. *)
Inductive subsequence {A : Type} : list A -> list A -> Prop :=
| subsequence_nil : subsequence [] []
| subsequence_skip x l1 l2 : subsequence l1 l2 -> subsequence l1 (x :: l2)
| subsequence_keep x l1 l2 : subsequence l1 l2 -> subsequence (x :: l1) (x :: l2).

(** An entry the loop may append: its score clears the threshold and its
    text is the note's flattened text, which is not blank. *)
Definition cleared (similarity_threshold : score) (item : candidate) : Prop :=
  score_ge (c_similarity item) similarity_threshold = true
  /\ c_combined_text item = combined_text (c_note item)
  /\ blank (c_combined_text item) = false.

(** The notes of the deck as the store reported them: the answer to
    [notesInfo] for the identifiers [findNotes] gave. *)
Definition retrieved (deck_name : string) (w : World)
  (notes : list (option note)) : Prop :=
  let query := "deck:" ++ dquote ++ deck_name ++ dquote in
  exists r0 note_ids r,
    fst (anki_findNotes w query) = Replied r0
    /\ result r0 = Some note_ids
    /\ fst (anki_notesInfo (snd (anki_findNotes w query)) note_ids) = Replied r
    /\ result r = Some notes.

(** ** Properties *)

(** *** Sorted lists *)

Lemma sorted_snoc {A : Type} (R : A -> A -> Prop) (l : list A) (x : A) :
  StronglySorted R l -> Forall (fun y => R y x) l ->
  StronglySorted R (l ++ [x]).
Proof.
  induction 1 as [| y l Hs IH Hy]; intros Hall; simpl.
  - constructor; constructor.
  - inversion Hall; subst. constructor; [apply IH; assumption |].
    apply Forall_app. split; [assumption | constructor; [assumption | constructor]].
Qed.

Lemma sorted_rev {A : Type} (R : A -> A -> Prop) (l : list A) :
  StronglySorted (fun a b => R b a) l -> StronglySorted R (rev l).
Proof.
  induction 1 as [| y l Hs IH Hy]; simpl; [constructor |].
  apply sorted_snoc; [exact IH |].
  apply Forall_rev. exact Hy.
Qed.

Lemma sorted_prefix {A : Type} (R : A -> A -> Prop) (l1 l2 : list A) :
  StronglySorted R (l1 ++ l2) -> StronglySorted R l1.
Proof.
  induction l1 as [| x l1 IH]; simpl; intros H; [constructor |].
  inversion H as [| ? ? Hs Hx]; subst.
  constructor; [apply IH; exact Hs |].
  apply Forall_app in Hx. tauto.
Qed.

(** *** Facts about the sort *)
Section SortFacts.
Context {A K : Type}.
Variable ge lt : K -> K -> bool.
Variable key : A -> K.

Lemma insert_asc_perm (x : A) (l : list A) :
  Permutation (insert_asc lt key x l) (x :: l).
Proof.
  induction l as [| y l IH]; simpl; [apply Permutation_refl |].
  destruct (lt (key y) (key x)).
  - eapply perm_trans; [apply perm_skip, IH | apply perm_swap].
  - apply Permutation_refl.
Qed.

Lemma sort_asc_perm (l : list A) : Permutation (sort_asc lt key l) l.
Proof.
  induction l as [| x l IH]; simpl; [apply perm_nil |].
  eapply perm_trans; [apply insert_asc_perm | apply perm_skip, IH].
Qed.

Lemma sort_reverse_perm (l : list A) : Permutation (sort_reverse lt key l) l.
Proof.
  unfold sort_reverse.
  eapply perm_trans; [apply Permutation_sym, Permutation_rev |].
  eapply perm_trans; [apply sort_asc_perm |].
  apply Permutation_sym, Permutation_rev.
Qed.

Hypothesis Hfloat : float_comparisons ge lt.

Lemma insert_asc_sorted (x : A) (l : list A) :
  number ge (key x) ->
  Forall (fun y => number ge (key y)) l ->
  StronglySorted (fun a b => key_ge ge key b a) l ->
  StronglySorted (fun a b => key_ge ge key b a) (insert_asc lt key x l).
Proof.
  destruct Hfloat as (_ & Hlt & Htot & Htrans).
  intros Hx Hnum Hs. induction Hs as [| y l Hs IH Hy]; simpl.
  - constructor; constructor.
  - inversion Hnum as [| ? ? Hny Hnl]; subst.
    destruct (lt (key y) (key x)) eqn:E.
    + constructor; [apply IH; assumption |].
      eapply Permutation_Forall;
        [apply Permutation_sym, insert_asc_perm |].
      constructor; [| exact Hy].
      rewrite (Hlt _ _ Hny Hx) in E. apply negb_true_iff in E.
      destruct (Htot _ _ Hny Hx) as [H | H]; [congruence | exact H].
    + rewrite (Hlt _ _ Hny Hx) in E. apply negb_false_iff in E.
      constructor; [constructor; assumption |].
      constructor; [exact E |].
      eapply Forall_impl; [| exact Hy].
      intros z Hz. unfold key_ge in *. eapply Htrans; eassumption.
Qed.

Lemma sort_asc_sorted (l : list A) :
  Forall (fun y => number ge (key y)) l ->
  StronglySorted (fun a b => key_ge ge key b a) (sort_asc lt key l).
Proof.
  induction l as [| x l IH]; intros Hnum; simpl; [constructor |].
  inversion Hnum; subst.
  apply insert_asc_sorted; auto.
  eapply Permutation_Forall; [apply Permutation_sym, sort_asc_perm | assumption].
Qed.

(** The sort puts the keys in non-increasing order. *)
Lemma sort_reverse_sorted (l : list A) :
  Forall (fun y => number ge (key y)) l ->
  StronglySorted (key_ge ge key) (sort_reverse lt key l).
Proof.
  intros Hnum. unfold sort_reverse. apply sorted_rev.
  apply sort_asc_sorted. apply Forall_rev. exact Hnum.
Qed.

Lemma insert_asc_tied (s : K) (x : A) (l : list A) :
  number ge (key x) ->
  Forall (fun y => number ge (key y)) l ->
  filter (tied ge key s) (insert_asc lt key x l) = filter (tied ge key s) (x :: l).
Proof.
  destruct Hfloat as (_ & Hlt & _ & Htrans).
  intros Hx Hnum. induction l as [| y l IH]; [reflexivity |].
  inversion Hnum as [| ? ? Hny Hnl]; subst. simpl.
  destruct (lt (key y) (key x)) eqn:E; [| reflexivity].
  simpl. rewrite (IH Hnl). simpl.
  rewrite (Hlt _ _ Hny Hx) in E. apply negb_true_iff in E.
  destruct (tied ge key s y) eqn:Ty, (tied ge key s x) eqn:Tx; try reflexivity.
  unfold tied in Ty, Tx.
  apply andb_true_iff in Ty as [Ty _]. apply andb_true_iff in Tx as [_ Tx].
  rewrite (Htrans _ _ _ Ty Tx) in E. discriminate.
Qed.

Lemma sort_asc_tied (s : K) (l : list A) :
  Forall (fun y => number ge (key y)) l ->
  filter (tied ge key s) (sort_asc lt key l) = filter (tied ge key s) l.
Proof.
  induction l as [| x l IH]; intros Hnum; [reflexivity |].
  inversion Hnum; subst. simpl sort_asc.
  rewrite insert_asc_tied; auto.
  - simpl. rewrite IH by assumption. reflexivity.
  - eapply Permutation_Forall; [apply Permutation_sym, sort_asc_perm | assumption].
Qed.

(** The sort is stable: elements with tied keys keep their order. *)
Lemma sort_reverse_tied (s : K) (l : list A) :
  Forall (fun y => number ge (key y)) l ->
  filter (tied ge key s) (sort_reverse lt key l) = filter (tied ge key s) l.
Proof.
  intros Hnum. unfold sort_reverse.
  rewrite filter_rev, sort_asc_tied by (apply Forall_rev; exact Hnum).
  rewrite filter_rev. apply rev_involutive.
Qed.

End SortFacts.

(** A slice is a prefix. *)
Lemma slice_to_prefix {A : Type} (l : list A) (stop : Z) :
  exists rest, l = (slice_to l stop ++ rest)%list.
Proof.
  unfold slice_to. destruct (0 <=? stop)%Z;
    eexists; symmetry; apply firstn_skipn.
Qed.

Lemma slice_to_length {A : Type} (l : list A) (stop : Z) :
  (0 <= stop)%Z ->
  (Z.of_nat (List.length (slice_to l stop)) <= stop)%Z
  /\ (List.length (slice_to l stop) <= List.length l)%nat.
Proof.
  intros H. unfold slice_to.
  destruct (0 <=? stop)%Z eqn:E; [| apply Z.leb_gt in E; lia].
  rewrite length_firstn. lia.
Qed.

(** *** Batch creation *)

Lemma prepare_notes_refuses deck_name pre entries post :
  forallb well_formed_note pre = true ->
  dict_mem entries "model_name" && dict_mem entries "fields" = false ->
  forall i anki_notes,
    prepare_notes deck_name i (pre ++ JDict entries :: post) anki_notes =
    inl (failure (JStr ("Note "
           ++ py_str (JInt (Z.of_nat (i + List.length pre) + 1))
           ++ " missing required 'model_name' or 'fields'"))).
Proof.
  intros Hpre Hbad. induction pre as [| x pre IH]; intros i anki_notes.
  - simpl. unfold dict_mem in Hbad.
    rewrite Nat.add_0_r.
    destruct (dict_get entries "model_name"), (dict_get entries "fields");
      simpl in Hbad; try discriminate; reflexivity.
  - simpl in Hpre. apply andb_true_iff in Hpre as [Hx Hpre].
    specialize (IH Hpre). simpl.
    destruct x; simpl in Hx; try discriminate.
    unfold dict_mem in Hx.
    destruct (dict_get entries0 "model_name"), (dict_get entries0 "fields");
      simpl in Hx; try discriminate.
    rewrite IH. replace (S i + List.length pre)%nat with (i + List.length (JDict entries0 :: pre))%nat by (simpl; lia). reflexivity.
Qed.

Lemma prepare_notes_inl deck_name notes_list :
  forall i anki_notes refused,
    prepare_notes deck_name i notes_list anki_notes = inl refused ->
    exists err, refused = failure err.
Proof.
  induction notes_list as [| x rest IH]; intros i anki_notes refused H.
  - discriminate.
  - simpl in H.
    destruct x; try (injection H as <-; eexists; reflexivity).
    destruct (dict_get entries "model_name");
      [destruct (dict_get entries "fields") |];
      try (injection H as <-; eexists; reflexivity).
    eapply IH; eassumption.
Qed.

(** Every successful bulk creation went through one [addNotes] call. *)
Lemma create_success_inv deck_name notes_list w out w' log :
  create_notes_bulk deck_name notes_list w = Run (Returned out) w' log ->
  dict_get out "success" = Some (JBool true) ->
  exists anki_notes r note_ids,
    prepare_notes deck_name 0 notes_list [] = inr anki_notes
    /\ anki_addNotes w anki_notes = (Replied r, w')
    /\ status_code r = 200%Z
    /\ truthy (error r) = false
    /\ result r = Some note_ids
    /\ out = create_outcome notes_list note_ids
    /\ log = [AddNotes anki_notes].
Proof.
  intros Hrun Hok. unfold create_notes_bulk in Hrun.
  destruct notes_list as [| x rest].
  { injection Hrun as <- _ _. discriminate. }
  destruct (prepare_notes deck_name 0 (x :: rest) []) as [refused | anki_notes] eqn:Hprep.
  { apply prepare_notes_inl in Hprep as [err ->].
    injection Hrun as <- _ _. discriminate. }
  unfold bind, post in Hrun.
  destruct (anki_addNotes w anki_notes) as [[why | r] w1] eqn:Hpost; simpl in Hrun.
  { discriminate. }
  destruct (status_code r =? 200)%Z eqn:Hst; simpl in Hrun.
  2:{ injection Hrun as <- _ _. discriminate. }
  destruct (truthy (error r)) eqn:Herr; simpl in Hrun.
  { injection Hrun as <- _ _. discriminate. }
  destruct (result r) as [note_ids |] eqn:Hres; simpl in Hrun.
  2:{ discriminate. }
  injection Hrun as <- <- <-.
  exists anki_notes, r, note_ids.
  apply Z.eqb_eq in Hst. repeat split; auto.
Qed.

Lemma create_ok deck_name notes_list anki_notes w r w' note_ids :
  notes_list <> [] ->
  prepare_notes deck_name 0 notes_list [] = inr anki_notes ->
  anki_addNotes w anki_notes = (Replied r, w') ->
  status_code r = 200%Z ->
  truthy (error r) = false ->
  result r = Some note_ids ->
  create_notes_bulk deck_name notes_list w =
  Run (Returned (create_outcome notes_list note_ids)) w' [AddNotes anki_notes].
Proof.
  intros Hne Hprep Hpost Hst Herr Hres. unfold create_notes_bulk.
  destruct notes_list as [| x rest]; [congruence |].
  rewrite Hprep. unfold bind, post. rewrite Hpost. simpl.
  rewrite Hst, Herr, Hres. reflexivity.
Qed.

Lemma filter_snd_combine {A B : Type} (f : B -> bool) (xs : list A) :
  forall ys, List.length ys = List.length xs ->
    List.length (filter (fun p => f (snd p)) (combine xs ys))
    = List.length (filter f ys).
Proof.
  induction xs as [| x xs IH]; intros [| y ys] Hlen; simpl in *; try discriminate;
    try reflexivity.
  injection Hlen as Hlen. destruct (f y); simpl; rewrite IH; auto.
Qed.

Lemma filter_partition_length {A : Type} (f : A -> bool) (l : list A) :
  (List.length (filter (fun x => negb (f x)) l) + List.length (filter f l)
   = List.length l)%nat.
Proof.
  induction l as [| x l IH]; simpl; [reflexivity |].
  destruct (f x); simpl; lia.
Qed.

(** C10: an empty input list makes both batch tools return an error result,
    [success] false with the error text [No notes provided] (creation) or
    [No updates provided] (update), without any call to the store, and not a
    batch outcome with [total_attempted] 0. *)
Theorem empty_batch_is_an_error (deck_name : string) (w : World) :
  create_notes_bulk deck_name [] w
  = Run (Returned [("error", JStr "No notes provided"); ("success", JBool false)])
        w []
  /\ update_notes_bulk [] w
     = Run (Returned [("error", JStr "No updates provided");
                      ("success", JBool false)]) w []
  /\ dict_get (failure (JStr "No notes provided")) "total_attempted" = None.
Proof. repeat split. Qed.

(** C1 (amended): when an item of a non-empty notes list lacks [model_name]
    or [fields], and the items before it are well formed, [create_notes_bulk]
    returns one error result for the whole call: [success] false, the error
    naming the 1-based position of that item; it sends nothing to the store,
    for no item, and leaves the world as it was. *)
Theorem create_refuses_the_whole_batch (deck_name : string)
  (pre : list json) (entries : pydict) (post : list json) (w : World) :
  forallb well_formed_note pre = true ->
  dict_mem entries "model_name" && dict_mem entries "fields" = false ->
  create_notes_bulk deck_name (pre ++ JDict entries :: post) w
  = Run (Returned
           [("error",
             JStr ("Note " ++ py_str (JInt (Z.of_nat (List.length pre) + 1))
                   ++ " missing required 'model_name' or 'fields'"));
            ("success", JBool false)]) w [].
Proof.
  intros Hpre Hbad. unfold create_notes_bulk.
  rewrite (prepare_notes_refuses deck_name pre entries post Hpre Hbad 0 []).
  destruct pre; reflexivity.
Qed.

(** C8: when the store's [addNotes] call succeeds and answers one identifier
    per item, [successful_count] is the number of items whose aligned
    identifier is not null and [failed_count] the number of items whose
    aligned identifier is null; no exception is raised for the latter. *)
Theorem create_counts_by_aligned_identifier (deck_name : string)
  (notes_list anki_notes : list json) (w w' : World)
  (r : response (list json)) (note_ids : list json) :
  notes_list <> [] ->
  prepare_notes deck_name 0 notes_list [] = inr anki_notes ->
  anki_addNotes w anki_notes = (Replied r, w') ->
  status_code r = 200%Z ->
  truthy (error r) = false ->
  result r = Some note_ids ->
  List.length note_ids = List.length notes_list ->
  exists out,
    create_notes_bulk deck_name notes_list w
    = Run (Returned out) w' [AddNotes anki_notes]
    /\ dict_get out "success" = Some (JBool true)
    /\ dict_get out "successful_count"
       = Some (len (filter (fun item => negb (is_None (snd item)))
                      (combine notes_list note_ids)))
    /\ dict_get out "failed_count"
       = Some (len (filter (fun item => is_None (snd item))
                      (combine notes_list note_ids))).
Proof.
  intros Hne Hprep Hpost Hst Herr Hres Hlen.
  exists (create_outcome notes_list note_ids). split.
  { eapply create_ok; eassumption. }
  unfold create_outcome, len. simpl.
  rewrite (filter_snd_combine (fun v => negb (is_None v)) notes_list note_ids Hlen).
  rewrite (filter_snd_combine is_None notes_list note_ids Hlen).
  repeat split.
Qed.

(** *** Updating one note *)

Lemma dict_get_set {V : Type} (d : list (string * V)) (k k' : string) (v : V) :
  dict_get (dict_set d k v) k'
  = if String.eqb k k' then Some v else dict_get d k'.
Proof.
  induction d as [| [k0 v0] d IH]; simpl.
  - reflexivity.
  - destruct (String.eqb k0 k) eqn:E0; simpl.
    + apply String.eqb_eq in E0. subst k0.
      destruct (String.eqb k k'); reflexivity.
    + rewrite IH. destruct (String.eqb k0 k') eqn:E1; [| reflexivity].
      apply String.eqb_eq in E1. subst k0.
      rewrite String.eqb_sym, E0. reflexivity.
Qed.

Lemma dict_get_absent {V : Type} (d : list (string * V)) (k : string) :
  ~ In k (dict_keys d) -> dict_get d k = None.
Proof.
  induction d as [| [k0 v0] d IH]; simpl; intros Hk; [reflexivity |].
  destruct (String.eqb k0 k) eqn:E.
  - apply String.eqb_eq in E. tauto.
  - apply IH. tauto.
Qed.

(** The caller's fields only touch the names they mention. *)
Lemma overlay_unmentioned (new_fields : pydict) (name : string) :
  dict_mem new_fields name = false ->
  forall updated_fields,
    dict_get (overlay updated_fields new_fields) name
    = dict_get updated_fields name.
Proof.
  unfold overlay, dict_mem.
  induction new_fields as [| [k v] rest IH]; simpl; intros Hk d; [reflexivity |].
  destruct (String.eqb k name) eqn:E; [discriminate |].
  rewrite IH by exact Hk. rewrite dict_get_set, E. reflexivity.
Qed.

Lemma existing_fields_get (l : list (string * field_data)) (name : string) :
  NoDup (dict_keys l) ->
  forall acc : pydict,
    dict_get
      (fold_left (fun updated_fields (item : string * field_data) =>
                    dict_set updated_fields (fst item) (JStr (value (snd item))))
                 l acc) name
    = match dict_get l name with
      | Some field => Some (JStr (value field))
      | None => dict_get acc name
      end.
Proof.
  induction l as [| [k fd] l IH]; simpl; intros Hnd acc; [reflexivity |].
  inversion Hnd as [| ? ? Hk Hnd']; subst.
  rewrite IH by exact Hnd'. rewrite dict_get_set.
  destruct (String.eqb k name) eqn:E.
  - apply String.eqb_eq in E. subst k.
    rewrite (dict_get_absent l name Hk). reflexivity.
  - reflexivity.
Qed.

(** Every successful update read the note and then sent one merged update. *)
Lemma update_success_inv note_id fields tags w out w' log :
  update_note note_id fields tags w = Run (Returned out) w' log ->
  dict_get out "success" = Some (JBool true) ->
  exists r w1 current_note new_fields r2,
    anki_notesInfo w [note_id] = (Replied r, w1)
    /\ status_code r = 200%Z /\ truthy (error r) = false
    /\ first_note (result r) = Some current_note
    /\ fields = JDict new_fields
    /\ anki_updateNoteFields w1
         (note_update note_id current_note new_fields tags) = (Replied r2, w')
    /\ status_code r2 = 200%Z /\ truthy (error r2) = false
    /\ log = [NotesInfo [note_id];
              UpdateNoteFields (note_update note_id current_note new_fields tags)].
Proof.
  intros Hrun Hok. unfold update_note, bind, post in Hrun.
  destruct (anki_notesInfo w [note_id]) as [[why | r] w1] eqn:Hinfo;
    simpl in Hrun; [discriminate |].
  destruct (status_code r =? 200)%Z eqn:Hst; simpl in Hrun.
  2:{ injection Hrun as <- _ _. discriminate. }
  destruct (truthy (error r)) eqn:Herr; simpl in Hrun.
  { injection Hrun as <- _ _. discriminate. }
  destruct (first_note (result r)) as [current_note |] eqn:Hcur; simpl in Hrun.
  2:{ injection Hrun as <- _ _. discriminate. }
  destruct fields; simpl in Hrun; try discriminate.
  destruct (anki_updateNoteFields w1
              (note_update note_id current_note entries tags))
    as [[why | r2] w2] eqn:Hupd; simpl in Hrun; [discriminate |].
  destruct (status_code r2 =? 200)%Z eqn:Hst2; simpl in Hrun.
  2:{ injection Hrun as <- _ _. discriminate. }
  destruct (truthy (error r2)) eqn:Herr2; simpl in Hrun.
  { injection Hrun as <- _ _. discriminate. }
  injection Hrun as _ <- <-.
  exists r, w1, current_note, entries, r2.
  apply Z.eqb_eq in Hst, Hst2. repeat split; auto.
Qed.

(** C3: in every successful update, the store is sent one [updateNoteFields]
    request in which each field name the caller's [fields] does not mention
    carries the value the note currently has (for a note whose field names
    are distinct, as those of a dict are), and whose tags are the caller's
    when [tags] is supplied and the note's current tags otherwise. *)
Theorem update_keeps_unmentioned_fields (note_id fields tags : json)
  (w w' : World) (out : pydict) (log : list request) :
  update_note note_id fields tags w = Run (Returned out) w' log ->
  dict_get out "success" = Some (JBool true) ->
  exists r current_note new_fields sent_fields sent_tags,
    fst (anki_notesInfo w [note_id]) = Replied r
    /\ first_note (result r) = Some current_note
    /\ fields = JDict new_fields
    /\ log = [NotesInfo [note_id];
              UpdateNoteFields (JDict [("id", note_id);
                                       ("fields", JDict sent_fields);
                                       ("tags", sent_tags)])]
    /\ (NoDup (dict_keys (note_fields current_note)) ->
        forall name,
          dict_mem new_fields name = false ->
          dict_get sent_fields name
          = option_map (fun field => JStr (value field))
              (dict_get (note_fields current_note) name))
    /\ sent_tags = (if is_None tags then note_tags current_note else tags).
Proof.
  intros Hrun Hok.
  destruct (update_success_inv _ _ _ _ _ _ _ Hrun Hok)
    as (r & w1 & current_note & new_fields & r2 & Hinfo & _ & _ & Hcur & Hf
        & _ & _ & _ & Hlog).
  exists r, current_note, new_fields,
    (overlay (existing_fields current_note) new_fields),
    (if is_None tags then note_tags current_note else tags).
  rewrite Hinfo. repeat split; auto.
  - rewrite Hlog. unfold note_update. destruct (is_None tags); reflexivity.
  - intros Hnd name Hname.
    rewrite (overlay_unmentioned new_fields name Hname).
    unfold existing_fields. rewrite existing_fields_get by exact Hnd.
    destruct (dict_get (note_fields current_note) name); reflexivity.
Qed.

(** *** Batch update *)

(** The loop body catches everything: it always files the item. *)
Lemma update_one_returns i update_data w :
  exists r, outcome_of (update_one i update_data w) = Returned r.
Proof.
  unfold update_one.
  destruct update_data; try (eexists; reflexivity).
  destruct (negb (dict_mem entries "note_id") || negb (dict_mem entries "fields"));
    [eexists; reflexivity |].
  unfold catch.
  match goal with |- context [outcome_of (?m w)] => destruct (outcome_of (m w)) eqn:E end.
  - eexists. rewrite E. reflexivity.
  - eexists. reflexivity.
Qed.

Lemma update_records_returns updates :
  forall i w,
    outcome_of (update_records i updates w) = Returned (records_of i updates w)
    /\ List.length (records_of i updates w) = List.length updates.
Proof.
  induction updates as [| u rest IH]; intros i w.
  - split; reflexivity.
  - unfold records_of. simpl. unfold bind.
    destruct (update_one_returns i u w) as [r Hr]. rewrite Hr.
    destruct (IH (S i) (world_of (update_one i u w))) as [Hrest Hlen].
    simpl. rewrite Hrest. simpl. split; [reflexivity |].
    rewrite Hlen. reflexivity.
Qed.

Lemma records_of_cons i u rest w :
  records_of i (u :: rest) w
  = (records_of i [u] w
     ++ records_of (S i) rest (world_after i [u] w))%list
  /\ world_after i (u :: rest) w = world_after (S i) rest (world_after i [u] w).
Proof.
  unfold records_of, world_after. simpl. unfold bind.
  destruct (update_one_returns i u w) as [r Hr]. rewrite Hr. simpl.
  destruct (update_records_returns rest (S i) (world_of (update_one i u w)))
    as [Hrest _].
  rewrite Hrest. simpl. split; reflexivity.
Qed.

Lemma records_of_app pre :
  forall i rest w,
    records_of i (pre ++ rest) w
    = (records_of i pre w
       ++ records_of (i + List.length pre) rest (world_after i pre w))%list
    /\ world_after i (pre ++ rest) w
       = world_after (i + List.length pre) rest (world_after i pre w).
Proof.
  induction pre as [| u pre IH]; intros i rest w.
  - simpl. rewrite Nat.add_0_r. split; reflexivity.
  - simpl app.
    destruct (records_of_cons i u (pre ++ rest) w) as [E1 E2].
    destruct (records_of_cons i u pre w) as [E3 E4].
    destruct (IH (S i) rest (world_after i [u] w)) as [E5 E6].
    simpl List.length. rewrite <- Nat.add_succ_comm.
    rewrite E1, E2, E3, E4, E5, E6, <- app_assoc.
    split; reflexivity.
Qed.

(** The loop's two lists are the successes and the failures of the records. *)
Lemma update_loop_records updates :
  forall i successful_updates failed_updates w,
    update_loop i updates successful_updates failed_updates w
    = Run (Returned ((successful_updates
                      ++ successes (records_of i updates w))%list,
                     (failed_updates
                      ++ failures (records_of i updates w))%list))
          (world_of (update_records i updates w))
          (sent_of (update_records i updates w)).
Proof.
  induction updates as [| u rest IH]; intros i s f w.
  - unfold records_of. simpl. rewrite !app_nil_r. reflexivity.
  - destruct (records_of_cons i u rest w) as [E1 _]. rewrite E1. clear E1.
    unfold records_of, world_after. simpl. unfold bind.
    destruct (update_one_returns i u w) as [r Hr]. rewrite Hr. simpl.
    destruct (update_records_returns rest (S i) (world_of (update_one i u w)))
      as [Hrest _].
    rewrite Hrest. simpl.
    unfold successes, failures. simpl. fold (successes (records_of (S i) rest (world_of (update_one i u w)))).
    fold (failures (records_of (S i) rest (world_of (update_one i u w)))).
    destruct r; rewrite IH; simpl; rewrite <- !app_assoc, ?app_nil_r; reflexivity.
Qed.

Lemma successes_failures_length rs :
  (List.length (successes rs) + List.length (failures rs) = List.length rs)%nat.
Proof.
  induction rs as [| [e | e] rs IH]; simpl; lia.
Qed.

Lemma update_outcome_counts updates rs :
  List.length rs = List.length updates ->
  counts_add_up (update_outcome updates (successes rs) (failures rs)).
Proof.
  intros Hlen. unfold counts_add_up, update_outcome, len. simpl.
  do 3 eexists. repeat split.
  rewrite <- Hlen, <- (successes_failures_length rs). lia.
Qed.

Lemma update_notes_bulk_records updates w :
  updates <> [] ->
  update_notes_bulk updates w
  = Run (Returned (update_outcome updates
                     (successes (records_of 0 updates w))
                     (failures (records_of 0 updates w))))
        (world_after 0 updates w)
        (sent_of (update_records 0 updates w)).
Proof.
  intros Hne. unfold update_notes_bulk.
  destruct updates as [| u rest]; [congruence |].
  unfold bind. rewrite update_loop_records. simpl.
  rewrite app_nil_r. reflexivity.
Qed.

Lemma records_around pre x post w :
  firstn (List.length pre) (records_of 0 (pre ++ x :: post) w)
  = records_of 0 pre w
  /\ firstn 1 (skipn (List.length pre) (records_of 0 (pre ++ x :: post) w))
     = records_of (List.length pre) [x] (world_after 0 pre w)
  /\ skipn (S (List.length pre)) (records_of 0 (pre ++ x :: post) w)
     = records_of (S (List.length pre)) post
         (world_after (List.length pre) [x] (world_after 0 pre w)).
Proof.
  destruct (records_of_app pre 0 (x :: post) w) as [E _]. rewrite E.
  change (0 + List.length pre)%nat with (List.length pre).
  destruct (records_of_cons (List.length pre) x post (world_after 0 pre w))
    as [E' _].
  rewrite E'.
  destruct (update_records_returns pre 0 w) as [_ Hpre].
  destruct (update_records_returns [x] (List.length pre) (world_after 0 pre w))
    as [_ Hx].
  split; [| split].
  - rewrite firstn_app, <- Hpre, firstn_all, Nat.sub_diag. simpl.
    apply app_nil_r.
  - rewrite skipn_app, skipn_all2 by lia.
    rewrite Hpre, Nat.sub_diag. simpl skipn. simpl app.
    change 1%nat with (List.length [x]). rewrite <- Hx.
    rewrite firstn_app, firstn_all, Nat.sub_diag. simpl.
    apply app_nil_r.
  - rewrite skipn_app, skipn_all2 by lia.
    rewrite Hpre.
    replace (S (List.length pre) - List.length pre)%nat with 1%nat by lia.
    rewrite skipn_app, skipn_all2 by (rewrite Hx; simpl; lia).
    rewrite Hx. reflexivity.
Qed.

(** *** Stores whose answers to an item do not depend on what another wrote *)

(** Two answers to the read of one note that the loop body cannot tell
    apart: the same failure; or the same status and error, and a note found
    in both, with the same field names, or in neither. *)
Definition read_alike (a b : reply (response (list (option note)))) : Prop :=
  match a, b with
  | Unreachable why1, Unreachable why2 => why1 = why2
  | Replied r1, Replied r2 =>
      status_code r1 = status_code r2
      /\ error r1 = error r2
      /\ match first_note (result r1), first_note (result r2) with
         | Some n1, Some n2 =>
             dict_keys (note_fields n1) = dict_keys (note_fields n2)
         | None, None => True
         | _, _ => False
         end
  | _, _ => False
  end.

(** Two answers to a write: the same failure, or the same status and
    error. *)
Definition write_alike (a b : reply (response unit)) : Prop :=
  match a, b with
  | Unreachable why1, Unreachable why2 => why1 = why2
  | Replied r1, Replied r2 =>
      status_code r1 = status_code r2 /\ error r1 = error r2
  | _, _ => False
  end.

(** Two [updateNoteFields] requests for the same note and the same field
    names; the values and the tags may differ. *)
Definition same_target (d1 d2 : json) : Prop :=
  exists note_id fields1 tags1 fields2 tags2,
    d1 = JDict [("id", note_id); ("fields", JDict fields1); ("tags", tags1)]
    /\ d2 = JDict [("id", note_id); ("fields", JDict fields2);
                   ("tags", tags2)]
    /\ dict_keys fields1 = dict_keys fields2.

(** [alike] relates states of the store that differ only in what the items
    of a batch wrote: neither a read nor a write takes a state out of its
    class, and states of one class answer alike, a read of the same note
    and a write to the same note with the same field names. *)
Definition answers_alike (alike : World -> World -> Prop) : Prop :=
  (forall w1 w2 note_id,
      alike w1 w2 ->
      alike (snd (anki_notesInfo w1 [note_id])) w2
      /\ alike w1 (snd (anki_notesInfo w2 [note_id])))
  /\ (forall w1 w2 note_data,
         alike w1 w2 ->
         alike (snd (anki_updateNoteFields w1 note_data)) w2
         /\ alike w1 (snd (anki_updateNoteFields w2 note_data)))
  /\ (forall w1 w2 note_id,
         alike w1 w2 ->
         read_alike (fst (anki_notesInfo w1 [note_id]))
                    (fst (anki_notesInfo w2 [note_id])))
  /\ (forall w1 w2 d1 d2,
         alike w1 w2 ->
         same_target d1 d2 ->
         write_alike (fst (anki_updateNoteFields w1 d1))
                     (fst (anki_updateNoteFields w2 d2))).

Lemma dict_set_keys (d1 : pydict) :
  forall (d2 : pydict) k v1 v2,
    dict_keys d1 = dict_keys d2 ->
    dict_keys (dict_set d1 k v1) = dict_keys (dict_set d2 k v2).
Proof.
  unfold dict_keys.
  induction d1 as [| [k1 x1] d1 IH]; intros [| [k2 x2] d2] k v1 v2 H;
    simpl in *; try discriminate; [reflexivity |].
  injection H as -> H.
  destruct (String.eqb k2 k); simpl; f_equal; [exact H | apply IH; exact H].
Qed.

Lemma existing_fields_keys (fields1 : list (string * field_data)) :
  forall (fields2 : list (string * field_data)) (acc1 acc2 : pydict),
    dict_keys fields1 = dict_keys fields2 ->
    dict_keys acc1 = dict_keys acc2 ->
    dict_keys
      (fold_left (fun updated_fields (item : string * field_data) =>
                    dict_set updated_fields (fst item)
                      (JStr (value (snd item)))) fields1 acc1)
    = dict_keys
        (fold_left (fun updated_fields (item : string * field_data) =>
                      dict_set updated_fields (fst item)
                        (JStr (value (snd item)))) fields2 acc2).
Proof.
  induction fields1 as [| [k1 x1] fields1 IH];
    intros [| [k2 x2] fields2] acc1 acc2 H Hacc;
    simpl in *; try discriminate; [exact Hacc |].
  unfold dict_keys in H. simpl in H. injection H as -> H.
  apply IH; [exact H | apply dict_set_keys; exact Hacc].
Qed.

Lemma overlay_keys (new_fields : pydict) :
  forall acc1 acc2 : pydict,
    dict_keys acc1 = dict_keys acc2 ->
    dict_keys (overlay acc1 new_fields) = dict_keys (overlay acc2 new_fields).
Proof.
  unfold overlay.
  induction new_fields as [| [k v] new_fields IH]; intros acc1 acc2 Hacc;
    simpl; [exact Hacc |].
  apply IH. apply dict_set_keys. exact Hacc.
Qed.

Lemma note_update_same_target note_id n1 n2 new_fields tags :
  dict_keys (note_fields n1) = dict_keys (note_fields n2) ->
  same_target (note_update note_id n1 new_fields tags)
              (note_update note_id n2 new_fields tags).
Proof.
  intros H. unfold note_update. do 5 eexists.
  split; [reflexivity |]. split; [reflexivity |].
  apply overlay_keys. unfold existing_fields.
  apply existing_fields_keys; [exact H | reflexivity].
Qed.

(** The state [update_note] leaves is the one its last request left. *)
Lemma update_note_world note_id fields tags w :
  world_of (update_note note_id fields tags w)
  = snd (anki_notesInfo w [note_id])
  \/ exists note_data,
       world_of (update_note note_id fields tags w)
       = snd (anki_updateNoteFields (snd (anki_notesInfo w [note_id]))
                note_data).
Proof.
  unfold update_note, bind, post.
  destruct (anki_notesInfo w [note_id]) as [[why | r] w1]; simpl;
    [left; reflexivity |].
  destruct (status_code r =? 200)%Z; simpl; [| left; reflexivity].
  destruct (truthy (error r)); simpl; [left; reflexivity |].
  destruct (first_note (result r)) as [current_note |]; simpl;
    [| left; reflexivity].
  destruct fields; simpl; try (left; reflexivity).
  right. exists (note_update note_id current_note entries tags).
  destruct (anki_updateNoteFields w1
              (note_update note_id current_note entries tags))
    as [[why | r2] w2]; simpl; [reflexivity |].
  destruct (status_code r2 =? 200)%Z; simpl; [| reflexivity].
  destruct (truthy (error r2)); reflexivity.
Qed.

Lemma update_one_world i update_data w :
  world_of (update_one i update_data w) = w
  \/ exists note_id fields tags,
       world_of (update_one i update_data w)
       = world_of (update_note note_id fields tags w).
Proof.
  unfold update_one.
  destruct update_data; try (left; reflexivity).
  destruct (negb (dict_mem entries "note_id") || negb (dict_mem entries "fields"));
    [left; reflexivity |].
  unfold catch, bind, getitem.
  destruct (dict_get entries "note_id") as [note_id |]; simpl;
    [| left; reflexivity].
  destruct (dict_get entries "fields") as [fields |]; simpl;
    [| left; reflexivity].
  right. exists note_id, fields, (get_or entries "tags" JNull).
  destruct (update_note note_id fields (get_or entries "tags" JNull) w)
    as [[res | e] w1 l1]; simpl; [| reflexivity].
  destruct (truthy (get_or res "success" JNull)); simpl; [| reflexivity].
  destruct (dict_get res "updated_fields"); reflexivity.
Qed.

Section Alike.

Variable alike : World -> World -> Prop.
Hypothesis Halike : answers_alike alike.

Lemma update_one_keeps i update_data w1 w2 :
  alike w1 w2 ->
  alike (world_of (update_one i update_data w1)) w2
  /\ alike w1 (world_of (update_one i update_data w2)).
Proof.
  destruct Halike as (Hread & Hwrite & _ & _). intros H.
  assert (Hnote : forall note_id fields tags,
             alike (world_of (update_note note_id fields tags w1)) w2
             /\ alike w1 (world_of (update_note note_id fields tags w2))).
  { intros note_id fields tags. split.
    - destruct (update_note_world note_id fields tags w1) as [-> | [d ->]].
      + apply Hread. exact H.
      + apply Hwrite. apply Hread. exact H.
    - destruct (update_note_world note_id fields tags w2) as [-> | [d ->]].
      + apply Hread. exact H.
      + apply Hwrite. apply Hread. exact H. }
  split.
  - destruct (update_one_world i update_data w1)
      as [-> | (note_id & fields & tags & ->)]; [exact H | apply Hnote].
  - destruct (update_one_world i update_data w2)
      as [-> | (note_id & fields & tags & ->)]; [exact H | apply Hnote].
Qed.

Lemma update_note_alike note_id fields tags w1 w2 :
  alike w1 w2 ->
  outcome_of (update_note note_id fields tags w1)
  = outcome_of (update_note note_id fields tags w2).
Proof.
  destruct Halike as (Hread & Hwrite & Hsame & Hack). intros H.
  pose proof (Hsame w1 w2 note_id H) as Hr.
  assert (H' : alike (snd (anki_notesInfo w1 [note_id]))
                     (snd (anki_notesInfo w2 [note_id]))).
  { apply Hread. apply Hread. exact H. }
  unfold update_note, bind, post.
  destruct (anki_notesInfo w1 [note_id]) as [[why1 | r1] w1'];
    destruct (anki_notesInfo w2 [note_id]) as [[why2 | r2] w2'];
    simpl in Hr, H'; try contradiction.
  { subst why2. reflexivity. }
  destruct Hr as (St & Er & Hn). simpl. rewrite <- St, <- Er.
  destruct (status_code r1 =? 200)%Z; simpl; [| reflexivity].
  destruct (truthy (error r1)); simpl; [reflexivity |].
  destruct (first_note (result r1)) as [n1 |],
           (first_note (result r2)) as [n2 |];
    try contradiction; simpl; [| reflexivity].
  destruct fields; simpl; try reflexivity.
  pose proof (Hack w1' w2' _ _ H'
                (note_update_same_target note_id n1 n2 entries tags Hn))
    as Hw.
  destruct (anki_updateNoteFields w1' _) as [[why1 | a1] w1''];
    destruct (anki_updateNoteFields w2' _) as [[why2 | a2] w2''];
    simpl in Hw; try contradiction.
  { subst why2. reflexivity. }
  destruct Hw as (St2 & Er2). simpl. rewrite <- St2, <- Er2.
  destruct (status_code a1 =? 200)%Z; simpl; [| reflexivity].
  destruct (truthy (error a1)); reflexivity.
Qed.

Lemma update_one_alike i update_data w1 w2 :
  alike w1 w2 ->
  outcome_of (update_one i update_data w1)
  = outcome_of (update_one i update_data w2).
Proof.
  intros H. unfold update_one.
  destruct update_data; try reflexivity.
  destruct (negb (dict_mem entries "note_id") || negb (dict_mem entries "fields"));
    [reflexivity |].
  unfold catch, bind, getitem.
  destruct (dict_get entries "note_id") as [note_id |]; simpl; [| reflexivity].
  destruct (dict_get entries "fields") as [fields |]; simpl; [| reflexivity].
  pose proof (update_note_alike note_id fields (get_or entries "tags" JNull)
                w1 w2 H) as Hu.
  destruct (update_note note_id fields (get_or entries "tags" JNull) w1)
    as [o1 w1' l1];
    destruct (update_note note_id fields (get_or entries "tags" JNull) w2)
      as [o2 w2' l2].
  simpl in Hu. subst o2. simpl.
  destruct o1 as [res | e]; simpl; [| reflexivity].
  destruct (truthy (get_or res "success" JNull)); simpl; [| reflexivity].
  destruct (dict_get res "updated_fields"); reflexivity.
Qed.

Lemma records_alike updates :
  forall i w1 w2,
    alike w1 w2 -> records_of i updates w1 = records_of i updates w2.
Proof.
  induction updates as [| u rest IH]; intros i w1 w2 H; [reflexivity |].
  destruct (records_of_cons i u rest w1) as [E1 _].
  destruct (records_of_cons i u rest w2) as [E2 _].
  rewrite E1, E2.
  assert (Hone : forall w, records_of i [u] w
                           = match outcome_of (update_one i u w) with
                             | Returned r => [r]
                             | Raised _ => []
                             end
                           /\ world_after i [u] w
                              = world_of (update_one i u w)).
  { intros w. unfold records_of, world_after. simpl. unfold bind.
    destruct (update_one_returns i u w) as [r Hr]. rewrite Hr. simpl.
    split; reflexivity. }
  destruct (Hone w1) as [R1 W1]. destruct (Hone w2) as [R2 W2].
  rewrite R1, R2, W1, W2, (update_one_alike i u w1 w2 H).
  f_equal. apply IH.
  destruct (update_one_keeps i u w1 w2 H) as [Hl _].
  destruct (update_one_keeps i u (world_of (update_one i u w1)) w2 Hl)
    as [_ Hr].
  exact Hr.
Qed.

End Alike.

(** An item the loop refuses by itself is filed with nothing sent. *)
Lemma malformed_update_run i update_data w :
  well_formed_update update_data = false ->
  world_of (update_one i update_data w) = w.
Proof.
  intros Hbad. unfold update_one. destruct update_data; try reflexivity.
  simpl in Hbad.
  destruct (dict_mem entries "note_id"), (dict_mem entries "fields");
    simpl in *; try discriminate; reflexivity.
Qed.

Lemma world_after_one i update_data w :
  world_after i [update_data] w = world_of (update_one i update_data w).
Proof.
  unfold world_after. simpl. unfold bind.
  destruct (update_one_returns i update_data w) as [r Hr]. rewrite Hr.
  reflexivity.
Qed.


(** *** Flattening a note's text *)

Lemma lstrip_blank s : blank s = true -> lstrip s = "".
Proof.
  induction s as [| c s IH]; simpl; [reflexivity |].
  intros H. apply andb_true_iff in H as [Hc Hs]. rewrite Hc. auto.
Qed.

Lemma lstrip_not_blank s :
  blank s = false ->
  exists c s', lstrip s = String c s' /\ py_isspace c = false.
Proof.
  induction s as [| c s IH]; simpl; [discriminate |].
  destruct (py_isspace c) eqn:Hc; simpl; intros H.
  - apply IH. exact H.
  - exists c, s. auto.
Qed.

Lemma rstrip_keeps_start c s :
  py_isspace c = false -> str_truthy (rstrip (String c s)) = true.
Proof.
  intros Hc. simpl. destruct (rstrip s); [rewrite Hc |]; reflexivity.
Qed.

(** [s.strip()] is truthy exactly when [s] is not blank. *)
Lemma strip_truthy s : str_truthy (strip s) = negb (blank s).
Proof.
  unfold strip. destruct (blank s) eqn:B.
  - rewrite lstrip_blank by exact B. reflexivity.
  - destruct (lstrip_not_blank s B) as (c & s' & -> & Hc).
    apply rstrip_keeps_start. exact Hc.
Qed.

Lemma spaced_join (values : list string) : spaced values = join " " values.
Proof.
  unfold join. induction values as [| v rest IH]; [reflexivity |].
  simpl. destruct rest; [reflexivity |]. rewrite IH. reflexivity.
Qed.

Lemma kept_values_filter (fields : list (string * field_data)) :
  kept_values fields
  = map value
      (filter (fun field_data => str_truthy (strip (value field_data)))
         (dict_values fields)).
Proof.
  unfold dict_values.
  induction fields as [| [name field] rest IH]; simpl; [reflexivity |].
  rewrite strip_truthy. destruct (blank (value field)); simpl; rewrite IH;
    reflexivity.
Qed.

Lemma combined_text_flattened (n : note) :
  combined_text n = flattened_text (note_fields n).
Proof.
  unfold combined_text, flattened_text.
  rewrite spaced_join, kept_values_filter. reflexivity.
Qed.

(** *** The similarity search *)

Lemma subsequence_nil_l {A : Type} (l : list A) : subsequence [] l.
Proof. induction l; constructor; assumption. Qed.

(** A note with a blank text is skipped before anything is sent. *)
Lemma score_note_blank search_embedding api_key similarity_threshold n w :
  blank (combined_text n) = true ->
  score_note search_embedding api_key similarity_threshold (Some n) w
  = Run (Returned None) w [].
Proof.
  intros B. unfold score_note. rewrite strip_truthy, B. reflexivity.
Qed.

Lemma score_note_appends search_embedding api_key similarity_threshold n w item :
  outcome_of (score_note search_embedding api_key similarity_threshold n w)
  = Returned (Some item) ->
  n = Some (c_note item) /\ cleared similarity_threshold item.
Proof.
  unfold score_note. destruct n as [nt |]; [| discriminate].
  rewrite strip_truthy.
  destruct (blank (combined_text nt)) eqn:B; simpl; [discriminate |].
  unfold catch, bind.
  destruct (outcome_of (get_text_embedding (combined_text nt) api_key w))
    as [embedding | e]; simpl; [| discriminate].
  unfold cosine.
  destruct (cosine_similarity search_embedding embedding) as [e | similarity];
    simpl; [discriminate |].
  destruct (score_ge similarity similarity_threshold) eqn:G; simpl;
    [| discriminate].
  intros H. injection H as <-. simpl. unfold cleared. simpl. auto.
Qed.

Lemma score_notes_inv search_embedding api_key similarity_threshold notes :
  forall similarities w result_list,
    outcome_of (score_notes search_embedding api_key similarity_threshold
                  notes similarities w) = Returned result_list ->
    exists appended,
      result_list = (similarities ++ appended)%list
      /\ Forall (cleared similarity_threshold) appended
      /\ subsequence (map (fun item => Some (c_note item)) appended) notes.
Proof.
  induction notes as [| n rest IH]; intros sims w res H.
  - simpl in H. injection H as <-. exists []. rewrite app_nil_r.
    repeat split; constructor.
  - simpl in H. unfold bind in H.
    destruct (outcome_of (score_note search_embedding api_key
                            similarity_threshold n w)) as [[item |] | e] eqn:E;
      simpl in H; [| | discriminate].
    + apply score_note_appends in E as [-> Hc].
      apply IH in H as (appended & -> & Hall & Hsub).
      exists (item :: appended). rewrite <- app_assoc. simpl.
      repeat split; [constructor; assumption |].
      apply subsequence_keep. exact Hsub.
    + apply IH in H as (appended & -> & Hall & Hsub).
      exists appended. repeat split; [assumption |].
      apply subsequence_skip. exact Hsub.
Qed.

(** What [gather] returns early is always an error result. *)
Lemma gather_early api_key deck_name search_text similarity_threshold w early :
  outcome_of (gather api_key deck_name search_text similarity_threshold w)
  = Returned (inl early) ->
  exists err, early = failure err.
Proof.
  unfold gather, bind, post.
  destruct (anki_findNotes w _) as [[why | r0] w1]; simpl; [discriminate |].
  destruct (status_code r0 =? 200)%Z; simpl.
  2:{ intros H. injection H as <-. eexists; reflexivity. }
  destruct (truthy (error r0)); simpl.
  { intros H. injection H as <-. eexists; reflexivity. }
  destruct (result r0) as [[| id ids] |]; simpl;
    try (intros H; injection H as <-; eexists; reflexivity).
  destruct (anki_notesInfo w1 (id :: ids)) as [[why | r] w2]; simpl;
    [discriminate |].
  destruct (status_code r =? 200)%Z; simpl.
  2:{ intros H. injection H as <-. eexists; reflexivity. }
  destruct (truthy (error r)); simpl.
  { intros H. injection H as <-. eexists; reflexivity. }
  destruct (outcome_of (get_text_embedding search_text api_key w2)); simpl;
    [| discriminate].
  destruct (result r); simpl; [| discriminate].
  destruct (outcome_of (score_notes _ _ _ _ _ _)); simpl; discriminate.
Qed.

(** When [gather] reaches the end of the loop, its list holds entries that
    cleared the threshold, in the order of the notes the store reported. *)
Lemma gather_candidates api_key deck_name search_text similarity_threshold w
  similarities :
  outcome_of (gather api_key deck_name search_text similarity_threshold w)
  = Returned (inr similarities) ->
  exists notes,
    retrieved deck_name w notes
    /\ Forall (cleared similarity_threshold) similarities
    /\ subsequence (map (fun item => Some (c_note item)) similarities) notes.
Proof.
  unfold gather, bind, post, retrieved.
  destruct (anki_findNotes w _) as [[why | r0] w1] eqn:F; simpl;
    [discriminate |].
  destruct (status_code r0 =? 200)%Z; simpl; [| discriminate].
  destruct (truthy (error r0)); simpl; [discriminate |].
  destruct (result r0) as [[| id ids] |] eqn:R0; simpl; try discriminate.
  destruct (anki_notesInfo w1 (id :: ids)) as [[why | r] w2] eqn:N; simpl;
    [discriminate |].
  destruct (status_code r =? 200)%Z; simpl; [| discriminate].
  destruct (truthy (error r)); simpl; [discriminate |].
  destruct (outcome_of (get_text_embedding search_text api_key w2))
    as [search_embedding | e]; simpl; [| discriminate].
  destruct (result r) as [notes |] eqn:R; simpl; [| discriminate].
  destruct (outcome_of (score_notes search_embedding api_key
                          similarity_threshold notes [] _))
    as [res | e] eqn:S; simpl; [| discriminate].
  intros H. injection H as <-.
  apply score_notes_inv in S as (appended & -> & Hall & Hsub).
  exists notes. split.
  - exists r0, (id :: ids), r. rewrite N. auto.
  - split; assumption.
Qed.

Lemma report_fields deck_name search_text similarity_threshold similarities :
  let out := report deck_name search_text similarity_threshold similarities in
  dict_get out "success" = Some (JBool true)
  /\ dict_get out "found_count" = Some (len similarities)
  /\ dict_get out "notes" = Some (JList (map format_note similarities)).
Proof. destruct similarities; repeat split. Qed.

(** A successful search went through [gather] and ranked its list. *)
Lemma find_success_inv api_key deck_name search_text similarity_threshold
  max_results w out w' log :
  find_similar_notes api_key deck_name search_text similarity_threshold
    max_results w = Run (Returned out) w' log ->
  dict_get out "success" = Some (JBool true) ->
  exists key similarities,
    api_key = Some key /\ str_truthy key = true
    /\ outcome_of (gather key deck_name search_text similarity_threshold w)
       = Returned (inr similarities)
    /\ out = report deck_name search_text similarity_threshold
               (rank max_results similarities).
Proof.
  unfold find_similar_notes. intros Hrun Hok.
  destruct api_key as [key |].
  2:{ injection Hrun as <- _ _. discriminate. }
  destruct (str_truthy key) eqn:K.
  2:{ injection Hrun as <- _ _. discriminate. }
  unfold catch, bind in Hrun.
  destruct (outcome_of (gather key deck_name search_text similarity_threshold w))
    as [[early | similarities] | e] eqn:G; simpl in Hrun.
  - apply gather_early in G as [err ->].
    injection Hrun as <- _ _. discriminate.
  - injection Hrun as <- _ _. exists key, similarities. auto.
  - injection Hrun as <- _ _. discriminate.
Qed.

Lemma cleared_number similarity_threshold similarities :
  float_comparisons score_ge score_lt ->
  Forall (cleared similarity_threshold) similarities ->
  Forall (fun item => number score_ge (c_similarity item)) similarities.
Proof.
  intros (H0 & _) Hall. eapply Forall_impl; [| exact Hall].
  intros item (Hge & _). apply (H0 _ _ Hge).
Qed.

Lemma rank_prefix max_results similarities :
  exists dropped,
    sort_reverse score_lt c_similarity similarities
    = (rank max_results similarities ++ dropped)%list.
Proof. unfold rank. apply slice_to_prefix. Qed.

Lemma rank_cleared similarity_threshold max_results similarities :
  Forall (cleared similarity_threshold) similarities ->
  Forall (cleared similarity_threshold) (rank max_results similarities).
Proof.
  intros Hall. destruct (rank_prefix max_results similarities) as [dropped E].
  assert (Hs : Forall (cleared similarity_threshold)
                 (sort_reverse score_lt c_similarity similarities)).
  { eapply Permutation_Forall;
      [apply Permutation_sym, sort_reverse_perm | exact Hall]. }
  rewrite E in Hs. apply Forall_app in Hs. tauto.
Qed.

(** C2 (amended): with the API key set, when the identifier query for the deck
    succeeds and answers an empty list (or null), as for an empty or unknown
    deck, [find_similar_notes] returns an error result: [success] false and
    the explicit error text [No notes found in deck '<deck_name>']; it sends
    nothing after that one query. *)
Theorem empty_deck_is_reported_as_error (key deck_name search_text : string)
  (similarity_threshold : score) (max_results : Z) (w w' : World)
  (r : response (list json)) :
  str_truthy key = true ->
  anki_findNotes w ("deck:" ++ dquote ++ deck_name ++ dquote) = (Replied r, w') ->
  status_code r = 200%Z ->
  truthy (error r) = false ->
  result r = Some [] \/ result r = None ->
  find_similar_notes (Some key) deck_name search_text similarity_threshold
    max_results w
  = Run (Returned [("error", JStr ("No notes found in deck '" ++ deck_name ++ "'"));
                   ("success", JBool false)])
        w' [FindNotes ("deck:" ++ dquote ++ deck_name ++ dquote)].
Proof.
  intros K F St Er Res. unfold find_similar_notes. rewrite K.
  unfold catch, gather, bind, post. cbv zeta. rewrite F. simpl.
  rewrite St, Er. simpl.
  destruct Res as [-> | ->]; reflexivity.
Qed.

(** C5: in every successful search the notes returned are the formatted
    entries of a list [ranked] that is in non-increasing order of similarity
    and is a prefix of a rearrangement of [similarities], the entries that
    cleared the threshold in the order the store reported their notes; for
    every score [s], the entries of [ranked] tied with [s] are, in the same
    order, the first of the entries of [similarities] tied with [s]. *)
Theorem results_sorted_and_stable (api_key : option string)
  (deck_name search_text : string) (similarity_threshold : score)
  (max_results : Z) (w w' : World) (out : pydict) (log : list request) :
  float_comparisons score_ge score_lt ->
  find_similar_notes api_key deck_name search_text similarity_threshold
    max_results w = Run (Returned out) w' log ->
  dict_get out "success" = Some (JBool true) ->
  exists notes similarities ranked dropped,
    retrieved deck_name w notes
    /\ subsequence (map (fun item => Some (c_note item)) similarities) notes
    /\ Forall (cleared similarity_threshold) similarities
    /\ dict_get out "notes" = Some (JList (map format_note ranked))
    /\ Permutation (ranked ++ dropped) similarities
    /\ StronglySorted (key_ge score_ge c_similarity) ranked
    /\ (forall s,
           filter (tied score_ge c_similarity s) similarities
           = (filter (tied score_ge c_similarity s) ranked
              ++ filter (tied score_ge c_similarity s) dropped)%list).
Proof.
  intros Hfloat Hrun Hok.
  destruct (find_success_inv _ _ _ _ _ _ _ _ _ Hrun Hok)
    as (key & similarities & _ & _ & G & ->).
  destruct (gather_candidates _ _ _ _ _ _ G) as (notes & Hret & Hall & Hsub).
  destruct (rank_prefix max_results similarities) as [dropped E].
  pose proof (cleared_number _ _ Hfloat Hall) as Hnum.
  exists notes, similarities, (rank max_results similarities), dropped.
  repeat split; auto.
  - apply report_fields.
  - rewrite <- E. apply sort_reverse_perm.
  - apply sorted_prefix with (l2 := dropped). rewrite <- E.
    apply sort_reverse_sorted; assumption.
  - intros s. rewrite <- filter_app, <- E. symmetry.
    apply sort_reverse_tied; assumption.
Qed.

(** C6: every entry behind a note returned by a successful search has a
    similarity [>=] the threshold; and whenever the loop ends, with no entry
    that cleared the threshold in particular, the search returns a result
    with [success] true, not an error: for no entry, [found_count] 0 and an
    empty list of notes. *)
Theorem results_clear_the_threshold :
  (forall (api_key : option string) (deck_name search_text : string)
          (similarity_threshold : score) (max_results : Z) (w w' : World)
          (out : pydict) (log : list request),
      find_similar_notes api_key deck_name search_text similarity_threshold
        max_results w = Run (Returned out) w' log ->
      dict_get out "success" = Some (JBool true) ->
      exists ranked,
        dict_get out "notes" = Some (JList (map format_note ranked))
        /\ dict_get out "found_count" = Some (len ranked)
        /\ Forall (fun item =>
                     score_ge (c_similarity item) similarity_threshold = true)
             ranked)
  /\ (forall (key deck_name search_text : string)
             (similarity_threshold : score) (max_results : Z) (w : World)
             (similarities : list candidate),
         str_truthy key = true ->
         outcome_of (gather key deck_name search_text similarity_threshold w)
         = Returned (inr similarities) ->
         let out := report deck_name search_text similarity_threshold
                      (rank max_results similarities) in
         outcome_of (find_similar_notes (Some key) deck_name search_text
                       similarity_threshold max_results w) = Returned out
         /\ dict_get out "success" = Some (JBool true)
         /\ (similarities = [] ->
             dict_get out "found_count" = Some (JInt 0)
             /\ dict_get out "notes" = Some (JList []))).
Proof.
  split.
  - intros api_key deck_name search_text t max_results w w' out log Hrun Hok.
    destruct (find_success_inv _ _ _ _ _ _ _ _ _ Hrun Hok)
      as (key & similarities & _ & _ & G & ->).
    destruct (gather_candidates _ _ _ _ _ _ G) as (notes & _ & Hall & _).
    exists (rank max_results similarities).
    split; [apply report_fields |]. split; [apply report_fields |].
    eapply Forall_impl; [| apply rank_cleared; exact Hall].
    intros item (Hge & _). exact Hge.
  - intros key deck_name search_text t max_results w similarities K G out.
    split; [| split].
    + unfold find_similar_notes. rewrite K. unfold catch, bind.
      rewrite G. reflexivity.
    + apply report_fields.
    + intros ->. unfold out, rank, sort_reverse, slice_to. simpl.
      destruct (0 <=? max_results)%Z; rewrite firstn_nil; split; reflexivity.
Qed.

(** C7: the text embedded for a note is its flattened text in the words of
    the specification; a note whose text is blank is skipped with nothing
    sent and the world untouched; and every entry behind a returned note
    carries the flattened text of its note, which is not blank. *)
Theorem blank_notes_are_never_embedded :
  (forall n : note, combined_text n = flattened_text (note_fields n))
  /\ (forall (search_embedding : vector) (api_key : string)
             (similarity_threshold : score) (n : note) (w : World),
         blank (flattened_text (note_fields n)) = true ->
         score_note search_embedding api_key similarity_threshold (Some n) w
         = Run (Returned None) w [])
  /\ (forall (api_key : option string) (deck_name search_text : string)
             (similarity_threshold : score) (max_results : Z) (w w' : World)
             (out : pydict) (log : list request),
         find_similar_notes api_key deck_name search_text similarity_threshold
           max_results w = Run (Returned out) w' log ->
         dict_get out "success" = Some (JBool true) ->
         exists ranked,
           dict_get out "notes" = Some (JList (map format_note ranked))
           /\ Forall (fun item =>
                        c_combined_text item
                        = flattened_text (note_fields (c_note item))
                        /\ blank (c_combined_text item) = false) ranked).
Proof.
  split; [exact combined_text_flattened | split].
  - intros q key t n w B. apply score_note_blank.
    rewrite combined_text_flattened. exact B.
  - intros api_key deck_name search_text t max_results w w' out log Hrun Hok.
    destruct (find_success_inv _ _ _ _ _ _ _ _ _ Hrun Hok)
      as (key & similarities & _ & _ & G & ->).
    destruct (gather_candidates _ _ _ _ _ _ G) as (notes & _ & Hall & _).
    exists (rank max_results similarities).
    split; [apply report_fields |].
    eapply Forall_impl; [| apply rank_cleared; exact Hall].
    intros item (_ & Htext & Hb). rewrite <- combined_text_flattened. auto.
Qed.

(** C9: with [max_results] in its declared range 1..50, a successful search
    returns at most [max_results] notes and at most as many as there are
    entries that cleared the threshold; [found_count] is their number. *)
Theorem result_count_is_bounded (api_key : option string)
  (deck_name search_text : string) (similarity_threshold : score)
  (max_results : Z) (w w' : World) (out : pydict) (log : list request) :
  (1 <= max_results <= 50)%Z ->
  find_similar_notes api_key deck_name search_text similarity_threshold
    max_results w = Run (Returned out) w' log ->
  dict_get out "success" = Some (JBool true) ->
  exists key similarities ranked,
    api_key = Some key
    /\ outcome_of (gather key deck_name search_text similarity_threshold w)
       = Returned (inr similarities)
    /\ Forall (cleared similarity_threshold) similarities
    /\ dict_get out "notes" = Some (JList (map format_note ranked))
    /\ dict_get out "found_count" = Some (len ranked)
    /\ (Z.of_nat (List.length ranked) <= max_results)%Z
    /\ (List.length ranked <= List.length similarities)%nat.
Proof.
  intros Hmax Hrun Hok.
  destruct (find_success_inv _ _ _ _ _ _ _ _ _ Hrun Hok)
    as (key & similarities & -> & _ & G & ->).
  destruct (gather_candidates _ _ _ _ _ _ G) as (notes & _ & Hall & _).
  exists key, similarities, (rank max_results similarities).
  assert (Hlen : List.length (sort_reverse score_lt c_similarity similarities)
                 = List.length similarities).
  { apply Permutation_length, sort_reverse_perm. }
  destruct (slice_to_length (sort_reverse score_lt c_similarity similarities)
              max_results) as [L1 L2]; [lia |].
  repeat split; auto; try apply report_fields.
  unfold rank. rewrite <- Hlen. exact L2.
Qed.

(** ** Further properties of the batch tools *)

(** A failure entry for the item [update_data] at position [i]. *)
Definition failure_entry_of (i : nat) (update_data : json) (entry : json) : Prop :=
  exists entries,
    entry = JDict entries
    /\ dict_get entries "index" = Some (JInt (Z.of_nat i))
    /\ dict_get entries "data" = Some update_data
    /\ dict_mem entries "error" = true.

Lemma update_one_failed i update_data w entry :
  outcome_of (update_one i update_data w) = Returned (Failed entry) ->
  failure_entry_of i update_data entry.
Proof.
  unfold update_one, failure_entry_of.
  destruct update_data;
    try (intros H; injection H as <-; eexists; repeat split).
  destruct (negb (dict_mem entries "note_id") || negb (dict_mem entries "fields")).
  { intros H; injection H as <-; eexists; repeat split. }
  unfold catch, bind, getitem.
  destruct (dict_get entries "note_id") as [note_id |]; simpl.
  2:{ intros H; injection H as <-; eexists; repeat split. }
  destruct (dict_get entries "fields") as [fields |]; simpl.
  2:{ intros H; injection H as <-; eexists; repeat split. }
  destruct (outcome_of (update_note note_id fields (get_or entries "tags" JNull) w))
    as [res | e]; simpl.
  2:{ intros H; injection H as <-; eexists; repeat split. }
  destruct (truthy (get_or res "success" JNull)); simpl.
  - destruct (dict_get res "updated_fields"); simpl.
    + discriminate.
    + intros H; injection H as <-; eexists; repeat split.
  - intros H; injection H as <-; eexists; repeat split.
Qed.

(** X1: whatever the list holds and whatever the store does (unreachable,
    errors, fields that are no dict), [update_notes_bulk] lets no exception
    escape: it returns a result whose [success] is a boolean. *)
Theorem update_notes_bulk_never_raises (updates : list json) (w : World) :
  exists out b,
    outcome_of (update_notes_bulk updates w) = Returned out
    /\ dict_get out "success" = Some (JBool b).
Proof.
  destruct updates as [| u rest].
  - exists (failure (JStr "No updates provided")), false. split; reflexivity.
  - eexists. exists true.
    rewrite update_notes_bulk_records by discriminate. split; reflexivity.
Qed.

(** X2: in a batch update, the entry recorded for a failed item carries the
    position of that item in the input as [index], the item itself as
    [data], and an [error]. *)
Theorem failed_update_keeps_index_and_data (pre : list json) (x : json)
  (post : list json) (w : World) (entry : json) :
  firstn 1 (skipn (List.length pre) (records_of 0 (pre ++ x :: post) w))
  = [Failed entry] ->
  failure_entry_of (List.length pre) x entry.
Proof.
  destruct (records_around pre x post w) as (_ & K & _). rewrite K.
  unfold records_of. simpl. unfold bind.
  destruct (outcome_of (update_one (List.length pre) x (world_after 0 pre w)))
    as [r | e] eqn:E; simpl; [| discriminate].
  intros H. injection H as ->.
  eapply update_one_failed. exact E.
Qed.

(** X3: an item that is no dictionary, or lacks [note_id] or [fields], is
    filed as a failure without any request to the store, the world left as
    it was. *)
Theorem malformed_update_is_not_sent (i : nat) (update_data : json) (w : World) :
  well_formed_update update_data = false ->
  exists entry,
    update_one i update_data w = Run (Returned (Failed entry)) w []
    /\ failure_entry_of i update_data entry.
Proof.
  intros Hbad.
  assert (H : exists entry,
             update_one i update_data w = Run (Returned (Failed entry)) w []).
  { unfold update_one. destruct update_data; try (eexists; reflexivity).
    simpl in Hbad.
    destruct (dict_mem entries "note_id"), (dict_mem entries "fields");
      simpl in *; try discriminate; eexists; reflexivity. }
  destruct H as [entry H]. exists entry. split; [exact H |].
  apply (update_one_failed i update_data w). rewrite H. reflexivity.
Qed.

(** X4: whatever [update_note] ends in, a result or an exception, every
    [updateNoteFields] request it sent is the merge for a note that
    [notesInfo] had just reported for that identifier: nothing is written
    for a note that was not found or could not be read. *)
Theorem update_writes_only_notes_it_read (note_id fields tags : json)
  (w : World) (note_data : json) :
  In (UpdateNoteFields note_data) (sent_of (update_note note_id fields tags w)) ->
  exists r current_note new_fields,
    fst (anki_notesInfo w [note_id]) = Replied r
    /\ status_code r = 200%Z
    /\ truthy (error r) = false
    /\ first_note (result r) = Some current_note
    /\ fields = JDict new_fields
    /\ note_data = note_update note_id current_note new_fields tags.
Proof.
  unfold update_note, bind, post.
  destruct (anki_notesInfo w [note_id]) as [[why | r] w1]; simpl.
  { intros [H | []]; discriminate. }
  destruct (status_code r =? 200)%Z eqn:St; simpl.
  2:{ intros [H | []]; discriminate. }
  destruct (truthy (error r)) eqn:Er; simpl.
  { intros [H | []]; discriminate. }
  destruct (first_note (result r)) as [current_note |] eqn:Cur; simpl.
  2:{ intros [H | []]; discriminate. }
  destruct fields; simpl; try (intros [H | []]; discriminate).
  intros [H | H]; [discriminate |].
  exists r, current_note, entries. apply Z.eqb_eq in St.
  repeat split; auto.
  destruct (anki_updateNoteFields w1 _) as [[why | r2] w2]; simpl in H.
  - destruct H as [H | []]. injection H as <-. reflexivity.
  - destruct (status_code r2 =? 200)%Z; simpl in H;
      [destruct (truthy (error r2)); simpl in H |];
      destruct H as [H | []]; injection H as <-; reflexivity.
Qed.

Lemma overlay_mentioned (new_fields : pydict) (name : string) (v : json) :
  NoDup (dict_keys new_fields) ->
  dict_get new_fields name = Some v ->
  forall updated_fields,
    dict_get (overlay updated_fields new_fields) name = Some v.
Proof.
  induction new_fields as [| [k v0] rest IH]; simpl; intros Hnd Hget d;
    [discriminate |].
  inversion Hnd as [| ? ? Hk Hnd']; subst.
  destruct (String.eqb k name) eqn:E.
  - apply String.eqb_eq in E. subst k. injection Hget as ->.
    change (dict_get (overlay (dict_set d name v) rest) name = Some v).
    rewrite overlay_unmentioned.
    + rewrite dict_get_set, String.eqb_refl. reflexivity.
    + unfold dict_mem. rewrite (dict_get_absent rest name Hk). reflexivity.
  - apply (IH Hnd' Hget).
Qed.

Lemma dict_set_keeps {V : Type} (d : list (string * V)) (k name : string) (v : V) :
  dict_mem d name = true -> dict_mem (dict_set d k v) name = true.
Proof.
  unfold dict_mem. rewrite dict_get_set.
  destruct (String.eqb k name); [reflexivity | auto].
Qed.

Lemma overlay_keeps (new_fields : pydict) (name : string) :
  forall updated_fields,
    dict_mem updated_fields name = true ->
    dict_mem (overlay updated_fields new_fields) name = true.
Proof.
  unfold overlay.
  induction new_fields as [| [k v] rest IH]; simpl; intros d H; [exact H |].
  apply IH. apply dict_set_keeps. exact H.
Qed.

Lemma existing_fields_has (l : list (string * field_data)) (name : string) :
  forall acc : pydict,
    In name (dict_keys l) \/ dict_mem acc name = true ->
    dict_mem
      (fold_left (fun updated_fields (item : string * field_data) =>
                    dict_set updated_fields (fst item) (JStr (value (snd item))))
                 l acc) name = true.
Proof.
  induction l as [| [k fd] l IH]; simpl; intros acc H.
  - destruct H as [[] | H]. exact H.
  - apply IH. destruct H as [[H | H] | H].
    + right. subst k. unfold dict_mem. rewrite dict_get_set, String.eqb_refl.
      reflexivity.
    + left. exact H.
    + right. apply dict_set_keeps. exact H.
Qed.

(** X5: in every successful update the request sent to the store names every
    field the note has (none is dropped), and for each field name the caller
    mentions (the caller's names being distinct, as dict keys are) it carries
    the caller's value. *)
Theorem update_sends_all_fields_and_callers_values (note_id fields tags : json)
  (w w' : World) (out : pydict) (log : list request) :
  update_note note_id fields tags w = Run (Returned out) w' log ->
  dict_get out "success" = Some (JBool true) ->
  exists r current_note new_fields sent_fields sent_tags,
    fst (anki_notesInfo w [note_id]) = Replied r
    /\ first_note (result r) = Some current_note
    /\ fields = JDict new_fields
    /\ log = [NotesInfo [note_id];
              UpdateNoteFields (JDict [("id", note_id);
                                       ("fields", JDict sent_fields);
                                       ("tags", sent_tags)])]
    /\ (forall name,
           In name (dict_keys (note_fields current_note)) ->
           dict_mem sent_fields name = true)
    /\ (NoDup (dict_keys new_fields) ->
        forall name v,
          dict_get new_fields name = Some v ->
          dict_get sent_fields name = Some v)
    /\ dict_get out "updated_fields"
       = Some (JList (map JStr (dict_keys new_fields))).
Proof.
  intros Hrun Hok.
  destruct (update_success_inv _ _ _ _ _ _ _ Hrun Hok)
    as (r & w1 & current_note & new_fields & r2 & Hinfo & St & Er & Hcur & Hf
        & Hupd & St2 & Er2 & Hlog).
  exists r, current_note, new_fields,
    (overlay (existing_fields current_note) new_fields),
    (if negb (is_None tags) then tags else note_tags current_note).
  rewrite Hinfo. repeat split; auto.
  - intros name Hin. apply overlay_keeps. unfold existing_fields.
    apply existing_fields_has. left. exact Hin.
  - intros Hnd name v Hget. apply overlay_mentioned; assumption.
  - subst fields. unfold update_note, bind, post in Hrun.
    rewrite Hinfo in Hrun. simpl in Hrun.
    rewrite St, Er, Hcur in Hrun. simpl in Hrun.
    rewrite Hupd in Hrun. simpl in Hrun. rewrite St2, Er2 in Hrun.
    simpl in Hrun. apply (f_equal outcome_of) in Hrun. simpl in Hrun.
    injection Hrun as <-. reflexivity.
Qed.

(** [isinstance(v, dict)] *)
Definition is_dict (v : json) : bool :=
  match v with JDict _ => true | _ => false end.

(** What the preparation loop makes of one item. *)
Definition prepared (deck_name : string) (note_data anki_note : json) : Prop :=
  exists entries model_name fields,
    note_data = JDict entries
    /\ dict_get entries "model_name" = Some model_name
    /\ dict_get entries "fields" = Some fields
    /\ anki_note = JDict [("deckName", JStr deck_name);
                          ("modelName", model_name);
                          ("fields", fields);
                          ("tags", get_or entries "tags" (JList []))].

Lemma prepare_notes_refuses_non_dict deck_name pre x post :
  forallb well_formed_note pre = true ->
  is_dict x = false ->
  forall i anki_notes,
    prepare_notes deck_name i (pre ++ x :: post) anki_notes =
    inl (failure (JStr ("Note "
           ++ py_str (JInt (Z.of_nat (i + List.length pre) + 1))
           ++ " is not a dictionary"))).
Proof.
  intros Hpre Hbad. induction pre as [| y pre IH]; intros i anki_notes.
  - simpl. rewrite Nat.add_0_r. destruct x; try reflexivity. discriminate.
  - simpl in Hpre. apply andb_true_iff in Hpre as [Hy Hpre].
    specialize (IH Hpre). simpl.
    destruct y; simpl in Hy; try discriminate.
    unfold dict_mem in Hy.
    destruct (dict_get entries "model_name"), (dict_get entries "fields");
      simpl in Hy; try discriminate.
    rewrite IH. simpl List.length. rewrite <- Nat.add_succ_comm. reflexivity.
Qed.

Lemma prepare_notes_inr deck_name notes_list :
  forall i anki_notes prepared_notes,
    prepare_notes deck_name i notes_list anki_notes = inr prepared_notes ->
    exists added,
      prepared_notes = (anki_notes ++ added)%list
      /\ Forall2 (prepared deck_name) notes_list added.
Proof.
  induction notes_list as [| x rest IH]; intros i acc res H.
  - injection H as <-. exists []. rewrite app_nil_r. split; constructor.
  - simpl in H. destruct x; try discriminate.
    destruct (dict_get entries "model_name") as [m |] eqn:Em; [| discriminate].
    destruct (dict_get entries "fields") as [f |] eqn:Ef; [| discriminate].
    apply IH in H as (added & -> & Hall).
    eexists (_ :: added). rewrite <- app_assoc. split; [reflexivity |].
    constructor; [| exact Hall].
    exists entries, m, f. repeat split; auto.
Qed.

(** X6: an item that is no dictionary (the items before it being well
    formed) makes [create_notes_bulk] return one error for the whole call,
    naming the 1-based position of the item, with nothing sent to the
    store. *)
Theorem create_refuses_a_non_dictionary (deck_name : string)
  (pre : list json) (x : json) (post : list json) (w : World) :
  forallb well_formed_note pre = true ->
  is_dict x = false ->
  create_notes_bulk deck_name (pre ++ x :: post) w
  = Run (Returned
           [("error",
             JStr ("Note " ++ py_str (JInt (Z.of_nat (List.length pre) + 1))
                   ++ " is not a dictionary"));
            ("success", JBool false)]) w [].
Proof.
  intros Hpre Hbad. unfold create_notes_bulk.
  rewrite (prepare_notes_refuses_non_dict deck_name pre x post Hpre Hbad 0 []).
  destruct pre; reflexivity.
Qed.

(** X7: however [create_notes_bulk] ends, it sends at most one request; when
    it sends one, it is a single [addNotes] holding exactly one note per
    input item, in input order, each for the given deck with the item's
    model name and fields, and its tags or an empty list. *)
Theorem create_sends_each_item_once (deck_name : string)
  (notes_list : list json) (w : World) :
  sent_of (create_notes_bulk deck_name notes_list w) = []
  \/ exists anki_notes,
       sent_of (create_notes_bulk deck_name notes_list w) = [AddNotes anki_notes]
       /\ Forall2 (prepared deck_name) notes_list anki_notes.
Proof.
  unfold create_notes_bulk.
  destruct notes_list as [| x rest]; [left; reflexivity |].
  destruct (prepare_notes deck_name 0 (x :: rest) []) as [refused | anki_notes]
    eqn:Hprep; [left; reflexivity |].
  right. exists anki_notes.
  apply prepare_notes_inr in Hprep as (added & -> & Hall). simpl. split.
  - unfold bind, post.
    destruct (anki_addNotes w added) as [[why | r] w1]; simpl; [reflexivity |].
    destruct (status_code r =? 200)%Z; simpl; [| reflexivity].
    destruct (truthy (error r)); simpl; [reflexivity |].
    destruct (result r); reflexivity.
  - exact Hall.
Qed.

(** ** Further properties of the similarity search *)

(** Stepping through a run. *)
Lemma bind_returned {A B : Type} (m : M A) (k : A -> M B) w {a w1 l1} :
  m w = Run (Returned a) w1 l1 ->
  bind m k w =
  Run (outcome_of (k a w1)) (world_of (k a w1)) (l1 ++ sent_of (k a w1)).
Proof. intros H. unfold bind. rewrite H. reflexivity. Qed.

Lemma bind_raised {A B : Type} (m : M A) (k : A -> M B) w {e w1 l1} :
  m w = Run (Raised e) w1 l1 -> bind m k w = Run (Raised e) w1 l1.
Proof. intros H. unfold bind. rewrite H. reflexivity. Qed.

Lemma post_replied {R : Type} (req : request)
  (service : World -> reply R * World) w {r w1} :
  service w = (Replied r, w1) -> post req service w = Run (Returned r) w1 [req].
Proof. intros H. unfold post. rewrite H. reflexivity. Qed.

(** The notes the store reports for a deck, none when a call fails. *)
Definition reported_notes (deck_name : string) (w : World) : list (option note) :=
  let query := "deck:" ++ dquote ++ deck_name ++ dquote in
  match anki_findNotes w query with
  | (Replied r0, w1) =>
      match result r0 with
      | Some note_ids =>
          match anki_notesInfo w1 note_ids with
          | (Replied r, _) =>
              match result r with Some notes => notes | None => [] end
          | _ => []
          end
      | None => []
      end
  | _ => []
  end.

(** X8: without an API key (unset or empty) the search returns the
    configuration error, [success] false with setup instructions, before any
    request is sent. *)
Theorem search_without_key_sends_nothing (api_key : option string)
  (deck_name search_text : string) (similarity_threshold : score)
  (max_results : Z) (w : World) :
  api_key = None \/ api_key = Some "" ->
  find_similar_notes api_key deck_name search_text similarity_threshold
    max_results w = Run (Returned missing_key_error) w []
  /\ dict_get missing_key_error "success" = Some (JBool false)
  /\ dict_mem missing_key_error "setup_instructions" = true.
Proof.
  intros [-> | ->]; repeat split.
Qed.

(** X9: whatever the store and the embedding provider do, the search lets no
    exception escape: it returns a result whose [success] is a boolean, and
    which carries an [error] when that is false. *)
Theorem search_never_raises (api_key : option string)
  (deck_name search_text : string) (similarity_threshold : score)
  (max_results : Z) (w : World) :
  exists out b,
    outcome_of (find_similar_notes api_key deck_name search_text
                  similarity_threshold max_results w) = Returned out
    /\ dict_get out "success" = Some (JBool b)
    /\ (b = false -> dict_mem out "error" = true).
Proof.
  unfold find_similar_notes.
  destruct api_key as [key |].
  2:{ exists missing_key_error, false. repeat split. }
  destruct (str_truthy key).
  2:{ exists missing_key_error, false. repeat split. }
  unfold catch, bind.
  destruct (outcome_of (gather key deck_name search_text similarity_threshold w))
    as [[early | similarities] | e] eqn:G; simpl.
  - apply gather_early in G as [err ->].
    eexists. exists false. repeat split.
  - eexists. exists true. split; [reflexivity |].
    split; [apply report_fields | discriminate].
  - eexists. exists false. repeat split.
Qed.

Lemma get_text_embedding_sent text api_key w :
  sent_of (get_text_embedding text api_key w) = [Embeddings api_key text].
Proof.
  unfold get_text_embedding, bind, post.
  destruct (openai_embeddings w api_key text) as [[why | r] w1]; simpl;
    [reflexivity |].
  destruct (emb_status_code r =? 200)%Z; simpl; [| reflexivity].
  destruct (emb_embedding r); reflexivity.
Qed.

(** What the loop body does with one note that has fields: it never raises,
    and it sends nothing or the one embedding request for the note's text. *)
Lemma score_note_skips search_embedding api_key similarity_threshold n w :
  (exists appended,
      outcome_of (score_note search_embedding api_key similarity_threshold
                    (Some n) w) = Returned appended)
  /\ (sent_of (score_note search_embedding api_key similarity_threshold
                 (Some n) w) = []
      \/ sent_of (score_note search_embedding api_key similarity_threshold
                    (Some n) w) = [Embeddings api_key (combined_text n)]).
Proof.
  unfold score_note.
  destruct (negb (str_truthy (strip (combined_text n)))).
  { split; [eexists; reflexivity | left; reflexivity]. }
  unfold catch, bind.
  pose proof (get_text_embedding_sent (combined_text n) api_key w) as Hs.
  destruct (get_text_embedding (combined_text n) api_key w)
    as [[embedding | e] w1 l1]; simpl in *; subst l1.
  2:{ split; [eexists; reflexivity | right; reflexivity]. }
  unfold cosine.
  destruct (cosine_similarity search_embedding embedding) as [e | similarity];
    simpl.
  { split; [eexists; reflexivity | right; reflexivity]. }
  destruct (score_ge similarity similarity_threshold); simpl;
    split; try (eexists; reflexivity); right; reflexivity.
Qed.

Lemma score_note_sent_length search_embedding api_key similarity_threshold n w :
  (List.length (sent_of (score_note search_embedding api_key
                           similarity_threshold n w)) <= 1)%nat.
Proof.
  destruct n as [n |]; [| simpl; lia].
  destruct (score_note_skips search_embedding api_key similarity_threshold n w)
    as (_ & [-> | ->]); simpl; lia.
Qed.

Lemma score_notes_sent_length search_embedding api_key similarity_threshold
  notes :
  forall similarities w,
    (List.length (sent_of (score_notes search_embedding api_key
                             similarity_threshold notes similarities w))
     <= List.length notes)%nat.
Proof.
  induction notes as [| n rest IH]; intros sims w; simpl; [lia |].
  unfold bind.
  pose proof (score_note_sent_length search_embedding api_key
                similarity_threshold n w) as H1.
  destruct (outcome_of (score_note search_embedding api_key
                          similarity_threshold n w)); simpl.
  - rewrite length_app.
    match goal with
    | |- context [score_notes _ _ _ rest ?s ?w1] =>
        pose proof (IH s w1) as H2
    end.
    lia.
  - lia.
Qed.

(** X10: a candidate whose embedding or similarity fails is skipped, it does
    not abort the search: over notes that all have fields the loop never
    raises, whatever the embedding provider answers. *)
Theorem failing_candidates_are_skipped (search_embedding : vector)
  (api_key : string) (similarity_threshold : score) (notes : list note) :
  forall (similarities : list candidate) (w : World),
  exists result_list,
    outcome_of (score_notes search_embedding api_key similarity_threshold
                  (map Some notes) similarities w) = Returned result_list.
Proof.
  induction notes as [| n rest IH]; intros sims w.
  - eexists; reflexivity.
  - cbn [map score_notes]. unfold bind.
    destruct (score_note_skips search_embedding api_key similarity_threshold n w)
      as ([appended E] & _).
    rewrite E. cbn [outcome_of]. apply IH.
Qed.

(** X11: a search sends at most three requests plus one per note the store
    reports for the deck: one identifier query, one [notesInfo], one
    embedding of the search text, and at most one embedding per note (no
    retry, no second pass). *)
Theorem search_request_budget (api_key : option string)
  (deck_name search_text : string) (similarity_threshold : score)
  (max_results : Z) (w : World) :
  (List.length (sent_of (find_similar_notes api_key deck_name search_text
                           similarity_threshold max_results w))
   <= 3 + List.length (reported_notes deck_name w))%nat.
Proof.
  unfold find_similar_notes.
  destruct api_key as [key |]; [| simpl; lia].
  destruct (str_truthy key); [| simpl; lia].
  assert (G : (List.length (sent_of (gather key deck_name search_text
                                       similarity_threshold w))
               <= 3 + List.length (reported_notes deck_name w))%nat).
  { unfold gather, reported_notes, bind, post. cbv zeta.
    destruct (anki_findNotes w _) as [[why | r0] w1]; simpl; [lia |].
    destruct (status_code r0 =? 200)%Z; simpl; [| lia].
    destruct (truthy (error r0)); simpl; [lia |].
    destruct (result r0) as [[| id ids] |]; simpl; try lia.
    destruct (anki_notesInfo w1 (id :: ids)) as [[why | r] w2]; simpl; [lia |].
    destruct (status_code r =? 200)%Z; simpl; [| lia].
    destruct (truthy (error r)); simpl; [lia |].
    pose proof (get_text_embedding_sent search_text key w2) as Hs.
    destruct (get_text_embedding search_text key w2)
      as [[search_embedding | e] w3 l3]; simpl in *; subst l3; simpl; [| lia].
    destruct (result r) as [notes |]; simpl; [| lia].
    pose proof (score_notes_sent_length search_embedding key
                  similarity_threshold notes [] w3) as Hn.
    destruct (score_notes search_embedding key similarity_threshold notes [] w3)
      as [[res | e] w4 l4]; simpl in *; rewrite ?app_nil_r; lia. }
  unfold catch, bind.
  destruct (gather key deck_name search_text similarity_threshold w)
    as [[[early | similarities] | e] w1 l1]; simpl in *;
    rewrite ?length_app; simpl; lia.
Qed.

(** X12: when the embedding of the search text fails (the provider answers
    with a status other than 200), the whole search fails: [success] false
    with the provider's status and text in the error, and no candidate is
    embedded. *)
Theorem query_embedding_failure_is_fatal (key deck_name search_text : string)
  (similarity_threshold : score) (max_results : Z) (w w1 w2 w3 : World)
  (r0 : response (list json)) (id : json) (ids : list json)
  (r : response (list (option note))) (e : embedding_response) :
  str_truthy key = true ->
  anki_findNotes w ("deck:" ++ dquote ++ deck_name ++ dquote) = (Replied r0, w1) ->
  status_code r0 = 200%Z -> truthy (error r0) = false ->
  result r0 = Some (id :: ids) ->
  anki_notesInfo w1 (id :: ids) = (Replied r, w2) ->
  status_code r = 200%Z -> truthy (error r) = false ->
  openai_embeddings w2 key search_text = (Replied e, w3) ->
  emb_status_code e <> 200%Z ->
  find_similar_notes (Some key) deck_name search_text similarity_threshold
    max_results w
  = Run (Returned
           [("error",
             JStr ("Failed to find similar notes: "
                   ++ ("OpenAI API error: "
                       ++ py_str (JInt (emb_status_code e)) ++ " - "
                       ++ emb_text e)));
            ("success", JBool false)])
        w3
        [FindNotes ("deck:" ++ dquote ++ deck_name ++ dquote);
         NotesInfo (id :: ids);
         Embeddings key search_text].
Proof.
  intros K F St0 Er0 R0 N St Er E Est.
  apply Z.eqb_neq in Est.
  assert (Hemb : get_text_embedding search_text key w2
                 = Run (Raised ("OpenAI API error: "
                                ++ py_str (JInt (emb_status_code e)) ++ " - "
                                ++ emb_text e)) w3
                       [Embeddings key search_text]).
  { unfold get_text_embedding.
    rewrite (bind_returned _ _ _
               (post_replied (Embeddings key search_text)
                  (fun w => openai_embeddings w key search_text) w2 E)).
    cbv beta. rewrite Est. reflexivity. }
  assert (G : gather key deck_name search_text similarity_threshold w
              = Run (Raised ("OpenAI API error: "
                             ++ py_str (JInt (emb_status_code e)) ++ " - "
                             ++ emb_text e)) w3
                    [FindNotes ("deck:" ++ dquote ++ deck_name ++ dquote);
                     NotesInfo (id :: ids);
                     Embeddings key search_text]).
  { unfold gather. cbv zeta.
    rewrite (bind_returned _ _ _
               (post_replied
                  (FindNotes ("deck:" ++ dquote ++ deck_name ++ dquote))
                  (fun w => anki_findNotes w
                              ("deck:" ++ dquote ++ deck_name ++ dquote))
                  w F)).
    cbv beta. rewrite St0, Er0, R0. cbn [negb Z.eqb Pos.eqb].
    rewrite (bind_returned _ _ _
               (post_replied (NotesInfo (id :: ids))
                  (fun w => anki_notesInfo w (id :: ids)) w1 N)).
    cbv beta. rewrite St, Er. cbn [negb Z.eqb Pos.eqb].
    rewrite (bind_raised _ _ _ Hemb). reflexivity. }
  unfold find_similar_notes. rewrite K. unfold catch.
  rewrite (bind_raised _ _ _ G). reflexivity.
Qed.

(** ** The other tools *)

(** *** [get_deck_notes] *)

(** [value[:limit] + "..." if len(value) > limit else value] *)
Definition shorten (limit : nat) (value : string) : string :=
  if (limit <? String.length value)%nat then substring 0 limit value ++ "..."
  else value.

(** The characters of a string, as iterating over it gives them. *)
Fixpoint characters (s : string) : list string :=
  match s with
  | EmptyString => []
  | String c s' => String c EmptyString :: characters s'
  end.

(** The items of a list that [str.join] accepts: all of them strings. *)
Fixpoint str_items (i : nat) (items : list json) : M (list string) :=
  match items with
  | [] => ret []
  | JStr s :: rest => l <- str_items (S i) rest ;; ret (s :: l)
  | other :: _ =>
      raise ("sequence item " ++ py_str (JInt (Z.of_nat i))
             ++ ": expected str instance, " ++ type_name other ++ " found")
  end.

(** [', '.join(tags) if tags else 'None'] *)
Definition tags_text (tags : json) : M string :=
  if truthy tags then
    match tags with
    | JList items => l <- str_items 0 items ;; ret (join ", " l)
    | JStr s => ret (join ", " (characters s))
    | JDict entries => ret (join ", " (dict_keys entries))
    | _ => raise "can only join an iterable"
    end
  else ret "None".

(** The lines for the fields of a note. *)
Definition field_lines (limit : nat) (fields : list (string * field_data))
  : list string :=
  map (fun item : string * field_data =>
         "    " ++ fst item ++ ": " ++ shorten limit (value (snd item)))
      fields.

(** The lines for note number [i]; a note without keys (an empty object)
    raises [KeyError('noteId')]. *)
Definition note_lines (i : nat) (n : option note) : M (list string) :=
  match n with
  | None => raise "'noteId'"
  | Some n =>
      tags <- tags_text (note_tags n) ;;
      ret (("Note " ++ py_str (JInt (Z.of_nat i)) ++ " (ID: "
            ++ py_str (note_noteId n) ++ "):")
           :: ("  Model: " ++ py_str (note_modelName n))
           :: ("  Tags: " ++ tags)
           :: "  Fields:"
           :: (field_lines 100 (note_fields n) ++ [""])%list)
  end.

Fixpoint notes_lines (i : nat) (notes : list (option note)) (output : list string)
  : M (list string) :=
  match notes with
  | [] => ret output
  | n :: rest =>
      lines <- note_lines i n ;;
      notes_lines (S i) rest (output ++ lines)
  end.

(** The line feed. *)
Definition newline : string := String "010"%char EmptyString.

Definition get_deck_notes (deck_name : string) : M string :=
  let query := "deck:" ++ dquote ++ deck_name ++ dquote in
  response <- post (FindNotes query) (fun w => anki_findNotes w query) ;;
  if negb (status_code response =? 200)%Z then
    ret ("Error: Failed to connect to Anki: "
         ++ py_str (JInt (status_code response)))
  else if truthy (error response) then
    ret ("Error: " ++ py_str (error response))
  else
    match result response with
    | None | Some [] => ret ("No notes found in deck '" ++ deck_name ++ "'")
    | Some note_ids =>
        response <- post (NotesInfo note_ids)
                         (fun w => anki_notesInfo w note_ids) ;;
        if negb (status_code response =? 200)%Z then
          ret ("Error: Failed to connect to Anki: "
               ++ py_str (JInt (status_code response)))
        else if truthy (error response) then
          ret ("Error: " ++ py_str (error response))
        else
          match result response with
          | None => raise "object of type 'NoneType' has no len()"
          | Some notes =>
              output <- notes_lines 1 notes
                          ["Notes in deck '" ++ deck_name ++ "' ("
                           ++ py_str (len notes) ++ " total):" ++ newline] ;;
              ret (join newline output)
          end
    end.

(** *** The services of the other tools *)

(** The speech service's answer: status, raw text, and
    [result["audioContent"]] when the body has it. *)
Record tts_response : Type := {
  tts_status_code : Z;
  tts_text : string;
  tts_audioContent : option json
}.

(** The requests these tools send. *)
Inductive call : Type :=
| AddNote (note_data : json)
| CreateDeck (deck : string)
| ModelNames
| CreateModel (model_data : pydict)
| StoreMediaFile (filename : string) (data : json)
| Synthesize (api_key : string) (data : json).

Variable anki_addNote : World -> json -> reply (response json) * World.
Variable anki_createDeck : World -> string -> reply (response json) * World.
Variable anki_modelNames : World -> reply (response (list string)) * World.
Variable anki_createModel : World -> pydict -> reply (response json) * World.
Variable anki_storeMediaFile :
  World -> string -> json -> reply (response json) * World.
Variable google_synthesize :
  World -> string -> json -> reply tts_response * World.

(** Runs of these tools: as [run], with the calls made. *)
Record ran (A : Type) : Type := Ran {
  ended : outcome A;
  world_left : World;
  calls : list call
}.
Arguments Ran {A} _ _ _.
Arguments ended {A} _.
Arguments world_left {A} _.
Arguments calls {A} _.

Definition T (A : Type) : Type := World -> ran A.

Definition tret {A : Type} (a : A) : T A := fun w => Ran (Returned a) w [].

Definition traise {A : Type} (e : string) : T A := fun w => Ran (Raised e) w [].

Definition tbind {A B : Type} (m : T A) (k : A -> T B) : T B :=
  fun w =>
    let r := m w in
    match ended r with
    | Returned a =>
        let r' := k a (world_left r) in
        Ran (ended r') (world_left r') (calls r ++ calls r')
    | Raised e => Ran (Raised e) (world_left r) (calls r)
    end.

Definition tcatch {A : Type} (m : T A) (h : string -> T A) : T A :=
  fun w =>
    let r := m w in
    match ended r with
    | Returned a => r
    | Raised e =>
        let r' := h e (world_left r) in
        Ran (ended r') (world_left r') (calls r ++ calls r')
    end.

Notation "x <~ m ;; k" := (tbind m (fun x => k))
  (at level 61, m at next level, right associativity).

Definition tpost {R : Type} (c : call) (service : World -> reply R * World)
  : T R :=
  fun w =>
    let (r, w') := service w in
    match r with
    | Unreachable why => Ran (Raised why) w' [c]
    | Replied resp => Ran (Returned resp) w' [c]
    end.

(** [result["result"]], JSON null as [None]. *)
Definition result_value (r : response json) : json :=
  match result r with Some v => v | None => JNull end.

Definition tgetitem (d : pydict) (k : string) : T json :=
  match dict_get d k with
  | Some v => tret v
  | None => traise ("'" ++ k ++ "'")
  end.

(** The connection error of the tools that report no [success] with it. *)
Definition connect_error (status : Z) : pydict :=
  [("error", JStr ("Failed to connect to Anki: " ++ py_str (JInt status)))].

(** *** [create_note] *)

Definition create_note (deck_name model_name : string) (fields tags : json)
  : T pydict :=
  let tags := if is_None tags then JList [] else tags in
  let note_data := JDict [("deckName", JStr deck_name);
                          ("modelName", JStr model_name);
                          ("fields", fields);
                          ("tags", tags)] in
  response <~ tpost (AddNote note_data) (fun w => anki_addNote w note_data) ;;
  if negb (status_code response =? 200)%Z then
    tret (connect_error (status_code response))
  else if truthy (error response) then tret [("error", error response)]
  else tret [("noteId", result_value response); ("success", JBool true)].

(** *** [create_deck_with_note_type] *)

(** [fields[i]] *)
Definition list_item (l : list json) (i : nat) : T json :=
  match nth_error l i with
  | Some v => tret v
  | None => traise "list index out of range"
  end.

(** ["{{" + field + "}}"], [prefix + field + "}}"] in general. *)
Definition in_braces (prefix : string) (field : json) : T string :=
  match field with
  | JStr s => tret (prefix ++ s ++ "}}")
  | other =>
      traise ("can only concatenate str (not " ++ dquote ++ type_name other
              ++ dquote ++ ") to str")
  end.

(** The default card template for basic front/back cards. *)
Definition default_templates (fields : list json) : T json :=
  first <~ list_item fields 0 ;;
  front <~ in_braces "{{" first ;;
  back <~ (if (1 <? List.length fields)%nat then
             second <~ list_item fields 1 ;;
             in_braces ("{{FrontSide}}<hr id=" ++ dquote ++ "answer" ++ dquote
                        ++ ">{{") second
           else
             first <~ list_item fields 0 ;;
             in_braces "{{" first) ;;
  tret (JList [JDict [("Name", JStr "Card 1");
                      ("Front", JStr front);
                      ("Back", JStr back)]]).

Definition card_css : string :=
  ".card {" ++ newline ++ " font-family: arial;" ++ newline
  ++ " font-size: 20px;" ++ newline ++ " text-align: center;" ++ newline
  ++ " color: black;" ++ newline ++ " background-color: white;" ++ newline
  ++ "}" ++ newline.

(** [existing_models] after the [modelNames] call: the empty list unless
    the call succeeded, and then its result ([None] for null). *)
Definition existing_models (response : response (list string))
  : option (list string) :=
  if (status_code response =? 200)%Z then
    if negb (truthy (error response)) then result response else Some []
  else Some [].

Definition create_deck_with_note_type (deck_name model_name : string)
  (fields : list json) (card_templates : json) : T pydict :=
  response <~ tpost (CreateDeck deck_name)
                    (fun w => anki_createDeck w deck_name) ;;
  if negb (status_code response =? 200)%Z then
    tret (connect_error (status_code response))
  else if truthy (error response) then
    tret [("error",
           JStr ("Failed to create deck: " ++ py_str (error response)))]
  else
    let deck_id := result_value response in
    card_templates <~ (if is_None card_templates then default_templates fields
                       else tret card_templates) ;;
    response <~ tpost ModelNames anki_modelNames ;;
    match existing_models response with
    | None => traise "argument of type 'NoneType' is not iterable"
    | Some models =>
        if negb (existsb (String.eqb model_name) models) then
          let model_data := [("modelName", JStr model_name);
                             ("inOrderFields", JList fields);
                             ("cardTemplates", card_templates);
                             ("css", JStr card_css)] in
          response <~ tpost (CreateModel model_data)
                            (fun w => anki_createModel w model_data) ;;
          if negb (status_code response =? 200)%Z then
            tret (connect_error (status_code response))
          else if truthy (error response) then
            tret [("error",
                   JStr ("Failed to create note type: "
                         ++ py_str (error response)))]
          else
            tret [("success", JBool true);
                  ("deck_id", deck_id);
                  ("deck_name", JStr deck_name);
                  ("model_created", JBool true);
                  ("model_name", JStr model_name);
                  ("fields", JList fields)]
        else
          tret [("success", JBool true);
                ("deck_id", deck_id);
                ("deck_name", JStr deck_name);
                ("model_created", JBool false);
                ("model_name", JStr model_name);
                ("message",
                 JStr ("Note type '" ++ model_name
                       ++ "' already exists, deck created with existing note type"))]
    end.

(** *** [save_media_file], [generate_audio], [generate_and_save_audio] *)

Definition save_media_file (filename : string) (base64_data : json)
  (media_type : string) : T pydict :=
  tcatch
    (response <~ tpost (StoreMediaFile filename base64_data)
                       (fun w => anki_storeMediaFile w filename base64_data) ;;
     if negb (status_code response =? 200)%Z then
       tret (connect_failure (status_code response))
     else if truthy (error response) then tret (failure (error response))
     else
       let saved_filename := result_value response in
       tret [("success", JBool true);
             ("filename", saved_filename);
             ("media_type", JStr media_type);
             ("message",
              JStr ("Media file saved as '" ++ py_str saved_filename
                    ++ "' in Anki's media collection"))])
    (fun e => tret (failure (JStr ("Failed to save media file: " ++ e)))).

Definition missing_google_key_error : pydict :=
  [("error",
    JStr "Google Cloud API key not found. Please set GOOGLE_CLOUD_API_KEY environment variable.");
   ("success", JBool false);
   ("setup_instructions",
    JStr "Run: export GOOGLE_CLOUD_API_KEY='your-api-key-here'")].

(** [api_key] is [os.getenv("GOOGLE_CLOUD_API_KEY")]. *)
Definition generate_audio (api_key : option string)
  (text language voice : string) : T pydict :=
  match api_key with
  | Some key =>
      if str_truthy key then
        tcatch
          (let data :=
             JDict [("input", JDict [("text", JStr text)]);
                    ("voice", JDict [("languageCode", JStr language);
                                     ("name", JStr voice)]);
                    ("audioConfig", JDict [("audioEncoding", JStr "MP3")])] in
           response <~ tpost (Synthesize key data)
                             (fun w => google_synthesize w key data) ;;
           if negb (tts_status_code response =? 200)%Z then
             tret (failure
                     (JStr ("Google Cloud TTS API error: "
                            ++ py_str (JInt (tts_status_code response))
                            ++ " - " ++ tts_text response)))
           else
             match tts_audioContent response with
             | None => traise "'audioContent'"
             | Some audio_base64 =>
                 tret [("success", JBool true);
                       ("audio_base64", audio_base64);
                       ("format", JStr "mp3");
                       ("language", JStr language);
                       ("voice", JStr voice);
                       ("text", JStr text);
                       ("model", JStr "chirp")]
             end)
          (fun e => tret (failure (JStr ("Failed to generate audio: " ++ e))))
      else tret missing_google_key_error
  | None => tret missing_google_key_error
  end.

Definition generate_and_save_audio (api_key : option string)
  (text filename language voice : string) : T pydict :=
  audio_result <~ generate_audio api_key text language voice ;;
  if negb (truthy (get_or audio_result "success" JNull)) then tret audio_result
  else
    audio_base64 <~ tgetitem audio_result "audio_base64" ;;
    save_result <~ save_media_file filename audio_base64 "audio" ;;
    if negb (truthy (get_or save_result "success" JNull)) then tret save_result
    else
      saved <~ tgetitem save_result "filename" ;;
      tret [("success", JBool true);
            ("filename", saved);
            ("text", JStr text);
            ("language", JStr language);
            ("voice", JStr voice);
            ("sound_tag", JStr ("[sound:" ++ py_str saved ++ "]"));
            ("message",
             JStr ("Audio generated and saved as '" ++ py_str saved
                   ++ "'. Use [sound:" ++ py_str saved
                   ++ "] in your card fields."))].

(** ** Properties of the other tools *)

Lemma length_append (a b : string) :
  String.length (a ++ b) = (String.length a + String.length b)%nat.
Proof. induction a as [| c a IH]; simpl; [reflexivity | rewrite IH; reflexivity]. Qed.

Lemma substring_start (s : string) :
  forall n,
    String.length (substring 0 n s) = Nat.min n (String.length s)
    /\ exists rest, s = substring 0 n s ++ rest.
Proof.
  induction s as [| c s IH]; intros [| n]; simpl.
  - split; [reflexivity | exists ""; reflexivity].
  - split; [reflexivity | exists ""; reflexivity].
  - split; [reflexivity | eexists; reflexivity].
  - destruct (IH n) as [L [rest E]]. split; [rewrite L; reflexivity |].
    exists rest. rewrite <- E. reflexivity.
Qed.

(** X13: a field value shown by the listing tools is the value itself when it
    has at most [limit] characters (100 in [get_deck_notes]), and otherwise
    its first [limit] characters followed by three dots: never more than
    [limit + 3] characters. *)
Theorem shown_field_values_are_bounded (limit : nat)
  (fields : list (string * field_data)) :
  Forall2
    (fun (item : string * field_data) (line : string) =>
       exists shown rest,
         line = "    " ++ fst item ++ ": " ++ shown
         /\ (String.length shown <= limit + 3)%nat
         /\ ((String.length (value (snd item)) <= limit)%nat ->
             shown = value (snd item))
         /\ ((limit < String.length (value (snd item)))%nat ->
             shown = substring 0 limit (value (snd item)) ++ "..."
             /\ String.length shown = (limit + 3)%nat
             /\ value (snd item)
                = substring 0 limit (value (snd item)) ++ rest))
    fields (field_lines limit fields).
Proof.
  induction fields as [| [name fd] rest IH]; simpl; constructor; [| exact IH].
  simpl. unfold shorten.
  destruct (substring_start (value fd) limit) as [L [tail E]].
  exists (if (limit <? String.length (value fd))%nat
          then substring 0 limit (value fd) ++ "..." else value fd), tail.
  split; [reflexivity |].
  destruct (limit <? String.length (value fd))%nat eqn:C.
  - apply Nat.ltb_lt in C. rewrite length_append, L. simpl.
    repeat split; try lia. exact E.
  - apply Nat.ltb_ge in C. repeat split; try lia.
Qed.

(** X14: for an empty or unknown deck (the identifier query succeeds with an
    empty list or null) [get_deck_notes] answers the plain sentence
    [No notes found in deck '<deck_name>'], not an [Error: ...] text, and
    asks the store nothing more. *)
Theorem listing_an_empty_deck (deck_name : string) (w w' : World)
  (r : response (list json)) :
  anki_findNotes w ("deck:" ++ dquote ++ deck_name ++ dquote) = (Replied r, w') ->
  status_code r = 200%Z ->
  truthy (error r) = false ->
  result r = Some [] \/ result r = None ->
  get_deck_notes deck_name w
  = Run (Returned ("No notes found in deck '" ++ deck_name ++ "'")) w'
        [FindNotes ("deck:" ++ dquote ++ deck_name ++ dquote)].
Proof.
  intros F St Er Res. unfold get_deck_notes. cbv zeta.
  rewrite (bind_returned _ _ _
             (post_replied
                (FindNotes ("deck:" ++ dquote ++ deck_name ++ dquote))
                (fun w => anki_findNotes w
                            ("deck:" ++ dquote ++ deck_name ++ dquote))
                w F)).
  cbv beta. rewrite St, Er. cbn [negb Z.eqb Pos.eqb].
  destruct Res as [-> | ->]; reflexivity.
Qed.

(** Stepping through a run of the other tools. *)
Lemma tbind_returned {A B : Type} (m : T A) (k : A -> T B) w {a w1 l1} :
  m w = Ran (Returned a) w1 l1 ->
  tbind m k w
  = Ran (ended (k a w1)) (world_left (k a w1)) (l1 ++ calls (k a w1)).
Proof. intros H. unfold tbind. rewrite H. reflexivity. Qed.

Lemma tbind_raised {A B : Type} (m : T A) (k : A -> T B) w {e w1 l1} :
  m w = Ran (Raised e) w1 l1 -> tbind m k w = Ran (Raised e) w1 l1.
Proof. intros H. unfold tbind. rewrite H. reflexivity. Qed.

Lemma tpost_replied {R : Type} (c : call)
  (service : World -> reply R * World) w {r w1} :
  service w = (Replied r, w1) -> tpost c service w = Ran (Returned r) w1 [c].
Proof. intros H. unfold tpost. rewrite H. reflexivity. Qed.

Lemma tpost_calls {R : Type} (c : call) (service : World -> reply R * World) w :
  calls (tpost c service w) = [c]
  /\ world_left (tpost c service w) = snd (service w).
Proof.
  unfold tpost. destruct (service w) as [[why | r] w1]; split; reflexivity.
Qed.

(** Taking a run apart. *)
Lemma tbind_inv {A B : Type} (m : T A) (k : A -> T B) w o w' l :
  tbind m k w = Ran o w' l ->
  (exists e, m w = Ran (Raised e) w' l /\ o = Raised e)
  \/ (exists a w1 l1 l2,
         m w = Ran (Returned a) w1 l1
         /\ k a w1 = Ran o w' l2
         /\ l = (l1 ++ l2)%list).
Proof.
  unfold tbind. destruct (m w) as [[a | e] w1 l1]; cbn [ended world_left calls].
  - intros H. right. exists a, w1, l1, (calls (k a w1)).
    destruct (k a w1) as [o2 w2 l2]; cbn [ended world_left calls] in *.
    injection H as <- <- <-. repeat split.
  - intros H. injection H as <- <- <-. left. exists e. split; reflexivity.
Qed.

Lemma tpost_returned_inv {R : Type} (c : call)
  (service : World -> reply R * World) w r w' l :
  tpost c service w = Ran (Returned r) w' l ->
  l = [c] /\ w' = snd (service w) /\ fst (service w) = Replied r.
Proof.
  unfold tpost. destruct (service w) as [[why | r1] w1]; intros H;
    [discriminate |]. injection H as <- <- <-. repeat split.
Qed.

Lemma tpost_raised_inv {R : Type} (c : call)
  (service : World -> reply R * World) w e w' l :
  tpost c service w = Ran (Raised e) w' l ->
  l = [c] /\ w' = snd (service w).
Proof.
  unfold tpost. destruct (service w) as [[why | r1] w1]; intros H;
    [| discriminate]. injection H as _ <- <-. split; reflexivity.
Qed.

(** *** [create_note] *)

(** X15: [create_note] always sends exactly one [addNote] request; it carries
    the deck, the model and the fields as given, and the caller's tags, or
    an empty list when [tags] is [None]. *)
Theorem create_note_sends_one_request (deck_name model_name : string)
  (fields tags : json) (w : World) :
  calls (create_note deck_name model_name fields tags w)
  = [AddNote (JDict [("deckName", JStr deck_name);
                     ("modelName", JStr model_name);
                     ("fields", fields);
                     ("tags", if is_None tags then JList [] else tags)])].
Proof.
  unfold create_note, tbind, tpost. cbv zeta.
  destruct (anki_addNote w _) as [[why | r] w1]; simpl; [reflexivity |].
  destruct (status_code r =? 200)%Z; simpl; [| reflexivity].
  destruct (truthy (error r)); reflexivity.
Qed.

(** X16: a result of [create_note] is either an error without any [success]
    key, or [success] true with the identifier exactly as the store gave it,
    null included: a null identifier is not turned into a failure. *)
Theorem create_note_result_shape (deck_name model_name : string)
  (fields tags : json) (w : World) (out : pydict) :
  ended (create_note deck_name model_name fields tags w) = Returned out ->
  (dict_mem out "error" = true /\ dict_get out "success" = None)
  \/ exists note_data r,
       calls (create_note deck_name model_name fields tags w)
       = [AddNote note_data]
       /\ fst (anki_addNote w note_data) = Replied r
       /\ status_code r = 200%Z
       /\ out = [("noteId", result_value r); ("success", JBool true)].
Proof.
  unfold create_note, tbind, tpost. cbv zeta.
  destruct (anki_addNote w _) as [[why | r] w1] eqn:E; simpl; [discriminate |].
  destruct (status_code r =? 200)%Z eqn:St; simpl.
  2:{ intros H. injection H as <-. left. split; reflexivity. }
  destruct (truthy (error r)); simpl.
  { intros H. injection H as <-. left. split; reflexivity. }
  intros H. injection H as <-. right.
  eexists. exists r. rewrite E. apply Z.eqb_eq in St. repeat split; auto.
Qed.

(** *** [create_deck_with_note_type] *)

Lemma default_templates_pure fields w :
  calls (default_templates fields w) = []
  /\ world_left (default_templates fields w) = w.
Proof.
  unfold default_templates, tbind, list_item, in_braces.
  destruct fields as [| f0 [| f1 rest]]; simpl; [split; reflexivity | |].
  - destruct f0; split; reflexivity.
  - destruct f0; simpl; try (split; reflexivity).
    destruct f1; split; reflexivity.
Qed.

(** X17: the default card template shows the first field on the front and,
    behind the front side and a rule, the second field on the back; a note
    type with a single field gets that field on both sides. *)
Theorem default_templates_of_string_fields (f0 f1 : string) (rest : list json)
  (w : World) :
  default_templates (JStr f0 :: JStr f1 :: rest) w
  = Ran (Returned
           (JList [JDict [("Name", JStr "Card 1");
                          ("Front", JStr ("{{" ++ f0 ++ "}}"));
                          ("Back",
                           JStr ("{{FrontSide}}<hr id=" ++ dquote ++ "answer"
                                 ++ dquote ++ ">{{" ++ f1 ++ "}}"))]])) w []
  /\ default_templates [JStr f0] w
     = Ran (Returned
              (JList [JDict [("Name", JStr "Card 1");
                             ("Front", JStr ("{{" ++ f0 ++ "}}"));
                             ("Back", JStr ("{{" ++ f0 ++ "}}"))]])) w [].
Proof. split; reflexivity. Qed.

(** X18: with no card templates given and an empty list of fields, the tool
    raises [IndexError] while building the default template, after the deck
    has been created: the [createDeck] request has been sent and nothing
    undoes it. *)
Theorem empty_fields_raise_after_deck_creation (deck_name model_name : string)
  (w w1 : World) (r : response json) :
  anki_createDeck w deck_name = (Replied r, w1) ->
  status_code r = 200%Z ->
  truthy (error r) = false ->
  create_deck_with_note_type deck_name model_name [] JNull w
  = Ran (Raised "list index out of range") w1 [CreateDeck deck_name].
Proof.
  intros D St Er. unfold create_deck_with_note_type.
  rewrite (tbind_returned _ _ _
             (tpost_replied (CreateDeck deck_name)
                (fun w => anki_createDeck w deck_name) w D)).
  cbv beta. rewrite St, Er. cbn [negb Z.eqb Pos.eqb]. reflexivity.
Qed.

Lemma ran_eta {A : Type} (r : ran A) :
  r = Ran (ended r) (world_left r) (calls r).
Proof. destruct r; reflexivity. Qed.

Lemma create_deck_inv deck_name model_name fields card_templates w o w' l :
  create_deck_with_note_type deck_name model_name fields card_templates w
  = Ran o w' l ->
  (l = [CreateDeck deck_name]
   \/ l = [CreateDeck deck_name; ModelNames]
   \/ exists model_data,
        l = [CreateDeck deck_name; ModelNames; CreateModel model_data])
  /\ forall out,
       o = Returned out ->
       dict_get out "success" = Some (JBool true) ->
       exists names models,
         fst (anki_modelNames (snd (anki_createDeck w deck_name)))
         = Replied names
         /\ existing_models names = Some models
         /\ dict_get out "model_created"
            = Some (JBool (negb (existsb (String.eqb model_name) models)))
         /\ (if existsb (String.eqb model_name) models then
               l = [CreateDeck deck_name; ModelNames]
             else
               exists model_data,
                 l = [CreateDeck deck_name; ModelNames; CreateModel model_data]
                 /\ dict_get model_data "modelName" = Some (JStr model_name)
                 /\ dict_get model_data "inOrderFields" = Some (JList fields)).
Proof.
  unfold create_deck_with_note_type. intros H.
  apply tbind_inv in H
    as [(e & Hm & ->) | (r0 & w1 & l1 & l2 & Hm & Hk & ->)].
  { apply tpost_raised_inv in Hm as (-> & _).
    split; [left; reflexivity | discriminate]. }
  apply tpost_returned_inv in Hm as (-> & -> & _).
  set (w1 := snd (anki_createDeck w deck_name)) in *.
  destruct (status_code r0 =? 200)%Z; cbn [negb] in Hk.
  2:{ injection Hk as <- <- <-. split; [left; reflexivity |].
      intros out H. injection H as <-. discriminate. }
  destruct (truthy (error r0)).
  { injection Hk as <- <- <-. split; [left; reflexivity |].
    intros out H. injection H as <-. discriminate. }
  assert (Htpl : exists t,
             (if is_None card_templates then default_templates fields
              else tret card_templates) w1 = Ran t w1 []).
  { destruct (is_None card_templates).
    - destruct (default_templates_pure fields w1) as [Hc Hw'].
      destruct (default_templates fields w1) as [t w2 l3]; simpl in *.
      subst. eexists; reflexivity.
    - eexists; reflexivity. }
  destruct Htpl as [t Htpl].
  apply tbind_inv in Hk
    as [(e & Hm & ->) | (templates & w2 & l3 & l4 & Hm & Hk & ->)];
    rewrite Htpl in Hm; injection Hm as Ht <- <-.
  { split; [left; reflexivity | discriminate]. }
  clear Ht Htpl. cbn [app].
  apply tbind_inv in Hk
    as [(e & Hm & ->) | (names & w3 & l5 & l6 & Hm & Hk & ->)].
  { apply tpost_raised_inv in Hm as (-> & _).
    split; [right; left; reflexivity | discriminate]. }
  apply tpost_returned_inv in Hm as (-> & -> & Hn).
  destruct (existing_models names) as [models |] eqn:Em.
  2:{ injection Hk as <- <- <-.
      split; [right; left; reflexivity | discriminate]. }
  destruct (existsb (String.eqb model_name) models) eqn:Ex; cbn [negb] in Hk.
  { injection Hk as <- <- <-.
    split; [right; left; reflexivity |].
    intros out H _. injection H as <-.
    exists names, models. rewrite Ex. repeat split; auto. }
  apply tbind_inv in Hk
    as [(e & Hm & ->) | (r3 & w4 & l7 & l8 & Hm & Hk & ->)].
  { apply tpost_raised_inv in Hm as (-> & _).
    split; [right; right; eexists; reflexivity | discriminate]. }
  apply tpost_returned_inv in Hm as (-> & -> & _).
  destruct (status_code r3 =? 200)%Z; cbn [negb] in Hk.
  2:{ injection Hk as <- <- <-.
      split; [right; right; eexists; reflexivity |].
      intros out H. injection H as <-. discriminate. }
  destruct (truthy (error r3)).
  { injection Hk as <- <- <-.
    split; [right; right; eexists; reflexivity |].
    intros out H. injection H as <-. discriminate. }
  injection Hk as <- <- <-.
  split; [right; right; eexists; reflexivity |].
  intros out H _. injection H as <-.
  exists names, models. rewrite Ex. repeat split; auto.
  eexists. repeat split.
Qed.

(** X19: the tool asks for the deck first and never sends more than
    [createDeck], [modelNames], [createModel], in this order. When it
    reports [success], [model_created] tells whether the model name was
    missing from the names [modelNames] reported (none when that call
    failed); exactly then a [createModel] request was sent, with the fields
    in the given order; an existing note type is never created again. *)
Theorem note_type_is_created_only_when_missing (deck_name model_name : string)
  (fields : list json) (card_templates : json) (w : World) :
  let r := create_deck_with_note_type deck_name model_name fields
             card_templates w in
  (calls r = [CreateDeck deck_name]
   \/ calls r = [CreateDeck deck_name; ModelNames]
   \/ exists model_data,
        calls r = [CreateDeck deck_name; ModelNames; CreateModel model_data])
  /\ forall out,
       ended r = Returned out ->
       dict_get out "success" = Some (JBool true) ->
       exists names models,
         fst (anki_modelNames (snd (anki_createDeck w deck_name)))
         = Replied names
         /\ existing_models names = Some models
         /\ dict_get out "model_created"
            = Some (JBool (negb (existsb (String.eqb model_name) models)))
         /\ (if existsb (String.eqb model_name) models then
               calls r = [CreateDeck deck_name; ModelNames]
             else
               exists model_data,
                 calls r = [CreateDeck deck_name; ModelNames;
                            CreateModel model_data]
                 /\ dict_get model_data "modelName" = Some (JStr model_name)
                 /\ dict_get model_data "inOrderFields" = Some (JList fields)).
Proof.
  cbv zeta.
  exact (create_deck_inv _ _ _ _ _ _ _ _
           (ran_eta (create_deck_with_note_type deck_name model_name fields
                       card_templates w))).
Qed.


(** *** [save_media_file] *)

(** What a successful [save_media_file] returns for the reply [r]. *)
Definition saved_result (media_type : string) (r : response json) : pydict :=
  [("success", JBool true);
   ("filename", result_value r);
   ("media_type", JStr media_type);
   ("message",
    JStr ("Media file saved as '" ++ py_str (result_value r)
          ++ "' in Anki's media collection"))].

Lemma save_media_file_inv filename base64_data media_type w :
  exists out b,
    save_media_file filename base64_data media_type w
    = Ran (Returned out) (snd (anki_storeMediaFile w filename base64_data))
          [StoreMediaFile filename base64_data]
    /\ dict_get out "success" = Some (JBool b)
    /\ (b = false ->
        dict_mem out "error" = true /\ dict_get out "filename" = None)
    /\ (b = true ->
        exists r,
          fst (anki_storeMediaFile w filename base64_data) = Replied r
          /\ status_code r = 200%Z
          /\ truthy (error r) = false
          /\ out = saved_result media_type r).
Proof.
  unfold save_media_file, tcatch, tbind, tpost.
  destruct (anki_storeMediaFile w filename base64_data) as [[why | r] w1];
    cbn [ended world_left calls tret app snd fst].
  { eexists _, false. repeat split; discriminate. }
  destruct (status_code r =? 200)%Z eqn:St;
    cbn [negb ended world_left calls tret app].
  2:{ eexists _, false. repeat split; discriminate. }
  destruct (truthy (error r)) eqn:Er; cbn [ended world_left calls tret app].
  { eexists _, false. repeat split; discriminate. }
  eexists _, true. repeat split; try discriminate.
  intros _. exists r. apply Z.eqb_eq in St. repeat split; assumption.
Qed.

(** X20: [save_media_file] never raises: an unreachable store becomes a
    failure result.  It sends exactly one [storeMediaFile] request, with the
    file name and the data as given, and its result always has a boolean
    [success]; a failure has an [error] and no [filename]. *)
Theorem save_media_file_never_raises (filename : string) (base64_data : json)
  (media_type : string) (w : World) :
  exists out b,
    save_media_file filename base64_data media_type w
    = Ran (Returned out) (snd (anki_storeMediaFile w filename base64_data))
          [StoreMediaFile filename base64_data]
    /\ dict_get out "success" = Some (JBool b)
    /\ (b = false ->
        dict_mem out "error" = true /\ dict_get out "filename" = None).
Proof.
  destruct (save_media_file_inv filename base64_data media_type w)
    as (out & b & Hrun & Hs & Hf & _).
  exists out, b. repeat split; auto; apply Hf; assumption.
Qed.

(** X21: when [save_media_file] reports [success], the store answered with
    status 200 and no error, and [filename] is the name the store answered
    (its [result], null included), not the name that was asked for; the
    media type is echoed. *)
Theorem saved_name_is_the_store_s_answer (filename : string)
  (base64_data : json) (media_type : string) (w : World) (out : pydict) :
  ended (save_media_file filename base64_data media_type w) = Returned out ->
  dict_get out "success" = Some (JBool true) ->
  exists r,
    fst (anki_storeMediaFile w filename base64_data) = Replied r
    /\ status_code r = 200%Z
    /\ truthy (error r) = false
    /\ dict_get out "filename" = Some (result_value r)
    /\ dict_get out "media_type" = Some (JStr media_type).
Proof.
  intros Hend Hok.
  destruct (save_media_file_inv filename base64_data media_type w)
    as (out' & b & Hrun & Hs & _ & Ht).
  rewrite Hrun in Hend. cbn [ended] in Hend. injection Hend as ->.
  rewrite Hs in Hok. injection Hok as ->.
  destruct (Ht eq_refl) as (r & Hr & St & Er & ->).
  exists r. repeat split; assumption.
Qed.

(** *** [generate_audio] *)

(** The body of the speech request. *)
Definition speech_request (text language voice : string) : json :=
  JDict [("input", JDict [("text", JStr text)]);
         ("voice", JDict [("languageCode", JStr language);
                          ("name", JStr voice)]);
         ("audioConfig", JDict [("audioEncoding", JStr "MP3")])].

(** What a successful [generate_audio] returns. *)
Definition audio_result (text language voice : string) (audio : json)
  : pydict :=
  [("success", JBool true);
   ("audio_base64", audio);
   ("format", JStr "mp3");
   ("language", JStr language);
   ("voice", JStr voice);
   ("text", JStr text);
   ("model", JStr "chirp")].

(** The key in use: [api_key] when it is set and not empty. *)
Definition usable_key (api_key : option string) : option string :=
  match api_key with
  | Some key => if str_truthy key then Some key else None
  | None => None
  end.

Lemma generate_audio_inv api_key text language voice w :
  exists out w1 b,
    generate_audio api_key text language voice w
    = Ran (Returned out) w1
          match usable_key api_key with
          | Some key => [Synthesize key (speech_request text language voice)]
          | None => []
          end
    /\ dict_get out "success" = Some (JBool b)
    /\ (b = false ->
        dict_mem out "error" = true /\ dict_get out "audio_base64" = None)
    /\ (b = true ->
        exists key r audio,
          usable_key api_key = Some key
          /\ google_synthesize w key (speech_request text language voice)
             = (Replied r, w1)
          /\ tts_status_code r = 200%Z
          /\ tts_audioContent r = Some audio
          /\ out = audio_result text language voice audio).
Proof.
  unfold generate_audio, usable_key.
  destruct api_key as [key |].
  2:{ exists missing_google_key_error, w, false.
      repeat split; discriminate. }
  destruct (str_truthy key) eqn:K.
  2:{ exists missing_google_key_error, w, false.
      repeat split; discriminate. }
  unfold tcatch, tbind, tpost. cbv zeta.
  change (JDict [("input", JDict [("text", JStr text)]);
                 ("voice", JDict [("languageCode", JStr language);
                                  ("name", JStr voice)]);
                 ("audioConfig", JDict [("audioEncoding", JStr "MP3")])])
    with (speech_request text language voice).
  destruct (google_synthesize w key (speech_request text language voice))
    as [[why | r] w1] eqn:G; cbn [ended world_left calls tret app].
  { eexists _, w1, false. repeat split; discriminate. }
  destruct (tts_status_code r =? 200)%Z eqn:St;
    cbn [negb ended world_left calls tret app].
  2:{ eexists _, w1, false. repeat split; discriminate. }
  destruct (tts_audioContent r) as [audio |] eqn:Au;
    cbn [ended world_left calls tret traise app].
  2:{ eexists _, w1, false. repeat split; discriminate. }
  eexists _, w1, true. repeat split; try discriminate.
  intros _. exists key, r, audio. apply Z.eqb_eq in St.
  repeat split; assumption.
Qed.

(** X22: [generate_audio] never raises: an unreachable service, a refusal
    and an answer without [audioContent] all become failure results with a
    boolean [success].  Without a key (unset or empty) it sends nothing;
    with one it sends exactly one request, carrying the key and the text,
    language and voice as given. *)
Theorem generate_audio_never_raises (api_key : option string)
  (text language voice : string) (w : World) :
  exists out b,
    ended (generate_audio api_key text language voice w) = Returned out
    /\ dict_get out "success" = Some (JBool b)
    /\ calls (generate_audio api_key text language voice w)
       = match usable_key api_key with
         | Some key => [Synthesize key (speech_request text language voice)]
         | None => []
         end
    /\ (usable_key api_key = None ->
        out = missing_google_key_error
        /\ world_left (generate_audio api_key text language voice w) = w).
Proof.
  destruct (generate_audio_inv api_key text language voice w)
    as (out & w1 & b & Hrun & Hs & _ & _).
  exists out, b. rewrite Hrun. cbn [ended calls world_left].
  split; [reflexivity |]. split; [assumption |]. split; [reflexivity |].
  intros Hk. unfold generate_audio, usable_key in *.
  destruct api_key as [key |]; [destruct (str_truthy key) |];
    try discriminate; injection Hrun as <- <-; split; reflexivity.
Qed.

(** X23: when [generate_audio] reports [success], the speech service
    answered the request with status 200, and [audio_base64] is the
    [audioContent] of that answer, unchanged; the text, the language and the
    voice are echoed. *)
Theorem generated_audio_is_the_service_s (api_key : option string)
  (text language voice : string) (w : World) (out : pydict) :
  ended (generate_audio api_key text language voice w) = Returned out ->
  dict_get out "success" = Some (JBool true) ->
  exists key r,
    usable_key api_key = Some key
    /\ fst (google_synthesize w key (speech_request text language voice))
       = Replied r
    /\ tts_status_code r = 200%Z
    /\ (exists audio,
          tts_audioContent r = Some audio
          /\ dict_get out "audio_base64" = Some audio)
    /\ dict_get out "text" = Some (JStr text)
    /\ dict_get out "language" = Some (JStr language)
    /\ dict_get out "voice" = Some (JStr voice).
Proof.
  intros Hend Hok.
  destruct (generate_audio_inv api_key text language voice w)
    as (out' & w1 & b & Hrun & Hs & _ & Ht).
  rewrite Hrun in Hend. cbn [ended] in Hend. injection Hend as ->.
  rewrite Hs in Hok. injection Hok as ->.
  destruct (Ht eq_refl) as (key & r & audio & Hk & Hg & St & Au & ->).
  exists key, r. rewrite Hg. repeat split; try assumption.
  exists audio. split; [assumption | reflexivity].
Qed.

(** *** [generate_and_save_audio] *)

(** What a successful [generate_and_save_audio] returns, for the name
    [saved] the store answered. *)
Definition sound_result (text language voice : string) (saved : json)
  : pydict :=
  [("success", JBool true);
   ("filename", saved);
   ("text", JStr text);
   ("language", JStr language);
   ("voice", JStr voice);
   ("sound_tag", JStr ("[sound:" ++ py_str saved ++ "]"));
   ("message",
    JStr ("Audio generated and saved as '" ++ py_str saved
          ++ "'. Use [sound:" ++ py_str saved
          ++ "] in your card fields."))].

Lemma success_flag (d : pydict) (b : bool) :
  dict_get d "success" = Some (JBool b) ->
  truthy (get_or d "success" JNull) = b.
Proof. intros H. unfold get_or. rewrite H. reflexivity. Qed.

Lemma generate_and_save_audio_inv api_key text filename language voice w :
  exists out,
    ended (generate_and_save_audio api_key text filename language voice w)
    = Returned out
    /\ ((dict_get out "success" = Some (JBool false)
         /\ generate_and_save_audio api_key text filename language voice w
            = generate_audio api_key text language voice w)
        \/ exists key sr audio w1,
             usable_key api_key = Some key
             /\ google_synthesize w key (speech_request text language voice)
                = (Replied sr, w1)
             /\ tts_status_code sr = 200%Z
             /\ tts_audioContent sr = Some audio
             /\ calls (generate_and_save_audio api_key text filename language
                         voice w)
                = [Synthesize key (speech_request text language voice);
                   StoreMediaFile filename audio]
             /\ world_left (generate_and_save_audio api_key text filename
                              language voice w)
                = snd (anki_storeMediaFile w1 filename audio)
             /\ ((dict_get out "success" = Some (JBool false)
                  /\ ended (save_media_file filename audio "audio" w1)
                     = Returned out)
                 \/ exists r,
                      fst (anki_storeMediaFile w1 filename audio) = Replied r
                      /\ status_code r = 200%Z
                      /\ truthy (error r) = false
                      /\ out = sound_result text language voice
                                 (result_value r))).
Proof.
  destruct (generate_audio_inv api_key text language voice w)
    as (out1 & w1 & b & Hgen & Hs & _ & Ht).
  unfold generate_and_save_audio.
  rewrite (tbind_returned _ _ _ Hgen). cbv beta.
  rewrite (success_flag _ _ Hs).
  destruct b; cbn [negb].
  2:{ exists out1. cbn [tret ended world_left calls]. split; [reflexivity |].
      left. split; [assumption |]. rewrite Hgen, app_nil_r. reflexivity. }
  destruct (Ht eq_refl) as (key & sr & audio & Hk & Hg & St & Au & ->).
  rewrite Hk in *.
  destruct (save_media_file_inv filename audio "audio" w1)
    as (out2 & b2 & Hsave & Hs2 & _ & Ht2).
  assert (Hitem : tgetitem (audio_result text language voice audio)
                    "audio_base64" w1 = Ran (Returned audio) w1 [])
    by reflexivity.
  rewrite (tbind_returned _ _ _ Hitem). cbv beta.
  rewrite (tbind_returned _ _ _ Hsave). cbv beta.
  rewrite (success_flag _ _ Hs2).
  destruct b2; cbn [negb].
  2:{ exists out2. cbn [tret ended world_left calls app]. split; [reflexivity |].
      right. exists key, sr, audio, w1. repeat split; try assumption.
      left. split; [assumption |]. rewrite Hsave. reflexivity. }
  destruct (Ht2 eq_refl) as (r & Hr & St2 & Er2 & ->).
  exists (sound_result text language voice (result_value r)).
  split; [reflexivity |].
  right. exists key, sr, audio, w1. repeat split; try assumption.
  right. exists r. repeat split; assumption.
Qed.

(** X24: [generate_and_save_audio] never raises: whatever the two services
    do, it returns a result with a boolean [success], and it sends at most
    two requests.  (The keys it reads from the intermediate results,
    [audio_base64] and [filename], are always there when it reads them.) *)
Theorem generate_and_save_audio_never_raises (api_key : option string)
  (text filename language voice : string) (w : World) :
  exists out b,
    ended (generate_and_save_audio api_key text filename language voice w)
    = Returned out
    /\ dict_get out "success" = Some (JBool b)
    /\ (List.length
          (calls (generate_and_save_audio api_key text filename language
                    voice w)) <= 2)%nat.
Proof.
  destruct (generate_and_save_audio_inv api_key text filename language voice w)
    as (out & Hend & [[Hs Hsame] | (key & sr & audio & w1 & Hk & Hg & St & Au
                                     & Hc & Hw & Hrest)]).
  - exists out, false. repeat split; try assumption.
    rewrite Hsame.
    destruct (generate_audio_inv api_key text language voice w)
      as (out1 & w1 & b & Hgen & _).
    rewrite Hgen. cbn [calls].
    destruct (usable_key api_key); simpl; lia.
  - destruct Hrest as [[Hs _] | (r & _ & _ & _ & ->)].
    + exists out, false. repeat split; try assumption. rewrite Hc. simpl. lia.
    + eexists _, true.
      split; [exact Hend |]. split; [reflexivity |]. rewrite Hc. simpl. lia.
Qed.

(** X25: a [storeMediaFile] request is sent only after the speech service
    answered with status 200 and an [audioContent]: it is sent under the file
    name given, and the data stored is that [audioContent], unchanged.  A
    failed generation stores nothing. *)
Theorem only_generated_audio_is_stored (api_key : option string)
  (text filename language voice : string) (w : World)
  (name : string) (data : json) :
  In (StoreMediaFile name data)
     (calls (generate_and_save_audio api_key text filename language voice w)) ->
  name = filename
  /\ exists key r,
       usable_key api_key = Some key
       /\ fst (google_synthesize w key (speech_request text language voice))
          = Replied r
       /\ tts_status_code r = 200%Z
       /\ tts_audioContent r = Some data.
Proof.
  intros Hin.
  destruct (generate_and_save_audio_inv api_key text filename language voice w)
    as (out & Hend & [[Hs Hsame] | (key & sr & audio & w1 & Hk & Hg & St & Au
                                     & Hc & Hw & Hrest)]).
  - rewrite Hsame in Hin.
    destruct (generate_audio_inv api_key text language voice w)
      as (out1 & w1 & b & Hgen & _).
    rewrite Hgen in Hin. cbn [calls] in Hin.
    destruct (usable_key api_key); simpl in Hin.
    + destruct Hin as [Hin | []]. discriminate.
    + destruct Hin.
  - rewrite Hc in Hin. simpl in Hin.
    destruct Hin as [Hin | [Hin | []]]; [discriminate |].
    injection Hin as <- <-. split; [reflexivity |].
    exists key, sr. rewrite Hg. repeat split; assumption.
Qed.

(** X26: when [generate_and_save_audio] reports [success], both services
    were asked once, the speech service first; [filename] is the name the
    store answered and [sound_tag] is [[sound:<that name>]] (not the name
    that was asked for). *)
Theorem sound_tag_names_the_stored_file (api_key : option string)
  (text filename language voice : string) (w : World) (out : pydict) :
  ended (generate_and_save_audio api_key text filename language voice w)
  = Returned out ->
  dict_get out "success" = Some (JBool true) ->
  exists key audio w1 r,
    calls (generate_and_save_audio api_key text filename language voice w)
    = [Synthesize key (speech_request text language voice);
       StoreMediaFile filename audio]
    /\ w1 = snd (google_synthesize w key (speech_request text language voice))
    /\ fst (anki_storeMediaFile w1 filename audio) = Replied r
    /\ dict_get out "filename" = Some (result_value r)
    /\ dict_get out "sound_tag"
       = Some (JStr ("[sound:" ++ py_str (result_value r) ++ "]")).
Proof.
  intros Hend Hok.
  destruct (generate_and_save_audio_inv api_key text filename language voice w)
    as (out' & Hend' & [[Hs Hsame] | (key & sr & audio & w1 & Hk & Hg & St & Au
                                       & Hc & Hw & Hrest)]);
    rewrite Hend' in Hend; injection Hend as ->.
  - rewrite Hs in Hok. discriminate.
  - destruct Hrest as [[Hs _] | (r & Hr & _ & _ & ->)].
    + rewrite Hs in Hok. discriminate.
    + exists key, audio, w1, r. rewrite Hg. repeat split; assumption.
Qed.

(** *** Tools without a handler *)

(** X27: [get_deck_notes] has no handler: when the store cannot be reached,
    the tool raises the connection error after its first request, unlike the
    bulk tools, which turn it into a result. *)
Theorem listing_raises_when_anki_is_unreachable (deck_name why : string)
  (w w' : World) :
  anki_findNotes w ("deck:" ++ dquote ++ deck_name ++ dquote)
  = (Unreachable why, w') ->
  get_deck_notes deck_name w
  = Run (Raised why) w' [FindNotes ("deck:" ++ dquote ++ deck_name ++ dquote)].
Proof.
  intros F. unfold get_deck_notes. cbv zeta.
  apply bind_raised. unfold post. rewrite F. reflexivity.
Qed.

(** X28: [create_note] raises exactly when the store cannot be reached, and
    then with the connection error: every answer of the store, whatever its
    status, gives a result. *)
Theorem create_note_raises_only_when_unreachable (deck_name model_name : string)
  (fields tags : json) (w : World) (e : string) :
  ended (create_note deck_name model_name fields tags w) = Raised e
  <-> fst (anki_addNote w
             (JDict [("deckName", JStr deck_name);
                     ("modelName", JStr model_name);
                     ("fields", fields);
                     ("tags", if is_None tags then JList [] else tags)]))
      = Unreachable e.
Proof.
  unfold create_note, tbind, tpost. cbv zeta.
  destruct (anki_addNote w _) as [[why | r] w1]; simpl.
  { split; intros H; injection H as <-; reflexivity. }
  destruct (status_code r =? 200)%Z; simpl; [| split; discriminate].
  destruct (truthy (error r)); simpl; split; discriminate.
Qed.
End Server.

Arguments JNull {score}.
Arguments JBool {score} b.
Arguments JInt {score} n.
Arguments JFloat {score} x.
Arguments JStr {score} s.
Arguments JList {score} items.
Arguments JDict {score} entries.
Arguments Returned {A} a.
Arguments Raised {A} e.
Arguments Run {score World A} _ _ _.
Arguments Unreachable {R} why.
Arguments Replied {R} r.
Arguments FindNotes {score} query.
Arguments NotesInfo {score} notes.
Arguments UpdateNoteFields {score} note_data.
Arguments AddNotes {score} notes.
Arguments Embeddings {score} api_key input.
Arguments Succeeded {score} entry.
Arguments Failed {score} entry.
Arguments note_noteId {score} n.
Arguments note_modelName {score} n.
Arguments note_tags {score} n.
Arguments note_fields {score} n.
Arguments status_code {score A} r.
Arguments error {score A} r.
Arguments result {score A} r.
Arguments outcome_of {score World A} r.
Arguments world_of {score World A} r.
Arguments sent_of {score World A} r.
Arguments c_note {score} c.
Arguments c_similarity {score} c.
Arguments c_combined_text {score} c.

(** ** A test double of the two services

    Scores and vectors are integers; the world is the list of notes of the
    collection.  [findNotes] answers every note's identifier, [notesInfo]
    looks identifiers up, [updateNoteFields] stores the fields it is sent,
    [addNotes] answers null for a note without fields.  The embedding of a
    text is its length, and the similarity of two embeddings is 100 minus
    their distance. *)

Definition dscore : Type := Z.

Definition dstr (v : json dscore) : string :=
  match v with
  | JInt n => NilZero.string_of_int (Z.to_int n)
  | JFloat x => NilZero.string_of_int (Z.to_int x)
  | JStr s => s
  | _ => "?"
  end.

Definition dtruthy (x : dscore) : bool := negb (x =? 0)%Z.

Definition dworld : Type := list (note dscore).

Definition same_id (a b : json dscore) : bool :=
  match a, b with
  | JInt m, JInt n => (m =? n)%Z
  | _, _ => false
  end.

Definition ok {A : Type} (a : A) : reply (response dscore A) :=
  Replied {| status_code := 200; error := JNull; result := Some a |}.

Definition d_findNotes (w : dworld) (query : string)
  : reply (response dscore (list (json dscore))) * dworld :=
  (ok (map (@note_noteId dscore) w), w).

Definition d_notesInfo (w : dworld) (ids : list (json dscore))
  : reply (response dscore (list (option (note dscore)))) * dworld :=
  (ok (map (fun id => find (fun n => same_id (note_noteId n) id) w) ids), w).

Definition d_store (note_data : json dscore) (n : note dscore) : note dscore :=
  match note_data with
  | JDict entries =>
      match dict_get entries "id", dict_get entries "fields",
            dict_get entries "tags" with
      | Some id, Some (JDict sent), Some tags =>
          if same_id (note_noteId n) id then
            {| note_noteId := note_noteId n;
               note_modelName := note_modelName n;
               note_tags := tags;
               note_fields :=
                 map (fun item : string * field_data =>
                        match dict_get sent (fst item) with
                        | Some (JStr v) => (fst item, {| value := v |})
                        | _ => item
                        end) (note_fields n) |}
          else n
      | _, _, _ => n
      end
  | _ => n
  end.

Definition d_updateNoteFields (w : dworld) (note_data : json dscore)
  : reply (response dscore unit) * dworld :=
  (Replied {| status_code := 200; error := JNull; result := None |},
   map (d_store note_data) w).

Definition d_new_id (anki_note : json dscore) : json dscore :=
  match anki_note with
  | JDict entries =>
      match dict_get entries "fields" with
      | Some (JDict (_ :: _)) => JInt 1000
      | _ => JNull
      end
  | _ => JNull
  end.

Definition d_addNotes (w : dworld) (notes : list (json dscore))
  : reply (response dscore (list (json dscore))) * dworld :=
  (ok (map d_new_id notes), w).

Definition d_embeddings (w : dworld) (api_key text : string)
  : reply (embedding_response Z) * dworld :=
  (Replied {| emb_status_code := 200;
              emb_text := "";
              emb_embedding := Some (Z.of_nat (String.length text)) |}, w).

Definition d_cosine (vec1 vec2 : Z) : string + dscore :=
  inr (100 - Z.abs (vec1 - vec2))%Z.

Definition d_create_notes_bulk :=
  create_notes_bulk dscore dtruthy dworld dstr d_addNotes.

Definition d_update_note :=
  update_note dscore dtruthy dworld dstr d_notesInfo d_updateNoteFields.

Definition d_update_notes_bulk :=
  update_notes_bulk dscore dtruthy dworld dstr d_notesInfo d_updateNoteFields.

Definition d_find_similar_notes :=
  find_similar_notes dscore Z.geb Z.ltb dtruthy (fun x : dscore => x) Z dworld
    dstr d_findNotes d_notesInfo d_embeddings d_cosine.

(** A card with a front and a back, and a collection of three. *)
Definition card (id : Z) (front back : string) : note dscore :=
  {| note_noteId := JInt id;
     note_modelName := JStr "Basic";
     note_tags := JList [JStr "fruit"];
     note_fields := [("Front", {| value := front |});
                     ("Back", {| value := back |})] |}.

Definition demo : dworld :=
  [card 1 "apple pie" ""; card 2 "   " ""; card 3 "apple tart" " ";
   card 4 "banana bread" ""].

(** A well-formed item for [create_notes_bulk], and one without [fields]. *)
Definition new_note (front : string) : json dscore :=
  JDict [("model_name", JStr "Basic");
         ("fields", JDict [("Front", JStr front)])].

Definition no_fields : json dscore := JDict [("model_name", JStr "Basic")].

(** Three items of which the second cannot be created, and what is sent to
    the store for them. *)
Definition three_new : list (json dscore) :=
  [new_note "a";
   JDict [("model_name", JStr "Basic"); ("fields", JDict [])];
   new_note "c"].

Definition three_prepared : list (json dscore) :=
  [JDict [("deckName", JStr "Default"); ("modelName", JStr "Basic");
          ("fields", JDict [("Front", JStr "a")]); ("tags", JList [])];
   JDict [("deckName", JStr "Default"); ("modelName", JStr "Basic");
          ("fields", JDict []); ("tags", JList [])];
   JDict [("deckName", JStr "Default"); ("modelName", JStr "Basic");
          ("fields", JDict [("Front", JStr "c")]); ("tags", JList [])]].

(** Three updates: a good one, one that is no dictionary, one for a note that
    does not exist. *)
Definition three_updates : list (json dscore) :=
  [JDict [("note_id", JInt 1); ("fields", JDict [("Back", JStr "dessert")])];
   JInt 7;
   JDict [("note_id", JInt 9); ("fields", JDict [])]].

(** ** The claims on the test double *)

(** C1, as stated, fails: three well-formed items and one without [fields]
    give one error for the whole call, no [total_attempted], and nothing is
    sent to the store, so no sibling is created. *)
Lemma create_with_one_bad_item_creates_nothing :
  d_create_notes_bulk "Default"
    [new_note "a"; new_note "b"; new_note "c"; no_fields] []
  = Run (Returned [("error",
                    JStr "Note 4 missing required 'model_name' or 'fields'");
                   ("success", JBool false)]) [] [].
Proof. reflexivity. Qed.

Lemma create_refuses_the_whole_batch_witness :
  d_create_notes_bulk "Default"
    ([new_note "a"; new_note "b"] ++ no_fields :: [new_note "c"]) demo
  = Run (Returned [("error",
                    JStr "Note 3 missing required 'model_name' or 'fields'");
                   ("success", JBool false)]) demo [].
Proof.
  exact (create_refuses_the_whole_batch dscore dtruthy dworld dstr d_addNotes
           "Default" [new_note "a"; new_note "b"]
           [("model_name", JStr "Basic")] [new_note "c"] demo
           eq_refl eq_refl).
Defined.

Lemma create_counts_by_aligned_identifier_witness :
  exists out,
    d_create_notes_bulk "Default" three_new demo
    = Run (Returned out) demo [AddNotes three_prepared]
    /\ dict_get out "success" = Some (JBool true)
    /\ dict_get out "successful_count" = Some (JInt 2)
    /\ dict_get out "failed_count" = Some (JInt 1).
Proof.
  refine (create_counts_by_aligned_identifier dscore dtruthy dworld dstr
            d_addNotes "Default" three_new three_prepared demo demo
            {| status_code := 200; error := JNull;
               result := Some [JInt 1000; JNull; JInt 1000] |}
            [JInt 1000; JNull; JInt 1000] _ _ _ _ _ _ _);
    try reflexivity.
  discriminate.
Defined.

Lemma update_keeps_unmentioned_fields_witness :
  exists r current_note (new_fields sent_fields : pydict dscore)
         (sent_tags : json dscore),
    fst (d_notesInfo demo [JInt 1]) = Replied r
    /\ first_note dscore (result r) = Some current_note
    /\ JDict [("Back", JStr "dessert")] = JDict new_fields
    /\ [NotesInfo [JInt 1];
        UpdateNoteFields
          (JDict [("id", JInt 1);
                  ("fields",
                   JDict [("Front", JStr "apple pie");
                          ("Back", JStr "dessert")]);
                  ("tags", JList [JStr "fruit"])])]
       = [NotesInfo [JInt 1];
          UpdateNoteFields (JDict [("id", JInt 1);
                                   ("fields", JDict sent_fields);
                                   ("tags", sent_tags)])]
    /\ (NoDup (dict_keys (note_fields current_note)) ->
        forall name,
          dict_mem new_fields name = false ->
          dict_get sent_fields name
          = option_map (fun field => JStr (value field))
              (dict_get (note_fields current_note) name))
    /\ sent_tags = (if is_None dscore JNull then note_tags current_note
                    else JNull).
Proof.
  eapply (update_keeps_unmentioned_fields dscore dtruthy dworld dstr
            d_notesInfo d_updateNoteFields (JInt 1)
            (JDict [("Back", JStr "dessert")]) JNull demo);
    reflexivity.
Defined.

(** C2, as stated, fails: on an empty deck the search returns an error
    result, [success] false. *)
Lemma search_of_an_empty_deck_fails :
  d_find_similar_notes (Some "sk-test") "Empty" "apple dessert" 0%Z 10%Z []
  = Run (Returned [("error", JStr "No notes found in deck 'Empty'");
                   ("success", JBool false)])
        [] [FindNotes ("deck:" ++ dquote ++ "Empty" ++ dquote)].
Proof. reflexivity. Qed.

Lemma empty_deck_is_reported_as_error_witness :
  d_find_similar_notes (Some "sk-test") "Unknown" "apple" 70%Z 10%Z []
  = Run (Returned [("error", JStr "No notes found in deck 'Unknown'");
                   ("success", JBool false)])
        [] [FindNotes ("deck:" ++ dquote ++ "Unknown" ++ dquote)].
Proof.
  refine (empty_deck_is_reported_as_error dscore Z.geb Z.ltb dtruthy
            (fun x : dscore => x) Z dworld dstr d_findNotes d_notesInfo
            d_embeddings d_cosine "sk-test" "Unknown" "apple" 70%Z 10%Z [] []
            {| status_code := 200; error := JNull; result := Some [] |}
            _ _ _ _ _);
    try reflexivity.
  left. reflexivity.
Defined.

(** Integer comparisons have the properties assumed of float comparisons. *)
Lemma integer_comparisons : float_comparisons Z.geb Z.ltb.
Proof.
  unfold float_comparisons, number. repeat split.
  - rewrite Z.geb_leb. apply Z.leb_refl.
  - rewrite Z.geb_leb. apply Z.leb_refl.
  - intros a b _ _. rewrite Z.geb_leb. apply Z.ltb_antisym.
  - intros a b _ _. rewrite !Z.geb_leb, !Z.leb_le. lia.
  - intros a b c. rewrite !Z.geb_leb, !Z.leb_le. lia.
Qed.

(** The result of a search of the demo collection: two of the three notes
    with a text, the two tied at 99 in the order the store reported them. *)
Definition demo_found : pydict dscore :=
  [("success", JBool true);
   ("search_text", JStr "apple cakes");
   ("found_count", JInt 2);
   ("similarity_threshold", JFloat 0%Z);
   ("deck_name", JStr "Demo");
   ("notes",
    JList
      [JDict [("note_id", JInt 3); ("model_name", JStr "Basic");
              ("tags", JList [JStr "fruit"]);
              ("similarity_score", JFloat 99%Z);
              ("fields",
               JDict [("Front", JStr "apple tart"); ("Back", JStr " ")])];
       JDict [("note_id", JInt 4); ("model_name", JStr "Basic");
              ("tags", JList [JStr "fruit"]);
              ("similarity_score", JFloat 99%Z);
              ("fields",
               JDict [("Front", JStr "banana bread"); ("Back", JStr "")])]])].

(** What that search sends. *)
Definition demo_sent : list (request dscore) :=
  [FindNotes ("deck:" ++ dquote ++ "Demo" ++ dquote);
   NotesInfo [JInt 1; JInt 2; JInt 3; JInt 4];
   Embeddings "sk-test" "apple cakes";
   Embeddings "sk-test" "apple pie";
   Embeddings "sk-test" "apple tart";
   Embeddings "sk-test" "banana bread"].

Lemma results_sorted_and_stable_witness :
  exists notes (similarities ranked dropped : list (candidate dscore)),
    retrieved dscore dworld d_findNotes d_notesInfo "Demo" demo notes
    /\ subsequence (map (fun item => Some (c_note item)) similarities) notes
    /\ Forall (cleared dscore Z.geb 0%Z) similarities
    /\ dict_get demo_found "notes"
       = Some (JList (map (format_note dscore (fun x : dscore => x)) ranked))
    /\ Permutation (ranked ++ dropped) similarities
    /\ StronglySorted (key_ge Z.geb c_similarity) ranked
    /\ (forall s,
           filter (tied Z.geb c_similarity s) similarities
           = (filter (tied Z.geb c_similarity s) ranked
              ++ filter (tied Z.geb c_similarity s) dropped)%list).
Proof.
  refine (results_sorted_and_stable dscore Z.geb Z.ltb dtruthy
            (fun x : dscore => x) Z dworld dstr d_findNotes d_notesInfo
            d_embeddings d_cosine (Some "sk-test") "Demo" "apple cakes"
            0%Z 2%Z demo demo demo_found demo_sent _ _ _).
  - exact integer_comparisons.
  - vm_compute. reflexivity.
  - reflexivity.
Defined.

Lemma result_count_is_bounded_witness :
  exists key (similarities ranked : list (candidate dscore)),
    Some "sk-test" = Some key
    /\ outcome_of (gather dscore Z.geb dtruthy Z dworld dstr d_findNotes
                     d_notesInfo d_embeddings d_cosine key "Demo"
                     "apple cakes" 0%Z demo)
       = Returned (inr similarities)
    /\ Forall (cleared dscore Z.geb 0%Z) similarities
    /\ dict_get demo_found "notes"
       = Some (JList (map (format_note dscore (fun x : dscore => x)) ranked))
    /\ dict_get demo_found "found_count" = Some (len dscore ranked)
    /\ (Z.of_nat (List.length ranked) <= 2)%Z
    /\ (List.length ranked <= List.length similarities)%nat.
Proof.
  refine (result_count_is_bounded dscore Z.geb Z.ltb dtruthy
            (fun x : dscore => x) Z dworld dstr d_findNotes d_notesInfo
            d_embeddings d_cosine (Some "sk-test") "Demo" "apple cakes"
            0%Z 2%Z demo demo demo_found demo_sent _ _ _).
  - lia.
  - vm_compute. reflexivity.
  - reflexivity.
Defined.

(** A store that answers one identifier, however many notes it is sent. *)
Definition d_addNotes_short (w : dworld) (notes : list (json dscore))
  : reply (response dscore (list (json dscore))) * dworld :=
  (ok [JInt 1000], w).


(** Two collections are alike when they hold the same notes, by identifier
    and field names, in the same order: what an update writes, values and
    tags, is left out. *)
Definition card_shape (n : note dscore) : json dscore * list string :=
  (note_noteId n, dict_keys (note_fields n)).

Definition same_cards (w1 w2 : dworld) : Prop :=
  map card_shape w1 = map card_shape w2.

Lemma d_store_shape (note_data : json dscore) (n : note dscore) :
  card_shape (d_store note_data n) = card_shape n.
Proof.
  unfold d_store, card_shape.
  destruct note_data; try reflexivity.
  destruct (dict_get entries "id"); try reflexivity.
  destruct (dict_get entries "fields") as [[] |]; try reflexivity.
  destruct (dict_get entries "tags"); try reflexivity.
  destruct (same_id (note_noteId n) j); [| reflexivity].
  simpl. f_equal. unfold dict_keys. rewrite map_map.
  apply map_ext. intros [name v]. simpl.
  destruct (dict_get entries0 name) as [[] |]; reflexivity.
Qed.

Lemma same_cards_find (id : json dscore) (w1 : dworld) :
  forall w2,
    same_cards w1 w2 ->
    match find (fun n => same_id (note_noteId n) id) w1,
          find (fun n => same_id (note_noteId n) id) w2 with
    | Some n1, Some n2 =>
        dict_keys (note_fields n1) = dict_keys (note_fields n2)
    | None, None => True
    | _, _ => False
    end.
Proof.
  unfold same_cards.
  induction w1 as [| n1 w1 IH]; intros [| n2 w2] H; simpl in *;
    try discriminate; [exact I |].
  injection H as Hid Hkeys H.
  rewrite Hid. destruct (same_id (note_noteId n2) id); [exact Hkeys |].
  apply IH. exact H.
Qed.

Lemma double_store_answers_alike :
  answers_alike dscore dworld d_notesInfo d_updateNoteFields same_cards.
Proof.
  unfold answers_alike. repeat split.
  - exact H.
  - exact H.
  - unfold same_cards in *. simpl. rewrite map_map.
    rewrite <- H. apply map_ext. intros n. apply d_store_shape.
  - unfold same_cards in *. simpl. rewrite map_map.
    rewrite H. symmetry. apply map_ext. intros n. apply d_store_shape.
  - simpl. pose proof (same_cards_find note_id w1 w2 H) as Hf.
    destruct (find (fun n => same_id (note_noteId n) note_id) w1),
             (find (fun n => same_id (note_noteId n) note_id) w2);
      exact Hf.
Qed.

(** Updates of the backs of the first and the third card, and one for a
    note that does not exist. *)
Definition back_of_1 : json dscore :=
  JDict [("note_id", JInt 1); ("fields", JDict [("Back", JStr "dessert")])].

Definition back_of_3 : json dscore :=
  JDict [("note_id", JInt 3); ("fields", JDict [("Back", JStr "cake")])].

Definition back_of_9 : json dscore :=
  JDict [("note_id", JInt 9); ("fields", JDict [])].


Lemma results_clear_the_threshold_witness :
  (exists ranked : list (candidate dscore),
      dict_get demo_found "notes"
      = Some (JList (map (format_note dscore (fun x : dscore => x)) ranked))
      /\ dict_get demo_found "found_count" = Some (len dscore ranked)
      /\ Forall (fun item => Z.geb (c_similarity item) 0 = true) ranked)
  /\ (let out := report dscore (fun x : dscore => x) dstr "Demo"
                   "apple cakes" 1000%Z (rank dscore Z.ltb 2 []) in
      outcome_of (d_find_similar_notes (Some "sk-test") "Demo" "apple cakes"
                    1000%Z 2%Z demo) = Returned out
      /\ dict_get out "success" = Some (JBool true)
      /\ (@nil (candidate dscore) = [] ->
          dict_get out "found_count" = Some (JInt 0)
          /\ dict_get out "notes" = Some (JList []))).
Proof.
  destruct (results_clear_the_threshold dscore Z.geb Z.ltb dtruthy
              (fun x : dscore => x) Z dworld dstr d_findNotes d_notesInfo
              d_embeddings d_cosine) as (above & none).
  split.
  - apply (above (Some "sk-test") "Demo" "apple cakes" 0%Z 2%Z demo demo
             demo_found demo_sent); [vm_compute |]; reflexivity.
  - apply (none "sk-test" "Demo" "apple cakes" 1000%Z 2%Z demo []);
      [| vm_compute]; reflexivity.
Defined.

Lemma blank_notes_are_never_embedded_witness :
  combined_text dscore (card 3 "apple tart" " ")
  = flattened_text (note_fields (card 3 "apple tart" " "))
  /\ score_note dscore Z.geb Z dworld dstr d_embeddings d_cosine 11%Z
       "sk-test" 0%Z (Some (card 2 "   " "")) demo
     = Run (Returned None) demo []
  /\ exists ranked : list (candidate dscore),
       dict_get demo_found "notes"
       = Some (JList (map (format_note dscore (fun x : dscore => x)) ranked))
       /\ Forall (fun item =>
                    c_combined_text item
                    = flattened_text (note_fields (c_note item))
                    /\ blank (c_combined_text item) = false) ranked.
Proof.
  destruct (blank_notes_are_never_embedded dscore Z.geb Z.ltb dtruthy
              (fun x : dscore => x) Z dworld dstr d_findNotes d_notesInfo
              d_embeddings d_cosine) as (flattened & skipped & kept).
  split; [| split].
  - apply flattened.
  - apply skipped. reflexivity.
  - apply (kept (Some "sk-test") "Demo" "apple cakes" 0%Z 2%Z demo demo
             demo_found demo_sent); [vm_compute |]; reflexivity.
Defined.

Arguments AddNote {score} note_data.
Arguments CreateDeck {score} deck.
Arguments ModelNames {score}.
Arguments CreateModel {score} model_data.
Arguments StoreMediaFile {score} filename data.
Arguments Synthesize {score} api_key data.
Arguments Ran {score World A} _ _ _.
Arguments ended {score World A} r.
Arguments world_left {score World A} r.
Arguments calls {score World A} r.
Arguments tts_status_code {score} t.
Arguments tts_text {score} t.
Arguments tts_audioContent {score} t.

(** ** A test double of the other services

    [addNote] answers a fresh identifier, [createDeck] a deck identifier,
    [modelNames] the one note type of the collection; [storeMediaFile]
    answers the name it stored the file under, which is not the name it was
    asked for; the speech service answers the text it was sent as audio. *)

Definition d_addNote (w : dworld) (note_data : json dscore)
  : reply (response dscore (json dscore)) * dworld :=
  (ok (JInt 1001), w).

Definition d_createDeck (w : dworld) (deck : string)
  : reply (response dscore (json dscore)) * dworld :=
  (ok (JInt 7), w).

Definition d_modelNames (w : dworld)
  : reply (response dscore (list string)) * dworld :=
  (ok ["Basic"], w).

Definition d_createModel (w : dworld) (model_data : pydict dscore)
  : reply (response dscore (json dscore)) * dworld :=
  (ok (JDict model_data), w).

Definition d_storeMediaFile (w : dworld) (filename : string)
  (data : json dscore) : reply (response dscore (json dscore)) * dworld :=
  (ok (JStr ("_" ++ filename)), w).

Definition d_spoken (data : json dscore) : option (json dscore) :=
  match data with
  | JDict entries =>
      match dict_get entries "input" with
      | Some (JDict input) => dict_get input "text"
      | _ => None
      end
  | _ => None
  end.

Definition d_synthesize (w : dworld) (api_key : string) (data : json dscore)
  : reply (tts_response dscore) * dworld :=
  (Replied {| tts_status_code := 200;
              tts_text := "";
              tts_audioContent := d_spoken data |}, w).

(** A store that cannot be reached. *)
Definition d_down {R : Type} (w : dworld) (query : string)
  : reply R * dworld :=
  (Unreachable "Connection refused", w).

Definition d_get_deck_notes :=
  get_deck_notes dscore dtruthy dworld dstr d_findNotes d_notesInfo.

Definition d_create_note :=
  create_note dscore dtruthy dworld dstr d_addNote.

Definition d_create_deck_with_note_type :=
  create_deck_with_note_type dscore dtruthy dworld dstr d_createDeck
    d_modelNames d_createModel.

Definition d_save_media_file :=
  save_media_file dscore dtruthy dworld dstr d_storeMediaFile.

Definition d_generate_audio :=
  generate_audio dscore dworld dstr d_synthesize.

Definition d_generate_and_save_audio :=
  generate_and_save_audio dscore dtruthy dworld dstr d_storeMediaFile
    d_synthesize.

(** An embedding service that refuses the key. *)
Definition d_refused (w : dworld) (api_key text : string)
  : reply (embedding_response Z) * dworld :=
  (Replied {| emb_status_code := 401;
              emb_text := "bad key";
              emb_embedding := None |}, w).

(** What the tools of the double return for a stored file, a generated
    audio, and both. *)
Definition demo_saved : pydict dscore :=
  [("success", JBool true);
   ("filename", JStr "_a.mp3");
   ("media_type", JStr "audio");
   ("message",
    JStr "Media file saved as '_a.mp3' in Anki's media collection")].

Definition demo_audio : pydict dscore :=
  [("success", JBool true);
   ("audio_base64", JStr "ni hao");
   ("format", JStr "mp3");
   ("language", JStr "cmn-cn");
   ("voice", JStr "v");
   ("text", JStr "ni hao");
   ("model", JStr "chirp")].

Definition demo_sound : pydict dscore :=
  [("success", JBool true);
   ("filename", JStr "_a.mp3");
   ("text", JStr "ni hao");
   ("language", JStr "cmn-cn");
   ("voice", JStr "v");
   ("sound_tag", JStr "[sound:_a.mp3]");
   ("message",
    JStr "Audio generated and saved as '_a.mp3'. Use [sound:_a.mp3] in your card fields.")].

(** The request and the result of updating the back of the first card. *)
Definition demo_update : json dscore :=
  JDict [("id", JInt 1);
         ("fields",
          JDict [("Front", JStr "apple pie"); ("Back", JStr "dessert")]);
         ("tags", JList [JStr "fruit"])].

Definition demo_updated : pydict dscore :=
  [("success", JBool true);
   ("note_id", JInt 1);
   ("updated_fields", JList [JStr "Back"]);
   ("message", JStr "Successfully updated note 1 with fields: Back")].

(** ** The further properties on the test double *)

Lemma failed_update_keeps_index_and_data_witness :
  failure_entry_of dscore 1 (JInt 7)
    (JDict [("index", JInt 1);
            ("error", JStr "Update data is not a dictionary");
            ("data", JInt 7)]).
Proof.
  exact (failed_update_keeps_index_and_data dscore dtruthy dworld dstr
           d_notesInfo d_updateNoteFields
           [JDict [("note_id", JInt 1);
                   ("fields", JDict [("Back", JStr "dessert")])]]
           (JInt 7)
           [JDict [("note_id", JInt 9); ("fields", JDict [])]]
           demo
           (JDict [("index", JInt 1);
                   ("error", JStr "Update data is not a dictionary");
                   ("data", JInt 7)])
           eq_refl).
Defined.

Lemma malformed_update_is_not_sent_witness :
  exists entry,
    update_one dscore dtruthy dworld dstr d_notesInfo d_updateNoteFields 2
      (JDict [("note_id", JInt 1)]) demo
    = Run (Returned (Failed entry)) demo []
    /\ failure_entry_of dscore 2 (JDict [("note_id", JInt 1)]) entry.
Proof.
  exact (malformed_update_is_not_sent dscore dtruthy dworld dstr d_notesInfo
           d_updateNoteFields 2 (JDict [("note_id", JInt 1)]) demo eq_refl).
Defined.

Lemma update_writes_only_notes_it_read_witness :
  exists r current_note new_fields,
    fst (d_notesInfo demo [JInt 1]) = Replied r
    /\ status_code r = 200%Z
    /\ truthy dscore dtruthy (error r) = false
    /\ first_note dscore (result r) = Some current_note
    /\ JDict [("Back", JStr "dessert")] = JDict new_fields
    /\ demo_update = note_update dscore (JInt 1) current_note new_fields JNull.
Proof.
  refine (update_writes_only_notes_it_read dscore dtruthy dworld dstr
            d_notesInfo d_updateNoteFields (JInt 1)
            (JDict [("Back", JStr "dessert")]) JNull demo demo_update _).
  right. left. reflexivity.
Defined.

Lemma update_sends_all_fields_and_callers_values_witness :
  exists r current_note (new_fields sent_fields : pydict dscore)
         (sent_tags : json dscore),
    fst (d_notesInfo demo [JInt 1]) = Replied r
    /\ first_note dscore (result r) = Some current_note
    /\ JDict [("Back", JStr "dessert")] = JDict new_fields
    /\ [NotesInfo [JInt 1]; UpdateNoteFields demo_update]
       = [NotesInfo [JInt 1];
          UpdateNoteFields (JDict [("id", JInt 1);
                                   ("fields", JDict sent_fields);
                                   ("tags", sent_tags)])]
    /\ (forall name,
           In name (dict_keys (note_fields current_note)) ->
           dict_mem sent_fields name = true)
    /\ (NoDup (dict_keys new_fields) ->
        forall name v,
          dict_get new_fields name = Some v ->
          dict_get sent_fields name = Some v)
    /\ dict_get demo_updated "updated_fields"
       = Some (JList (map JStr (dict_keys new_fields))).
Proof.
  refine (update_sends_all_fields_and_callers_values dscore dtruthy dworld
            dstr d_notesInfo d_updateNoteFields (JInt 1)
            (JDict [("Back", JStr "dessert")]) JNull demo
            (map (d_store demo_update) demo) demo_updated
            [NotesInfo [JInt 1]; UpdateNoteFields demo_update] _ _).
  - vm_compute. reflexivity.
  - reflexivity.
Defined.

Lemma create_refuses_a_non_dictionary_witness :
  d_create_notes_bulk "Default" ([new_note "a"] ++ JInt 7 :: [new_note "c"])
    demo
  = Run (Returned [("error", JStr "Note 2 is not a dictionary");
                   ("success", JBool false)]) demo [].
Proof.
  exact (create_refuses_a_non_dictionary dscore dtruthy dworld dstr d_addNotes
           "Default" [new_note "a"] (JInt 7) [new_note "c"] demo
           eq_refl eq_refl).
Defined.

Lemma search_without_key_sends_nothing_witness :
  d_find_similar_notes (Some "") "Demo" "apple" 0%Z 2%Z demo
  = Run (Returned (missing_key_error dscore)) demo []
  /\ dict_get (missing_key_error dscore) "success" = Some (JBool false)
  /\ dict_mem (missing_key_error dscore) "setup_instructions" = true.
Proof.
  refine (search_without_key_sends_nothing dscore Z.geb Z.ltb dtruthy
            (fun x : dscore => x) Z dworld dstr d_findNotes d_notesInfo
            d_embeddings d_cosine (Some "") "Demo" "apple" 0%Z 2%Z demo _).
  right. reflexivity.
Defined.

Lemma query_embedding_failure_is_fatal_witness :
  find_similar_notes dscore Z.geb Z.ltb dtruthy (fun x : dscore => x) Z
    dworld dstr d_findNotes d_notesInfo d_refused d_cosine (Some "sk-test")
    "Demo" "apple" 0%Z 2%Z demo
  = Run (Returned
           [("error",
             JStr ("Failed to find similar notes: " ++ "OpenAI API error: "
                   ++ "401" ++ " - " ++ "bad key"));
            ("success", JBool false)])
        demo
        [FindNotes ("deck:" ++ dquote ++ "Demo" ++ dquote);
         NotesInfo [JInt 1; JInt 2; JInt 3; JInt 4];
         Embeddings "sk-test" "apple"].
Proof.
  refine (query_embedding_failure_is_fatal dscore Z.geb Z.ltb dtruthy
            (fun x : dscore => x) Z dworld dstr d_findNotes d_notesInfo
            d_refused d_cosine "sk-test" "Demo" "apple" 0%Z 2%Z
            demo demo demo demo
            {| status_code := 200; error := JNull;
               result := Some [JInt 1; JInt 2; JInt 3; JInt 4] |}
            (JInt 1) [JInt 2; JInt 3; JInt 4]
            {| status_code := 200; error := JNull;
               result := Some (map Some demo) |}
            {| emb_status_code := 401; emb_text := "bad key";
               emb_embedding := None |}
            _ _ _ _ _ _ _ _ _ _);
    try reflexivity.
  discriminate.
Defined.

Lemma listing_an_empty_deck_witness :
  d_get_deck_notes "Empty" []
  = Run (Returned ("No notes found in deck '" ++ "Empty" ++ "'")) []
        [FindNotes ("deck:" ++ dquote ++ "Empty" ++ dquote)].
Proof.
  refine (listing_an_empty_deck dscore dtruthy dworld dstr d_findNotes
            d_notesInfo "Empty" [] []
            {| status_code := 200; error := JNull; result := Some [] |}
            _ _ _ _);
    try reflexivity.
  left. reflexivity.
Defined.

Lemma create_note_result_shape_witness :
  (dict_mem [("noteId", @JInt dscore 1001); ("success", JBool true)] "error"
   = true
   /\ dict_get [("noteId", @JInt dscore 1001); ("success", JBool true)]
        "success" = None)
  \/ exists note_data r,
       calls (d_create_note "Default" "Basic" (JDict [("Front", JStr "a")])
                JNull demo)
       = [AddNote note_data]
       /\ fst (d_addNote demo note_data) = Replied r
       /\ status_code r = 200%Z
       /\ [("noteId", JInt 1001); ("success", JBool true)]
          = [("noteId", result_value dscore r); ("success", JBool true)].
Proof.
  exact (create_note_result_shape dscore dtruthy dworld dstr d_addNote
           "Default" "Basic" (JDict [("Front", JStr "a")]) JNull demo
           [("noteId", JInt 1001); ("success", JBool true)] eq_refl).
Defined.

Lemma empty_fields_raise_after_deck_creation_witness :
  d_create_deck_with_note_type "Fruit" "Basic" [] JNull demo
  = Ran (Raised "list index out of range") demo [CreateDeck "Fruit"].
Proof.
  exact (empty_fields_raise_after_deck_creation dscore dtruthy dworld dstr
           d_createDeck d_modelNames d_createModel "Fruit" "Basic" demo demo
           {| status_code := 200; error := JNull; result := Some (JInt 7) |}
           eq_refl eq_refl eq_refl).
Defined.

Lemma saved_name_is_the_store_s_answer_witness :
  exists r,
    fst (d_storeMediaFile demo "a.mp3" (JStr "QUJD")) = Replied r
    /\ status_code r = 200%Z
    /\ truthy dscore dtruthy (error r) = false
    /\ dict_get demo_saved "filename" = Some (result_value dscore r)
    /\ dict_get demo_saved "media_type" = Some (JStr "audio").
Proof.
  exact (saved_name_is_the_store_s_answer dscore dtruthy dworld dstr
           d_storeMediaFile "a.mp3" (JStr "QUJD") "audio" demo demo_saved
           eq_refl eq_refl).
Defined.

Lemma generated_audio_is_the_service_s_witness :
  exists key r,
    usable_key (Some "g-key") = Some key
    /\ fst (d_synthesize demo key (speech_request dscore "ni hao" "cmn-cn" "v"))
       = Replied r
    /\ tts_status_code r = 200%Z
    /\ (exists audio,
          tts_audioContent r = Some audio
          /\ dict_get demo_audio "audio_base64" = Some audio)
    /\ dict_get demo_audio "text" = Some (JStr "ni hao")
    /\ dict_get demo_audio "language" = Some (JStr "cmn-cn")
    /\ dict_get demo_audio "voice" = Some (JStr "v").
Proof.
  exact (generated_audio_is_the_service_s dscore dworld dstr d_synthesize
           (Some "g-key") "ni hao" "cmn-cn" "v" demo demo_audio
           eq_refl eq_refl).
Defined.

Lemma only_generated_audio_is_stored_witness :
  "a.mp3" = "a.mp3"
  /\ exists key r,
       usable_key (Some "g-key") = Some key
       /\ fst (d_synthesize demo key
                 (speech_request dscore "ni hao" "cmn-cn" "v"))
          = Replied r
       /\ tts_status_code r = 200%Z
       /\ tts_audioContent r = Some (JStr "ni hao").
Proof.
  refine (only_generated_audio_is_stored dscore dtruthy dworld dstr
            d_storeMediaFile d_synthesize (Some "g-key") "ni hao" "a.mp3"
            "cmn-cn" "v" demo "a.mp3" (JStr "ni hao") _).
  right. left. reflexivity.
Defined.

Lemma sound_tag_names_the_stored_file_witness :
  exists key audio w1 r,
    calls (d_generate_and_save_audio (Some "g-key") "ni hao" "a.mp3" "cmn-cn"
             "v" demo)
    = [Synthesize key (speech_request dscore "ni hao" "cmn-cn" "v");
       StoreMediaFile "a.mp3" audio]
    /\ w1 = snd (d_synthesize demo key
                   (speech_request dscore "ni hao" "cmn-cn" "v"))
    /\ fst (d_storeMediaFile w1 "a.mp3" audio) = Replied r
    /\ dict_get demo_sound "filename" = Some (result_value dscore r)
    /\ dict_get demo_sound "sound_tag"
       = Some (JStr ("[sound:" ++ dstr (result_value dscore r) ++ "]")).
Proof.
  exact (sound_tag_names_the_stored_file dscore dtruthy dworld dstr
           d_storeMediaFile d_synthesize (Some "g-key") "ni hao" "a.mp3"
           "cmn-cn" "v" demo demo_sound eq_refl eq_refl).
Defined.

Lemma listing_raises_when_anki_is_unreachable_witness :
  get_deck_notes dscore dtruthy dworld dstr d_down d_notesInfo "Demo" demo
  = Run (Raised "Connection refused") demo
        [FindNotes ("deck:" ++ dquote ++ "Demo" ++ dquote)].
Proof.
  exact (listing_raises_when_anki_is_unreachable dscore dtruthy dworld dstr
           d_down d_notesInfo "Demo" "Connection refused" demo demo eq_refl).
Defined.
